(** * Content Guardian: a shallow embedding of the workflow engine

    The development follows the TypeScript sources of the repository:
    - the string primitives used by the result parsers ([trim], [split],
      [startsWith], [match] with a regular expression);
    - [Logger], [AIService], [BaseModule] and the ten analysis modules;
    - [ContentGuardianController] ([registerModule], [runModule],
      [runWorkflow], [generateWorkflowSummary]), the workflow presets and
      the [WorkflowManager];
    - the start of the application in [index] and the result builders of
      the test suite.

    Strings are sequences of UTF-16 code units, as in JavaScript.  Effects
    (the process-wide log, clock and UUID readings, the remote completion
    API) are threaded through an explicit [World]; a thrown exception or a
    rejected promise is the [Thrown] outcome of a computation. *)

From Stdlib Require Import NArith ZArith QArith List String Ascii Bool Lia.
From Stdlib Require Import DecimalString.
From stdpp Require Import gmap.

Set Default Proof Using "Type".
Local Open Scope nat_scope.

(* ===================================================================== *)
(** ** JavaScript strings *)
(* ===================================================================== *)

Module JS.

(** A string is a list of UTF-16 code units. *)
Abbreviation jsstring := (list N).

(** String literals of the sources (all of them ASCII). *)
Definition js (s : string) : jsstring :=
  map N_of_ascii (list_ascii_of_string s).
Arguments js s%_string.

(** The double quote, which the literals above cannot hold. *)
Definition dq : jsstring := [34%N].

(** ECMAScript [LineTerminator]: LF, CR, LS, PS. *)
Definition isLineTerminator (c : N) : bool :=
  (c =? 0x0A)%N || (c =? 0x0D)%N || (c =? 0x2028)%N || (c =? 0x2029)%N.

(** ECMAScript [WhiteSpace] and [LineTerminator] code points: what
    [String.prototype.trim] strips and what [\s] matches. *)
Definition isWhiteSpace (c : N) : bool :=
  (c =? 0x09)%N || (c =? 0x0B)%N || (c =? 0x0C)%N || (c =? 0x20)%N
  || (c =? 0xA0)%N || (c =? 0x1680)%N
  || ((0x2000 <=? c)%N && (c <=? 0x200A)%N)
  || (c =? 0x202F)%N || (c =? 0x205F)%N || (c =? 0x3000)%N
  || (c =? 0xFEFF)%N
  || isLineTerminator c.

Fixpoint trimStart (s : jsstring) : jsstring :=
  match s with
  | c :: s' => if isWhiteSpace c then trimStart s' else s
  | [] => []
  end.

Definition trimEnd (s : jsstring) : jsstring := rev (trimStart (rev s)).

(** [String.prototype.trim] *)
Definition trim (s : jsstring) : jsstring := trimEnd (trimStart s).

(** [s.split(sep)] for a one-code-unit separator: the pieces between the
    separators, in order; the empty string splits into one empty piece. *)
Fixpoint split (sep : N) (s : jsstring) : list jsstring :=
  match s with
  | [] => [[]]
  | c :: s' =>
      if (c =? sep)%N then [] :: split sep s'
      else match split sep s' with
           | piece :: pieces => (c :: piece) :: pieces
           | [] => [[c]]
           end
  end.

(** [s.startsWith(p)] *)
Fixpoint startsWith (s p : jsstring) {struct p} : bool :=
  match p, s with
  | [], _ => true
  | a :: p', c :: s' => (c =? a)%N && startsWith s' p'
  | _ :: _, [] => false
  end.

(** Upper-casing of an ASCII code unit. *)
Definition upperAscii (c : N) : N :=
  if (0x61 <=? c)%N && (c <=? 0x7A)%N then (c - 0x20)%N else c.

(** [String.prototype.toUpperCase], on the code units below 128.  It is
    only applied to text captured by an alternation of ASCII words, see
    [toUpperCase_word] below, and to the three status values; code units
    from 128 on are left as they are. *)
Definition toUpperCase (s : jsstring) : jsstring := map upperAscii s.

(** [a || b] on strings: the empty string and [undefined] are falsy. *)
Definition orElse (a : option jsstring) (b : jsstring) : jsstring :=
  match a with
  | Some (c :: s) => c :: s
  | _ => b
  end.

(** Decimal rendering of a non-negative integer, as template literals do. *)
Definition numberToString (n : nat) : jsstring :=
  js (NilEmpty.string_of_uint (Nat.to_uint n)).

End JS.
Export JS.

(* ===================================================================== *)
(** ** Regular expressions: a backtracking matcher *)
(* ===================================================================== *)

Module RegExp.

(** The fragment of the pattern language that the parsers use. *)
Inductive Regex : Type :=
| REmpty
| RChar (c : N)                      (* a literal character *)
| RClass (p : N -> bool)             (* a class escape such as \s *)
| RDot                               (* . *)
| RSeq (r1 r2 : Regex)
| RAlt (r1 r2 : Regex)               (* r1|r2 *)
| RStar (greedy : bool) (r : Regex)  (* r* and r*? *)
| RGroup (i : nat) (r : Regex)       (* the i-th capturing group *)
| RLookahead (r : Regex)             (* (?=r) *)
| REnd.                              (* $ without the m flag *)

Record Flags := { ignoreCase : bool; dotAll : bool }.

Record RegExp := {
  pattern : Regex;
  flags : Flags;
  nGroups : nat
}.

(** A literal word of the pattern. *)
Fixpoint lit (p : jsstring) : Regex :=
  match p with
  | [] => REmpty
  | [c] => RChar c
  | c :: p' => RSeq (RChar c) (lit p')
  end.

(** [Canonicalize] of the specification of the i flag (without u) maps a
    code unit to its upper case unless that leaves the one-code-unit range
    or maps a code unit from 128 on below 128.  On code units below 128 it
    is [upperAscii]; a code unit from 128 on stays at 128 or above, so
    against the ASCII characters of the patterns here the comparison below
    decides exactly as the specification does. *)
Definition canonicalize (c : N) : N :=
  if (c <? 128)%N then upperAscii c else c.

Definition charMatches (fl : Flags) (c x : N) : bool :=
  if ignoreCase fl then (canonicalize x =? canonicalize c)%N else (x =? c)%N.

Definition dotMatches (fl : Flags) (x : N) : bool :=
  if dotAll fl then true else negb (isLineTerminator x).

(** Captures: slot [i] holds what group [i] matched; slot 0 is the whole
    match, filled in by [exec]. *)
Abbreviation Captures := (list (option jsstring)).

(** The state handed to a continuation: the input still to be read and the
    captures so far. *)
Abbreviation MatchResult := (option (jsstring * Captures)).
Abbreviation Cont := (jsstring -> Captures -> MatchResult).

Definition consumed (s s' : jsstring) : jsstring :=
  take (length s - length s') s.

(** The loop of a star.  [body] is the matcher of the repeated pattern.
    A greedy star tries one more iteration before the continuation, a lazy
    star the continuation first; an iteration that reads nothing is
    rejected.  [fuel] bounds the number of iterations; the matcher starts
    it at the length of the input, which an iteration shortens by one at
    least. *)
Fixpoint starLoop (body : Cont -> Cont) (greedy : bool) (k : Cont)
    (fuel : nat) (s : jsstring) (caps : Captures) {struct fuel}
    : MatchResult :=
  let again (_ : unit) : MatchResult :=
    match fuel with
    | O => None
    | S fuel' =>
        body (fun s' caps' =>
                if length s' <? length s
                then starLoop body greedy k fuel' s' caps'
                else None)
             s caps
    end in
  if greedy then
    match again tt with
    | Some m => Some m
    | None => k s caps
    end
  else
    match k s caps with
    | Some m => Some m
    | None => again tt
    end.

(** The matcher in continuation-passing style, as the language
    specification gives it: [k] is what remains to be matched after [r];
    alternatives are tried left to right, and a failure of [k] makes the
    matcher fall back to the latest untried choice. *)
Fixpoint rmatch (fl : Flags) (r : Regex) (k : Cont) (s : jsstring)
    (caps : Captures) {struct r} : MatchResult :=
  match r with
| REmpty => k s caps
| RChar c =>
      match s with
      | x :: s' => if charMatches fl c x then k s' caps else None
      | [] => None
      end
| RClass p =>
      match s with
      | x :: s' => if p x then k s' caps else None
      | [] => None
      end
| RDot =>
      match s with
      | x :: s' => if dotMatches fl x then k s' caps else None
      | [] => None
      end
| RSeq r1 r2 => rmatch fl r1 (rmatch fl r2 k) s caps
| RAlt r1 r2 =>
      match rmatch fl r1 k s caps with
      | Some m => Some m
      | None => rmatch fl r2 k s caps
      end
| RStar greedy r1 => starLoop (rmatch fl r1) greedy k (length s) s caps
| RGroup i r1 =>
      rmatch fl r1
        (fun s' caps' => k s' (<[i := Some (consumed s s')]> caps'))
        s caps
| RLookahead r1 =>
      match rmatch fl r1 (fun s' caps' => Some (s', caps')) s caps with
      | Some (_, caps') => k s caps'
      | None => None
      end
| REnd =>
      match s with
      | [] => k s caps
      | _ :: _ => None
      end
  end.

(** One attempt at the current position, with fresh captures. *)
Definition matchHere (re : RegExp) (s : jsstring) : MatchResult :=
  rmatch (flags re) (pattern re) (fun s' caps => Some (s', caps)) s
    (replicate (S (nGroups re)) None).

(** [RegExp.prototype.exec] from the start of the input, for a pattern
    without the g and y flags: the attempt is repeated at every position,
    left to right, the end of the input included. *)
Fixpoint exec (re : RegExp) (s : jsstring) : option Captures :=
  match matchHere re s with
  | Some (s', caps) => Some (<[0 := Some (consumed s s')]> caps)
  | None =>
      match s with
      | [] => None
      | _ :: t => exec re t
      end
  end.

(** [s.match(re)] *)
Definition String_match (s : jsstring) (re : RegExp) : option Captures :=
  exec re s.

(** [m[i]] of a match array whose group [i] took part in the match. *)
Definition capture (m : Captures) (i : nat) : jsstring :=
  match m !! i with
  | Some (Some t) => t
  | _ => []
  end.

End RegExp.
Export RegExp.

(* ===================================================================== *)
(** ** The data model (interfaces/ModuleInterfaces) *)
(* ===================================================================== *)

Inductive ModuleStatus := success | warning | error.

#[export] Instance ModuleStatus_eq_dec : EqDecision ModuleStatus.
Proof. solve_decision. Defined.

(** The string behind a status value. *)
Definition statusString (st : ModuleStatus) : jsstring :=
  match st with
  | success => js "success"
  | warning => js "warning"
  | error => js "error"
  end.

Module ModuleMetadata.
Record t := {
  timestamp : jsstring;
  promptUsed : jsstring;
  modelVersion : jsstring
}.
End ModuleMetadata.

(** [recommendedFixes] is an optional field: [None] is the absent field. *)
Module ModuleResult.
Record t := {
  moduleId : jsstring;
  status : ModuleStatus;
  report : jsstring;
  recommendedFixes : option (list jsstring);
  metadata : ModuleMetadata.t
}.
End ModuleResult.

Inductive ContentType := book | article | essay | other.

Definition contentTypeString (c : ContentType) : jsstring :=
  match c with
  | book => js "book"
  | article => js "article"
  | essay => js "essay"
  | other => js "other"
  end.

(** [content] is declared as a string, but a record read from a request
    may lack it: [None] is the missing (undefined) content. *)
Module ContentInput.
Record t := {
  content : option jsstring;
  title : option jsstring;
  author : option jsstring;
  targetAudience : option jsstring;
  contentType : option ContentType;
  additionalContext : option (gmap jsstring jsstring)
}.
End ContentInput.

(** JavaScript numbers are taken as rationals here; they are only passed
    on to the completion API. *)
Abbreviation number := Q.

(** [a || b] on numbers: zero and [undefined] are falsy. *)
Definition numberOr (a : option number) (b : number) : number :=
  match a with
  | Some q => if Qeq_bool q 0%Q then b else q
  | None => b
  end.
Arguments numberOr a b%_Q.

Module ModuleOptions.
Record t := {
  verbose : option bool;
  maxTokens : option number;
  model : option jsstring;
  customPrompt : option jsstring
}.
End ModuleOptions.

(** [options?.customPrompt] and [options?.model] for optional options. *)
Definition customPromptOf (options : option ModuleOptions.t)
    : option jsstring :=
  match options with
  | Some o => ModuleOptions.customPrompt o
  | None => None
  end.

Definition modelOf (options : option ModuleOptions.t) : option jsstring :=
  match options with
  | Some o => ModuleOptions.model o
  | None => None
  end.

Definition maxTokensOf (options : option ModuleOptions.t) : option number :=
  match options with
  | Some o => ModuleOptions.maxTokens o
  | None => None
  end.

(** [options] is a plain object used as a map from module ids to options
    (own properties only). *)
Module WorkflowOptions.
Record t := {
  modules : list jsstring;
  sequential : option bool;
  stopOnError : option bool;
  options : option (gmap jsstring ModuleOptions.t)
}.
End WorkflowOptions.

(** Truthiness of an optional boolean flag. *)
Definition truthy (flag : option bool) : bool :=
  match flag with
  | Some true => true
  | _ => false
  end.

Module WorkflowResult.
Record t := {
  workflowId : jsstring;
  timestamp : jsstring;
  status : ModuleStatus;
  results : list ModuleResult.t;
  summary : jsstring
}.
End WorkflowResult.

(* ===================================================================== *)
(** ** Effects: exceptions, the world, the outside collaborators *)
(* ===================================================================== *)

(** What a [catch] clause receives: an [Error] object with its message, or
    any other thrown value with its [String(...)] rendering. *)
Inductive JsThrown :=
| JsError (message : jsstring)
| JsOther (rendering : jsstring).

(** [error instanceof Error ? error.message : String(error)] *)
Definition errorText (e : JsThrown) : jsstring :=
  match e with
  | JsError m => m
  | JsOther r => r
  end.

(** A call returns a value or throws; for an asynchronous function, its
    promise is fulfilled or rejected. *)
Inductive Outcome (A : Type) :=
| Returned (a : A)
| Thrown (e : JsThrown).
Arguments Returned {A} a.
Arguments Thrown {A} e.

Module AIServiceOptions.
Record t := {
  model : option jsstring;
  maxTokens : option number;
  temperature : option number;
  topP : option number;
  frequencyPenalty : option number;
  presencePenalty : option number
}.
End AIServiceOptions.

(** The request sent to the chat completion endpoint; [content] is the
    text of its single user message. *)
Module ChatRequest.
Record t := {
  model : jsstring;
  content : jsstring;
  max_tokens : number;
  temperature : number;
  top_p : number;
  frequency_penalty : number;
  presence_penalty : number
}.
End ChatRequest.

(** The collaborators outside the repository: the completion endpoint of
    the OpenAI client, the clock and the UUID generator.  The endpoint has
    a state of its own; its answer is
    [response.choices[0]?.message?.content] ([None] when that is missing),
    or a failure.  The [n]-th reading of the environment made by a run
    yields [isoString n] from the clock ([new Date().toISOString()]) or
    [uuidString n] from the generator ([uuidv4()]). *)
Class External := {
  ApiState : Type;
  chatCompletionsCreate :
    ChatRequest.t -> ApiState -> Outcome (option jsstring) * ApiState;
  isoString : nat -> jsstring;
  uuidString : nat -> jsstring
}.

Inductive LogLevel := DEBUG | INFO | WARNING | ERROR.

#[export] Instance LogLevel_eq_dec : EqDecision LogLevel.
Proof. solve_decision. Defined.

Module LogEntry.
Record t := {
  timestamp : jsstring;
  level : LogLevel;
  moduleId : jsstring;
  message : jsstring;
  data : option JsThrown
}.
End LogEntry.

(** The mutable state a run can touch: the entries of the [Logger]
    singleton, the number of clock and UUID readings made so far, and the
    state of the completion endpoint. *)
Record World `{External} := {
  logs : list LogEntry.t;
  reads : nat;
  api : ApiState
}.

(** Computations: state passing with exceptions. *)
Definition M `{External} (A : Type) : Type := World -> Outcome A * World.

Definition ret `{External} {A} (a : A) : M A := fun w => (Returned a, w).

Definition bind `{External} {A B} (m : M A) (f : A -> M B) : M B :=
  fun w =>
    match m w with
    | (Returned a, w') => f a w'
    | (Thrown e, w') => (Thrown e, w')
    end.

Definition throw `{External} {A} (e : JsThrown) : M A :=
  fun w => (Thrown e, w).

(** [try { body } catch (e) { handler }] *)
Definition tryCatch `{External} {A} (body : M A) (handler : JsThrown -> M A)
    : M A :=
  fun w =>
    match body w with
    | (Returned a, w') => (Returned a, w')
    | (Thrown e, w') => handler e w'
    end.

Notation "x <- m ;; k" := (bind m (fun x => k))
  (at level 100, m at next level, right associativity).
Notation "m ;;; k" := (bind m (fun _ => k))
  (at level 100, right associativity).

(** [new Date().toISOString()] *)
Definition nowISO `{External} : M jsstring :=
  fun w =>
    (Returned (isoString (reads w)),
     {| logs := logs w; reads := S (reads w); api := api w |}).

(** [uuidv4()] *)
Definition uuidv4 `{External} : M jsstring :=
  fun w =>
    (Returned (uuidString (reads w)),
     {| logs := logs w; reads := S (reads w); api := api w |}).

(** [await this.openai.chat.completions.create(request)] *)
Definition callApi `{External} (request : ChatRequest.t)
    : M (option jsstring) :=
  fun w =>
    let (answer, a) := chatCompletionsCreate request (api w) in
    (answer, {| logs := logs w; reads := reads w; api := a |}).

(* ===================================================================== *)
(** ** utils/logger *)
(* ===================================================================== *)

Module Logger.
Section Logger.
Context `{External}.

(** The entry is stamped and pushed onto the log.  The echo on the
    console is not part of the model. *)
Definition log (level : LogLevel) (moduleId message : jsstring)
    (data : option JsThrown) : M unit :=
  stamp <- nowISO ;;
  fun w =>
    (Returned tt,
     {| logs := logs w ++
                [ {| LogEntry.timestamp := stamp;
                     LogEntry.level := level;
                     LogEntry.moduleId := moduleId;
                     LogEntry.message := message;
                     LogEntry.data := data |} ];
        reads := reads w;
        api := api w |}).

Definition debug (moduleId message : jsstring) : M unit :=
  log DEBUG moduleId message None.

Definition info (moduleId message : jsstring) : M unit :=
  log INFO moduleId message None.

Definition warning (moduleId message : jsstring) : M unit :=
  log WARNING moduleId message None.

Definition error (moduleId message : jsstring) (data : option JsThrown)
    : M unit :=
  log ERROR moduleId message data.

(** The test of [getLogs(level?, moduleId?)] on one entry.  A filter that
    is left out does not apply, and neither does the empty string as
    module id, which is falsy; the log levels are non-empty strings. *)
Definition selects (level : option LogLevel) (moduleId : option jsstring)
    (log : LogEntry.t) : bool :=
  if match level with
     | Some l => negb (bool_decide (LogEntry.level log = l))
     | None => false
     end
  then false
  else if match moduleId with
          | Some (c :: s) =>
              negb (bool_decide (LogEntry.moduleId log = c :: s))
          | _ => false
          end
  then false
  else true.

Definition getLogs (level : option LogLevel) (moduleId : option jsstring)
    : M (list LogEntry.t) :=
  fun w => (Returned (List.filter (selects level moduleId) (logs w)), w).

Definition clearLogs : M unit :=
  fun w => (Returned tt, {| logs := []; reads := reads w; api := api w |}).

End Logger.
End Logger.

(* ===================================================================== *)
(** ** utils/AIService *)
(* ===================================================================== *)

Module AIService.
Section AIService.
Context `{External}.

(** The argument of [this.openai.chat.completions.create]. *)
Definition chatRequest (prompt : jsstring) (options : AIServiceOptions.t)
    : ChatRequest.t :=
  {| ChatRequest.model :=
       orElse (AIServiceOptions.model options) (js "gpt-4");
     ChatRequest.content := prompt;
     ChatRequest.max_tokens :=
       numberOr (AIServiceOptions.maxTokens options) 1000;
     ChatRequest.temperature :=
       numberOr (AIServiceOptions.temperature options) 0.7;
     ChatRequest.top_p :=
       numberOr (AIServiceOptions.topP options) 1;
     ChatRequest.frequency_penalty :=
       numberOr (AIServiceOptions.frequencyPenalty options) 0;
     ChatRequest.presence_penalty :=
       numberOr (AIServiceOptions.presencePenalty options) 0 |}.

Definition generateCompletion (prompt : jsstring)
    (options : AIServiceOptions.t) : M jsstring :=
  tryCatch
    (Logger.info (js "AIService")
       (js "Generating completion with model: "
        ++ orElse (AIServiceOptions.model options) (js "default")) ;;;
     response <- callApi (chatRequest prompt options) ;;
     let completion := orElse response [] in
     Logger.info (js "AIService") (js "Completion generated successfully") ;;;
     ret completion)
    (fun error =>
       Logger.error (js "AIService") (js "Error generating completion")
         (Some error) ;;;
       throw (JsError (js "Failed to generate completion: "
                       ++ errorText error))).

Definition convertModuleOptionsToAIOptions
    (moduleOptions : option ModuleOptions.t) : AIServiceOptions.t :=
  {| AIServiceOptions.model :=
       Some (orElse (modelOf moduleOptions) (js "gpt-4"));
     AIServiceOptions.maxTokens :=
       Some (numberOr (maxTokensOf moduleOptions) 1000);
     AIServiceOptions.temperature := Some 0.7%Q;
     AIServiceOptions.topP := Some 1%Q;
     AIServiceOptions.frequencyPenalty := Some 0%Q;
     AIServiceOptions.presencePenalty := Some 0%Q |}.

End AIService.
End AIService.

(* ===================================================================== *)
(** ** utils/BaseModule and the analysis modules *)
(* ===================================================================== *)

Definition nl : jsstring := [0x0A%N].

(** How [preparePrompt] of a module renders the content record. *)
Inductive PromptLayout :=
| TitleAuthorType        (* title, author, content type *)
| WithTargetAudience     (* ... and the target audience *)
| WithTrace.             (* ... and trace id, timestamp, model *)

(** The ten module classes share the text of [process], [preparePrompt]
    and of their parser; what differs from class to class is collected
    here: the two public fields, the default prompt, the layout of the
    prompt, the messages, the two patterns of the parser with the literal
    of its [startsWith] test, and the labels of its [switch]. *)
Module ModuleClass.
Record t := {
  moduleId : jsstring;
  description : jsstring;
  getDefaultPrompt : jsstring;
  layout : PromptLayout;
  invalidInputFix : jsstring;
  startMessage : jsstring;
  completedMessage : jsstring;
  errorMessage : jsstring;
  retryFix : jsstring;
  statusRegExp : RegExp;
  sectionRegExp : RegExp;
  sectionHeader : jsstring;
  caseSuccess : jsstring;
  caseWarning : jsstring;
  caseError : jsstring
}.
End ModuleClass.

(** [r1|r2|...|rn] *)
Fixpoint alternatives (rs : list Regex) : Regex :=
  match rs with
  | [] => REmpty
  | [r] => r
  | r :: rs' => RAlt r (alternatives rs')
  end.

(** [/FIELD:\s*(T1|T2|T3)/i] *)
Definition statusPattern (field t1 t2 t3 : jsstring) : RegExp :=
  {| pattern :=
       RSeq (lit field)
         (RSeq (RStar true (RClass isWhiteSpace))
            (RGroup 1 (alternatives [lit t1; lit t2; lit t3])));
     flags := {| ignoreCase := true; dotAll := false |};
     nGroups := 1 |}.

(** [/HEADER:(.*?)(?=STOP1:|...|STOPn:|$)/is] *)
Definition sectionPattern (header : jsstring) (stops : list jsstring)
    : RegExp :=
  {| pattern :=
       RSeq (lit header)
         (RSeq (RGroup 1 (RStar false RDot))
            (RLookahead (alternatives (map lit stops ++ [REnd]))));
     flags := {| ignoreCase := true; dotAll := true |};
     nGroups := 1 |}.

Module Parsed.
Record t := {
  report : jsstring;
  status : ModuleStatus;
  recommendedFixes : list jsstring
}.
End Parsed.

(** [parseFactCheckResults] and its nine siblings
    ([parseEthicalEvaluationResults], ...). *)
Definition parseResults (self : ModuleClass.t) (completion : jsstring)
    : Parsed.t :=
  let overallAssessmentMatch :=
    String_match completion (ModuleClass.statusRegExp self) in
  let overallAssessment :=
    match overallAssessmentMatch with
    | Some m => toUpperCase (capture m 1)
    | None => js "UNKNOWN"
    end in
  let recommendationsMatch :=
    String_match completion (ModuleClass.sectionRegExp self) in
  let recommendationsText :=
    match recommendationsMatch with
    | Some m => trim (capture m 1)
    | None => []
    end in
  let recommendedFixes :=
    List.filter
      (fun line =>
         (0 <? length line)
         && negb (startsWith line (ModuleClass.sectionHeader self)))
      (map trim (split 0x0A recommendationsText)) in
  let status :=
    if bool_decide (overallAssessment = ModuleClass.caseSuccess self)
    then success
    else if bool_decide (overallAssessment = ModuleClass.caseWarning self)
    then warning
    else if bool_decide (overallAssessment = ModuleClass.caseError self)
    then error
    else warning in
  {| Parsed.report := completion;
     Parsed.status := status;
     Parsed.recommendedFixes := recommendedFixes |}.

(** [${input.content}]: a missing value renders as "undefined". *)
Definition contentText (input : ContentInput.t) : jsstring :=
  match ContentInput.content input with
  | Some c => c
  | None => js "undefined"
  end.

(** [input.contentType || 'Unknown'] *)
Definition contentTypeText (input : ContentInput.t) : jsstring :=
  match ContentInput.contentType input with
  | Some c => contentTypeString c
  | None => js "Unknown"
  end.

Module BaseModule.
Section BaseModule.
Context `{External}.
Variable self : ModuleClass.t.

Definition createMetadata (options : option ModuleOptions.t)
    : M ModuleMetadata.t :=
  stamp <- nowISO ;;
  ret {| ModuleMetadata.timestamp := stamp;
         ModuleMetadata.promptUsed :=
           orElse (customPromptOf options)
                  (ModuleClass.getDefaultPrompt self);
         ModuleMetadata.modelVersion :=
           orElse (modelOf options) (js "default-model") |}.

Definition createResult (status : ModuleStatus) (report : jsstring)
    (recommendedFixes : option (list jsstring))
    (metadata : option ModuleMetadata.t) : M ModuleResult.t :=
  md <- match metadata with
        | Some md => ret md
        | None => createMetadata None
        end ;;
  let result :=
    {| ModuleResult.moduleId := ModuleClass.moduleId self;
       ModuleResult.status := status;
       ModuleResult.report := report;
       ModuleResult.recommendedFixes :=
         match recommendedFixes with
         | Some (fix1 :: fixes) => Some (fix1 :: fixes)
         | _ => None
         end;
       ModuleResult.metadata := md |} in
  Logger.info (ModuleClass.moduleId self)
    (js "Module processing completed with status: "
     ++ statusString status) ;;;
  ret result.

(** [input] is a record, hence truthy; its content is rejected when it is
    missing, empty, or empty once trimmed. *)
Definition validateInput (input : ContentInput.t) : M bool :=
  let invalid :=
    Logger.error (ModuleClass.moduleId self)
      (js "Invalid input: content is required") None ;;;
    ret false in
  match ContentInput.content input with
  | Some (c :: s) =>
      if bool_decide (trim (c :: s) = []) then invalid else ret true
  | _ => invalid
  end.

Definition preparePrompt (input : ContentInput.t)
    (options : option ModuleOptions.t) : M jsstring :=
  let customPrompt :=
    orElse (customPromptOf options) (ModuleClass.getDefaultPrompt self) in
  let heading :=
    nl ++ customPrompt ++ nl ++ nl
    ++ js "CONTENT TO ANALYZE:" ++ nl
    ++ js "Title: " ++ orElse (ContentInput.title input) (js "Untitled")
    ++ nl
    ++ js "Author: " ++ orElse (ContentInput.author input) (js "Unknown")
    ++ nl
    ++ js "Content Type: " ++ contentTypeText input ++ nl in
  let body := nl ++ contentText input ++ nl ++ js "    " in
  match ModuleClass.layout self with
  | TitleAuthorType => ret (heading ++ body)
  | WithTargetAudience =>
      ret (heading
           ++ js "Target Audience: "
           ++ orElse (ContentInput.targetAudience input) (js "General")
           ++ nl ++ body)
  | WithTrace =>
      traceId <- uuidv4 ;;
      stamp <- nowISO ;;
      ret (heading
           ++ js "Trace ID: " ++ traceId ++ nl
           ++ js "Timestamp: " ++ stamp ++ nl
           ++ js "Model: " ++ orElse (modelOf options) (js "default-model")
           ++ nl ++ body)
  end.

Definition process (input : ContentInput.t)
    (options : option ModuleOptions.t) : M ModuleResult.t :=
  valid <- validateInput input ;;
  if negb valid then
    md <- createMetadata options ;;
    createResult error (js "Invalid input: content is required")
      (Some [ModuleClass.invalidInputFix self]) (Some md)
  else
    Logger.info (ModuleClass.moduleId self)
      (ModuleClass.startMessage self) ;;;
    tryCatch
      (prompt <- preparePrompt input options ;;
       let aiOptions :=
         AIService.convertModuleOptionsToAIOptions options in
       completion <- AIService.generateCompletion prompt aiOptions ;;
       let parsed := parseResults self completion in
       Logger.info (ModuleClass.moduleId self)
         (ModuleClass.completedMessage self
          ++ statusString (Parsed.status parsed)) ;;;
       md <- createMetadata options ;;
       createResult (Parsed.status parsed) (Parsed.report parsed)
         (Some (Parsed.recommendedFixes parsed)) (Some md))
      (fun e =>
         Logger.error (ModuleClass.moduleId self)
           (ModuleClass.errorMessage self) (Some e) ;;;
         md <- createMetadata options ;;
         createResult error
           (ModuleClass.errorMessage self ++ js ": " ++ errorText e)
           (Some [ModuleClass.retryFix self;
                  js "Check API connectivity"])
           (Some md)).

End BaseModule.
End BaseModule.

(** The interface the controller works with. *)
Module ContentGuardianModule.
Record t `{External} := {
  moduleId : jsstring;
  description : jsstring;
  process : ContentInput.t -> option ModuleOptions.t -> M ModuleResult.t
}.
End ContentGuardianModule.

(** [new C()] for a module class [C]. *)
Definition instantiate `{External} (C : ModuleClass.t)
    : ContentGuardianModule.t :=
  {| ContentGuardianModule.moduleId := ModuleClass.moduleId C;
     ContentGuardianModule.description := ModuleClass.description C;
     ContentGuardianModule.process := BaseModule.process C |}.

(** A multi-line template literal, line by line. *)
Fixpoint joinLines (ls : list jsstring) : jsstring :=
  match ls with
  | [] => []
  | [l] => l
  | l :: ls' => l ++ nl ++ joinLines ls'
  end.

(** The ten module classes of [src/modules]. *)
Module Modules.

Definition FactCheckLayer : ModuleClass.t :=
  {| ModuleClass.moduleId := js "FactCheckLayer";
     ModuleClass.description :=
       js "Validates facts, detects speculative/fabricated claims, and reports suspicious statements with risk levels";
     ModuleClass.getDefaultPrompt := joinLines [
       [];
       js "You are a fact-checking expert tasked with validating the factual accuracy of the provided content.";
       js "Analyze the text for:";
       js "1. Factual claims that can be verified";
       js "2. Speculative or fabricated statements presented as facts";
       js "3. Misleading statistics or data";
       js "4. Unsupported generalizations";
       [];
       js "For each identified issue:";
       js "- Quote the exact text";
       js "- Explain why it's problematic";
       js "- Assign a risk level (LOW, MEDIUM, HIGH)";
       js "- Suggest a correction or clarification if possible";
       js "- Provide a source for verification when available";
       [];
       js "Format your response as follows:";
       js "SUMMARY: Brief overview of the fact check results";
       js "ISSUES: List of identified issues with details";
       js "RECOMMENDATIONS: Suggested fixes or improvements";
       js "OVERALL_ASSESSMENT: Either " ++ dq ++ js "PASS" ++ dq
         ++ js ", " ++ dq ++ js "PASS_WITH_WARNINGS" ++ dq ++ js ", or "
         ++ dq ++ js "FAIL" ++ dq;
       js "    " ];
     ModuleClass.layout := TitleAuthorType;
     ModuleClass.invalidInputFix :=
       js "Provide non-empty content for fact checking";
     ModuleClass.startMessage := js "Starting fact checking process";
     ModuleClass.completedMessage :=
       js "Fact checking completed with status: ";
     ModuleClass.errorMessage :=
       js "Error during fact checking";
     ModuleClass.retryFix :=
       js "Retry the fact checking process";
     ModuleClass.statusRegExp :=
       statusPattern (js "OVERALL_ASSESSMENT:")
         (js "PASS")
         (js "PASS_WITH_WARNINGS")
         (js "FAIL");
     ModuleClass.sectionRegExp :=
       sectionPattern (js "RECOMMENDATIONS:")
         [js "OVERALL_ASSESSMENT:"];
     ModuleClass.sectionHeader := js "RECOMMENDATIONS:";
     ModuleClass.caseSuccess := js "PASS";
     ModuleClass.caseWarning := js "PASS_WITH_WARNINGS";
     ModuleClass.caseError := js "FAIL" |}.

Definition EthicalGuardian : ModuleClass.t :=
  {| ModuleClass.moduleId := js "EthicalGuardian";
     ModuleClass.description :=
       js "Detects subconscious stereotypes, discriminatory phrases, and ethically questionable language";
     ModuleClass.getDefaultPrompt := joinLines [
       [];
       js "You are an ethical content reviewer tasked with identifying potentially problematic language, stereotypes, and biases in the provided content.";
       js "Analyze the text for:";
       js "1. Explicit or implicit stereotypes based on gender, race, ethnicity, religion, age, disability, etc.";
       js "2. Discriminatory language or microaggressions";
       js "3. Cultural appropriation or insensitivity";
       js "4. Exclusionary terminology or framing";
       js "5. Problematic assumptions about readers or subjects";
       js "6. Ethically questionable perspectives or implications";
       [];
       js "For each identified issue:";
       js "- Quote the exact text";
       js "- Explain why it's problematic";
       js "- Suggest more inclusive or balanced alternatives";
       js "- Consider the context and intent before flagging";
       [];
       js "Format your response as follows:";
       js "SUMMARY: Brief overview of the ethical evaluation";
       js "ISSUES: List of identified issues with details";
       js "RECOMMENDATIONS: Suggested fixes or improvements";
       js "TONE_ASSESSMENT: Evaluation of overall tone and inclusivity";
       js "OVERALL_RATING: Either " ++ dq ++ js "ACCEPTABLE" ++ dq
         ++ js ", " ++ dq ++ js "NEEDS_REVISION" ++ dq ++ js ", or " ++ dq
         ++ js "PROBLEMATIC" ++ dq;
       js "    " ];
     ModuleClass.layout := WithTargetAudience;
     ModuleClass.invalidInputFix :=
       js "Provide non-empty content for ethical evaluation";
     ModuleClass.startMessage := js "Starting ethical evaluation process";
     ModuleClass.completedMessage :=
       js "Ethical evaluation completed with status: ";
     ModuleClass.errorMessage :=
       js "Error during ethical evaluation";
     ModuleClass.retryFix :=
       js "Retry the ethical evaluation process";
     ModuleClass.statusRegExp :=
       statusPattern (js "OVERALL_RATING:")
         (js "ACCEPTABLE")
         (js "NEEDS_REVISION")
         (js "PROBLEMATIC");
     ModuleClass.sectionRegExp :=
       sectionPattern (js "RECOMMENDATIONS:")
         [js "TONE_ASSESSMENT:"; js "OVERALL_RATING:"];
     ModuleClass.sectionHeader := js "RECOMMENDATIONS:";
     ModuleClass.caseSuccess := js "ACCEPTABLE";
     ModuleClass.caseWarning := js "NEEDS_REVISION";
     ModuleClass.caseError := js "PROBLEMATIC" |}.

Definition ToneAndAudienceModulator : ModuleClass.t :=
  {| ModuleClass.moduleId := js "ToneAndAudienceModulator";
     ModuleClass.description :=
       js "Analyzes target audience and language level, suggests stylistic changes for consistent tone";
     ModuleClass.getDefaultPrompt := joinLines [
       [];
       js "You are a professional editor specializing in tone analysis and audience targeting.";
       js "Analyze the provided content for:";
       js "1. Current tone and voice (formal, casual, academic, conversational, etc.)";
       js "2. Language complexity and readability level (grade level, technical density)";
       js "3. Consistency of tone throughout the document";
       js "4. Appropriateness for the stated target audience";
       js "5. Vocabulary and terminology usage";
       js "6. Sentence structure and paragraph flow";
       [];
       js "Provide detailed analysis including:";
       js "- Assessment of current tone and style";
       js "- Identification of inconsistencies or shifts in tone";
       js "- Evaluation of audience appropriateness";
       js "- Specific examples of text that could be improved";
       js "- Suggested revisions with examples";
       [];
       js "Format your response as follows:";
       js "TONE_ANALYSIS: Detailed assessment of current tone";
       js "AUDIENCE_FIT: Evaluation of appropriateness for target audience";
       js "READABILITY_METRICS: Estimated reading level and complexity";
       js "CONSISTENCY_ISSUES: Identified tone shifts or inconsistencies";
       js "RECOMMENDATIONS: Specific suggestions for improvement";
       js "OVERALL_ASSESSMENT: Either " ++ dq ++ js "WELL_ALIGNED" ++ dq
         ++ js ", " ++ dq ++ js "MINOR_ADJUSTMENTS_NEEDED" ++ dq
         ++ js ", or " ++ dq ++ js "MAJOR_REVISION_REQUIRED" ++ dq;
       js "    " ];
     ModuleClass.layout := WithTargetAudience;
     ModuleClass.invalidInputFix :=
       js "Provide non-empty content for tone and audience analysis";
     ModuleClass.startMessage := js "Starting tone and audience analysis";
     ModuleClass.completedMessage :=
       js "Tone and audience analysis completed with status: ";
     ModuleClass.errorMessage :=
       js "Error during tone and audience analysis";
     ModuleClass.retryFix :=
       js "Retry the tone and audience analysis";
     ModuleClass.statusRegExp :=
       statusPattern (js "OVERALL_ASSESSMENT:")
         (js "WELL_ALIGNED")
         (js "MINOR_ADJUSTMENTS_NEEDED")
         (js "MAJOR_REVISION_REQUIRED");
     ModuleClass.sectionRegExp :=
       sectionPattern (js "RECOMMENDATIONS:")
         [js "OVERALL_ASSESSMENT:"];
     ModuleClass.sectionHeader := js "RECOMMENDATIONS:";
     ModuleClass.caseSuccess := js "WELL_ALIGNED";
     ModuleClass.caseWarning := js "MINOR_ADJUSTMENTS_NEEDED";
     ModuleClass.caseError := js "MAJOR_REVISION_REQUIRED" |}.

Definition PlotLogicBuilder : ModuleClass.t :=
  {| ModuleClass.moduleId := js "PlotLogicBuilder";
     ModuleClass.description :=
       js "Creates a map of plot, logical connections, and argumentation nodes";
     ModuleClass.getDefaultPrompt := joinLines [
       [];
       js "You are a structural editor specializing in narrative and argumentative flow analysis.";
       js "Analyze the provided content to create a detailed map of:";
       js "1. Main themes, arguments, or plot points";
       js "2. Logical connections between ideas or events";
       js "3. Argumentative structure and evidence chains";
       js "4. Narrative arcs or argument progression";
       js "5. Potential logical fallacies or plot holes";
       js "6. Structural balance and pacing";
       [];
       js "For narrative content, focus on:";
       js "- Plot structure and story arcs";
       js "- Character development and relationships";
       js "- Setting and world-building elements";
       js "- Conflict and resolution patterns";
       js "- Pacing and tension management";
       [];
       js "For argumentative/academic content, focus on:";
       js "- Thesis statements and main arguments";
       js "- Evidence presentation and quality";
       js "- Logical flow between concepts";
       js "- Counter-arguments and their handling";
       js "- Conclusion strength and implications";
       [];
       js "Format your response as follows:";
       js "STRUCTURE_MAP: Visual representation of content structure";
       js "KEY_ELEMENTS: List of main components (arguments, plot points, etc.)";
       js "CONNECTIONS: Identified relationships between elements";
       js "STRUCTURAL_ISSUES: Potential problems in logic or narrative flow";
       js "RECOMMENDATIONS: Suggestions for structural improvement";
       js "OVERALL_COHERENCE: Either " ++ dq ++ js "STRONG" ++ dq
         ++ js ", " ++ dq ++ js "ADEQUATE" ++ dq ++ js ", or " ++ dq
         ++ js "NEEDS_RESTRUCTURING" ++ dq;
       js "    " ];
     ModuleClass.layout := TitleAuthorType;
     ModuleClass.invalidInputFix :=
       js "Provide non-empty content for plot/logic analysis";
     ModuleClass.startMessage := js "Starting plot and logic structure analysis";
     ModuleClass.completedMessage :=
       js "Plot and logic analysis completed with status: ";
     ModuleClass.errorMessage :=
       js "Error during plot and logic analysis";
     ModuleClass.retryFix :=
       js "Retry the plot and logic analysis";
     ModuleClass.statusRegExp :=
       statusPattern (js "OVERALL_COHERENCE:")
         (js "STRONG")
         (js "ADEQUATE")
         (js "NEEDS_RESTRUCTURING");
     ModuleClass.sectionRegExp :=
       sectionPattern (js "RECOMMENDATIONS:")
         [js "OVERALL_COHERENCE:"];
     ModuleClass.sectionHeader := js "RECOMMENDATIONS:";
     ModuleClass.caseSuccess := js "STRONG";
     ModuleClass.caseWarning := js "ADEQUATE";
     ModuleClass.caseError := js "NEEDS_RESTRUCTURING" |}.

Definition SimulatedFeedbackReader : ModuleClass.t :=
  {| ModuleClass.moduleId := js "SimulatedFeedbackReader";
     ModuleClass.description :=
       js "Generates questions that a typical reader might ask and identifies confusing or insufficiently explained sections";
     ModuleClass.getDefaultPrompt := joinLines [
       [];
       js "You are simulating a diverse group of readers encountering this content for the first time.";
       js "Your task is to identify areas that might confuse readers or prompt questions.";
       [];
       js "Analyze the content from multiple reader perspectives and identify:";
       js "1. Confusing passages or unclear explanations";
       js "2. Jargon or terminology that isn't adequately defined";
       js "3. Logical leaps that might lose readers";
       js "4. Concepts that need more background or context";
       js "5. Sections that feel rushed or overly condensed";
       js "6. Claims that readers might question or challenge";
       [];
       js "For each identified issue:";
       js "- Quote the specific text";
       js "- Explain why it might confuse readers";
       js "- Formulate 1-3 questions a typical reader might ask";
       js "- Suggest how the content could be improved for clarity";
       [];
       js "Consider different reader backgrounds (novice to expert) in your analysis.";
       [];
       js "Format your response as follows:";
       js "READER_PERSONAS: Brief description of the simulated reader types";
       js "CONFUSION_POINTS: Identified areas of potential confusion";
       js "READER_QUESTIONS: Likely questions readers would ask";
       js "CLARITY_RECOMMENDATIONS: Suggestions for improving reader comprehension";
       js "OVERALL_CLARITY: Either " ++ dq ++ js "CLEAR" ++ dq ++ js ", "
         ++ dq ++ js "SOMEWHAT_CLEAR" ++ dq ++ js ", or " ++ dq
         ++ js "NEEDS_CLARIFICATION" ++ dq;
       js "    " ];
     ModuleClass.layout := WithTargetAudience;
     ModuleClass.invalidInputFix :=
       js "Provide non-empty content for reader feedback simulation";
     ModuleClass.startMessage := js "Starting simulated reader feedback generation";
     ModuleClass.completedMessage :=
       js "Simulated reader feedback completed with status: ";
     ModuleClass.errorMessage :=
       js "Error during simulated reader feedback generation";
     ModuleClass.retryFix :=
       js "Retry the simulated reader feedback generation";
     ModuleClass.statusRegExp :=
       statusPattern (js "OVERALL_CLARITY:")
         (js "CLEAR")
         (js "SOMEWHAT_CLEAR")
         (js "NEEDS_CLARIFICATION");
     ModuleClass.sectionRegExp :=
       sectionPattern (js "CLARITY_RECOMMENDATIONS:")
         [js "OVERALL_CLARITY:"];
     ModuleClass.sectionHeader := js "CLARITY_RECOMMENDATIONS:";
     ModuleClass.caseSuccess := js "CLEAR";
     ModuleClass.caseWarning := js "SOMEWHAT_CLEAR";
     ModuleClass.caseError := js "NEEDS_CLARIFICATION" |}.

Definition HallucinationFilter : ModuleClass.t :=
  {| ModuleClass.moduleId := js "HallucinationFilter";
     ModuleClass.description :=
       js "Detects LLM hallucinations such as fabricated citations, non-existent books, and incorrect numbers";
     ModuleClass.getDefaultPrompt := joinLines [
       [];
       js "You are a hallucination detection specialist tasked with identifying potential AI fabrications in content.";
       js "Analyze the provided content for:";
       js "1. Citations to non-existent or incorrectly referenced sources";
       js "2. References to fictional books, papers, or authors presented as real";
       js "3. Made-up statistics, dates, or numerical data";
       js "4. Fabricated quotes or statements attributed to real people";
       js "5. Invented historical events or scientific discoveries";
       js "6. Fictional organizations, institutions, or companies presented as real";
       [];
       js "For each identified potential hallucination:";
       js "- Quote the exact text";
       js "- Explain why it appears to be a hallucination";
       js "- Assign a confidence level (LOW, MEDIUM, HIGH)";
       js "- Suggest a correction or removal approach";
       [];
       js "Format your response as follows:";
       js "HALLUCINATION_SUMMARY: Brief overview of detected issues";
       js "DETAILED_FINDINGS: List of potential hallucinations with analysis";
       js "VERIFICATION_SUGGESTIONS: Approaches to verify suspicious content";
       js "RECOMMENDED_ACTIONS: Specific fixes for identified hallucinations";
       js "OVERALL_ASSESSMENT: Either " ++ dq
         ++ js "NO_HALLUCINATIONS_DETECTED" ++ dq ++ js ", " ++ dq
         ++ js "MINOR_HALLUCINATIONS" ++ dq ++ js ", or " ++ dq
         ++ js "SIGNIFICANT_HALLUCINATIONS" ++ dq;
       js "    " ];
     ModuleClass.layout := TitleAuthorType;
     ModuleClass.invalidInputFix :=
       js "Provide non-empty content for hallucination detection";
     ModuleClass.startMessage := js "Starting hallucination detection";
     ModuleClass.completedMessage :=
       js "Hallucination detection completed with status: ";
     ModuleClass.errorMessage :=
       js "Error during hallucination detection";
     ModuleClass.retryFix :=
       js "Retry the hallucination detection";
     ModuleClass.statusRegExp :=
       statusPattern (js "OVERALL_ASSESSMENT:")
         (js "NO_HALLUCINATIONS_DETECTED")
         (js "MINOR_HALLUCINATIONS")
         (js "SIGNIFICANT_HALLUCINATIONS");
     ModuleClass.sectionRegExp :=
       sectionPattern (js "RECOMMENDED_ACTIONS:")
         [js "OVERALL_ASSESSMENT:"];
     ModuleClass.sectionHeader := js "RECOMMENDED_ACTIONS:";
     ModuleClass.caseSuccess := js "NO_HALLUCINATIONS_DETECTED";
     ModuleClass.caseWarning := js "MINOR_HALLUCINATIONS";
     ModuleClass.caseError := js "SIGNIFICANT_HALLUCINATIONS" |}.

Definition WYSIWYGLayoutPreview : ModuleClass.t :=
  {| ModuleClass.moduleId := js "WYSIWYGLayoutPreview";
     ModuleClass.description :=
       js "Generates preview layouts for different formats (.pdf, .epub, .html, .md)";
     ModuleClass.getDefaultPrompt := joinLines [
       [];
       js "You are a layout and formatting specialist tasked with generating preview layouts for different publication formats.";
       js "Analyze the provided content and create layout specifications for:";
       js "1. PDF format";
       js "2. EPUB format";
       js "3. HTML format";
       js "4. Markdown format";
       [];
       js "For each format, provide:";
       js "- Recommended structure and organization";
       js "- Heading hierarchy and formatting";
       js "- Paragraph styling and spacing";
       js "- Table and image placement recommendations";
       js "- Typography suggestions (font families, sizes, weights)";
       js "- Page/screen layout considerations";
       js "- Navigation elements and cross-references";
       [];
       js "Consider the content type and target audience when making recommendations.";
       js "Provide specific CSS or styling code snippets where appropriate.";
       [];
       js "Format your response as follows:";
       js "PDF_LAYOUT: Detailed specifications for PDF format";
       js "EPUB_LAYOUT: Detailed specifications for EPUB format";
       js "HTML_LAYOUT: Detailed specifications for HTML format including CSS";
       js "MARKDOWN_LAYOUT: Detailed specifications for Markdown format";
       js "LAYOUT_RECOMMENDATIONS: General suggestions for improving visual presentation";
       js "OVERALL_ASSESSMENT: Either " ++ dq ++ js "READY_FOR_FORMATTING"
         ++ dq ++ js ", " ++ dq ++ js "MINOR_ADJUSTMENTS_NEEDED" ++ dq
         ++ js ", or " ++ dq ++ js "MAJOR_RESTRUCTURING_REQUIRED" ++ dq;
       js "    " ];
     ModuleClass.layout := WithTargetAudience;
     ModuleClass.invalidInputFix :=
       js "Provide non-empty content for layout preview generation";
     ModuleClass.startMessage := js "Starting layout preview generation";
     ModuleClass.completedMessage :=
       js "Layout preview generation completed with status: ";
     ModuleClass.errorMessage :=
       js "Error during layout preview generation";
     ModuleClass.retryFix :=
       js "Retry the layout preview generation";
     ModuleClass.statusRegExp :=
       statusPattern (js "OVERALL_ASSESSMENT:")
         (js "READY_FOR_FORMATTING")
         (js "MINOR_ADJUSTMENTS_NEEDED")
         (js "MAJOR_RESTRUCTURING_REQUIRED");
     ModuleClass.sectionRegExp :=
       sectionPattern (js "LAYOUT_RECOMMENDATIONS:")
         [js "OVERALL_ASSESSMENT:"];
     ModuleClass.sectionHeader := js "LAYOUT_RECOMMENDATIONS:";
     ModuleClass.caseSuccess := js "READY_FOR_FORMATTING";
     ModuleClass.caseWarning := js "MINOR_ADJUSTMENTS_NEEDED";
     ModuleClass.caseError := js "MAJOR_RESTRUCTURING_REQUIRED" |}.

Definition ChapterImageGallery : ModuleClass.t :=
  {| ModuleClass.moduleId := js "ChapterImageGallery";
     ModuleClass.description :=
       js "Assigns illustrated images to chapters based on content and uses text2image engine for visual enrichment";
     ModuleClass.getDefaultPrompt := joinLines [
       [];
       js "You are a visual content specialist tasked with creating image prompts for text-to-image generation based on content chapters.";
       js "Analyze the provided content and:";
       js "1. Identify natural chapter or section breaks";
       js "2. For each chapter/section, create detailed image prompts that:";
       js "   - Capture the essence of the chapter/section";
       js "   - Represent key concepts, scenes, or ideas";
       js "   - Align with the overall tone and style";
       js "   - Would enhance reader understanding";
       js "3. Suggest image placement and sizing within the document";
       js "4. Recommend visual style consistency guidelines";
       [];
       js "For each chapter/section:";
       js "- Provide a brief summary of the content";
       js "- Create 1-3 detailed text-to-image prompts (150-200 words each)";
       js "- Suggest caption text for each image";
       js "- Recommend placement (beginning, within specific paragraphs, end)";
       [];
       js "Format your response as follows:";
       js "CONTENT_STRUCTURE: Brief overview of identified chapters/sections";
       js "CHAPTER_IMAGES: Detailed image prompts for each chapter/section";
       js "STYLE_GUIDELINES: Recommendations for visual consistency";
       js "IMAGE_METADATA: Suggested captions, alt text, and placement";
       js "OVERALL_ASSESSMENT: Either " ++ dq
         ++ js "READY_FOR_ILLUSTRATION" ++ dq ++ js ", " ++ dq
         ++ js "PARTIAL_COVERAGE" ++ dq ++ js ", or " ++ dq
         ++ js "NEEDS_RESTRUCTURING" ++ dq;
       js "    " ];
     ModuleClass.layout := WithTargetAudience;
     ModuleClass.invalidInputFix :=
       js "Provide non-empty content for chapter image generation";
     ModuleClass.startMessage := js "Starting chapter image gallery generation";
     ModuleClass.completedMessage :=
       js "Chapter image gallery generation completed with status: ";
     ModuleClass.errorMessage :=
       js "Error during chapter image gallery generation";
     ModuleClass.retryFix :=
       js "Retry the chapter image gallery generation";
     ModuleClass.statusRegExp :=
       statusPattern (js "OVERALL_ASSESSMENT:")
         (js "READY_FOR_ILLUSTRATION")
         (js "PARTIAL_COVERAGE")
         (js "NEEDS_RESTRUCTURING");
     ModuleClass.sectionRegExp :=
       sectionPattern (js "STYLE_GUIDELINES:")
         [js "IMAGE_METADATA:"; js "OVERALL_ASSESSMENT:"];
     ModuleClass.sectionHeader := js "STYLE_GUIDELINES:";
     ModuleClass.caseSuccess := js "READY_FOR_ILLUSTRATION";
     ModuleClass.caseWarning := js "PARTIAL_COVERAGE";
     ModuleClass.caseError := js "NEEDS_RESTRUCTURING" |}.

Definition PromptTraceability : ModuleClass.t :=
  {| ModuleClass.moduleId := js "PromptTraceability";
     ModuleClass.description :=
       js "Ensures each output contains metadata including prompt used, model, time, and ID for auditability";
     ModuleClass.getDefaultPrompt := joinLines [
       [];
       js "You are a content auditing specialist tasked with analyzing AI-generated content for traceability.";
       js "Analyze the provided content and:";
       js "1. Identify potential AI-generated sections or elements";
       js "2. Assess whether the content contains sufficient metadata for traceability";
       js "3. Recommend metadata fields that should be included for full auditability";
       js "4. Suggest a structured format for embedding traceability information";
       [];
       js "Consider:";
       js "- Transparency requirements for AI-generated content";
       js "- Ethical considerations for content attribution";
       js "- Technical approaches for embedding metadata";
       js "- Compliance with potential regulatory requirements";
       [];
       js "Format your response as follows:";
       js "AI_DETECTION: Assessment of which parts appear to be AI-generated";
       js "METADATA_ASSESSMENT: Evaluation of existing metadata and traceability";
       js "RECOMMENDED_METADATA: Suggested metadata fields and format";
       js "IMPLEMENTATION_APPROACH: Technical suggestions for metadata embedding";
       js "OVERALL_ASSESSMENT: Either " ++ dq ++ js "FULLY_TRACEABLE"
         ++ dq ++ js ", " ++ dq ++ js "PARTIALLY_TRACEABLE" ++ dq
         ++ js ", or " ++ dq ++ js "NOT_TRACEABLE" ++ dq;
       js "    " ];
     ModuleClass.layout := WithTrace;
     ModuleClass.invalidInputFix :=
       js "Provide non-empty content for traceability analysis";
     ModuleClass.startMessage := js "Starting prompt traceability analysis";
     ModuleClass.completedMessage :=
       js "Prompt traceability analysis completed with status: ";
     ModuleClass.errorMessage :=
       js "Error during prompt traceability analysis";
     ModuleClass.retryFix :=
       js "Retry the prompt traceability analysis";
     ModuleClass.statusRegExp :=
       statusPattern (js "OVERALL_ASSESSMENT:")
         (js "FULLY_TRACEABLE")
         (js "PARTIALLY_TRACEABLE")
         (js "NOT_TRACEABLE");
     ModuleClass.sectionRegExp :=
       sectionPattern (js "RECOMMENDED_METADATA:")
         [js "IMPLEMENTATION_APPROACH:"; js "OVERALL_ASSESSMENT:"];
     ModuleClass.sectionHeader := js "RECOMMENDED_METADATA:";
     ModuleClass.caseSuccess := js "FULLY_TRACEABLE";
     ModuleClass.caseWarning := js "PARTIALLY_TRACEABLE";
     ModuleClass.caseError := js "NOT_TRACEABLE" |}.

Definition SmartExportEngine : ModuleClass.t :=
  {| ModuleClass.moduleId := js "SmartExportEngine";
     ModuleClass.description :=
       js "Exports content to various formats (.pdf, .epub, .html, .md, .json) while preserving structure and style";
     ModuleClass.getDefaultPrompt := joinLines [
       [];
       js "You are a document format specialist tasked with preparing content for export to multiple formats.";
       js "Analyze the provided content and create detailed export specifications for:";
       js "1. PDF format";
       js "2. EPUB format";
       js "3. HTML format";
       js "4. Markdown format";
       js "5. JSON format";
       [];
       js "For each format, provide:";
       js "- Necessary structural transformations";
       js "- Format-specific metadata requirements";
       js "- Code snippets or templates for conversion";
       js "- Preservation strategies for complex elements (tables, images, etc.)";
       js "- Styling and formatting considerations";
       js "- Potential export issues and solutions";
       [];
       js "Consider the content type and structure when making recommendations.";
       js "Provide specific code examples, templates, or configuration snippets where appropriate.";
       [];
       js "Format your response as follows:";
       js "PDF_EXPORT: Detailed specifications for PDF export";
       js "EPUB_EXPORT: Detailed specifications for EPUB export";
       js "HTML_EXPORT: Detailed specifications for HTML export";
       js "MARKDOWN_EXPORT: Detailed specifications for Markdown export";
       js "JSON_EXPORT: Detailed specifications for JSON export";
       js "EXPORT_RECOMMENDATIONS: General suggestions for improving export quality";
       js "OVERALL_ASSESSMENT: Either " ++ dq ++ js "READY_FOR_EXPORT"
         ++ dq ++ js ", " ++ dq ++ js "MINOR_ADJUSTMENTS_NEEDED" ++ dq
         ++ js ", or " ++ dq ++ js "MAJOR_RESTRUCTURING_REQUIRED" ++ dq;
       js "    " ];
     ModuleClass.layout := WithTargetAudience;
     ModuleClass.invalidInputFix :=
       js "Provide non-empty content for export specification generation";
     ModuleClass.startMessage := js "Starting export specification generation";
     ModuleClass.completedMessage :=
       js "Export specification generation completed with status: ";
     ModuleClass.errorMessage :=
       js "Error during export specification generation";
     ModuleClass.retryFix :=
       js "Retry the export specification generation";
     ModuleClass.statusRegExp :=
       statusPattern (js "OVERALL_ASSESSMENT:")
         (js "READY_FOR_EXPORT")
         (js "MINOR_ADJUSTMENTS_NEEDED")
         (js "MAJOR_RESTRUCTURING_REQUIRED");
     ModuleClass.sectionRegExp :=
       sectionPattern (js "EXPORT_RECOMMENDATIONS:")
         [js "OVERALL_ASSESSMENT:"];
     ModuleClass.sectionHeader := js "EXPORT_RECOMMENDATIONS:";
     ModuleClass.caseSuccess := js "READY_FOR_EXPORT";
     ModuleClass.caseWarning := js "MINOR_ADJUSTMENTS_NEEDED";
     ModuleClass.caseError := js "MAJOR_RESTRUCTURING_REQUIRED" |}.

(** The classes in the order in which [src/index.ts] registers them. *)
Definition all : list ModuleClass.t :=
  [FactCheckLayer; EthicalGuardian; ToneAndAudienceModulator;
   PlotLogicBuilder; SimulatedFeedbackReader; WYSIWYGLayoutPreview;
   ChapterImageGallery; SmartExportEngine; PromptTraceability;
   HallucinationFilter].

End Modules.

(* ===================================================================== *)
(** ** controllers/ContentGuardianController *)
(* ===================================================================== *)

(** A JavaScript [Map] with string keys: entries are kept in insertion
    order, and setting an existing key replaces its value in place. *)
Module JsMap.
Section JsMap.
Context {V : Type}.

Definition t := list (jsstring * V).

Fixpoint get (k : jsstring) (m : t) : option V :=
  match m with
  | [] => None
  | (k', v) :: m' => if bool_decide (k' = k) then Some v else get k m'
  end.

Definition has (k : jsstring) (m : t) : bool :=
  match get k m with
  | Some _ => true
  | None => false
  end.

Fixpoint set (k : jsstring) (v : V) (m : t) : t :=
  match m with
  | [] => [(k, v)]
  | (k', v') :: m' =>
      if bool_decide (k' = k) then (k, v) :: m'
      else (k', v') :: set k v m'
  end.

Definition values (m : t) : list V := map snd m.

End JsMap.
Arguments t V : clear implicits.
End JsMap.

(** [Promise.all] over promises that have all settled: the values in the
    order of the promises, or the rejection of the first rejected one. *)
Fixpoint Promise_all {A} (settled : list (Outcome A)) : Outcome (list A) :=
  match settled with
  | [] => Returned []
  | Thrown e :: _ => Thrown e
  | Returned a :: rest =>
      match Promise_all rest with
      | Returned l => Returned (a :: l)
      | Thrown e => Thrown e
      end
  end.

(** How an iteration of a [for] loop ends. *)
Inductive LoopStep := Continue | Break.

Module ContentGuardianController.
Section ContentGuardianController.
Context `{External}.

Record t := { modules : JsMap.t ContentGuardianModule.t }.

Definition create : t := {| modules := [] |}.

Definition tag : jsstring := js "ContentGuardianController".

Definition registerModule (this : t) (module : ContentGuardianModule.t)
    : M t :=
  let id := ContentGuardianModule.moduleId module in
  (if JsMap.has id (modules this)
   then Logger.warning tag
          (js "Module with ID " ++ id
           ++ js " already exists. Overwriting.")
   else ret tt) ;;;
  let this' := {| modules := JsMap.set id module (modules this) |} in
  Logger.info tag (js "Module " ++ id ++ js " registered successfully") ;;;
  ret this'.

Definition getModule (this : t) (moduleId : jsstring)
    : option ContentGuardianModule.t :=
  JsMap.get moduleId (modules this).

Definition getAllModules (this : t) : list ContentGuardianModule.t :=
  JsMap.values (modules this).

Definition runModule (this : t) (moduleId : jsstring)
    (input : ContentInput.t) (options : option ModuleOptions.t)
    : M ModuleResult.t :=
  match JsMap.get moduleId (modules this) with
  | None =>
      Logger.error tag (js "Module " ++ moduleId ++ js " not found")
        None ;;;
      throw (JsError (js "Module " ++ moduleId ++ js " not found"))
  | Some module =>
      Logger.info tag (js "Running module " ++ moduleId) ;;;
      tryCatch
        (result <- ContentGuardianModule.process module input options ;;
         Logger.info tag
           (js "Module " ++ moduleId ++ js " completed with status: "
            ++ statusString (ModuleResult.status result)) ;;;
         ret result)
        (fun e =>
           Logger.error tag (js "Error running module " ++ moduleId)
             (Some e) ;;;
           stamp <- nowISO ;;
           ret {| ModuleResult.moduleId := moduleId;
                  ModuleResult.status := error;
                  ModuleResult.report :=
                    js "Error running module: " ++ errorText e;
                  ModuleResult.recommendedFixes := None;
                  ModuleResult.metadata :=
                    {| ModuleMetadata.timestamp := stamp;
                       ModuleMetadata.promptUsed :=
                         orElse (customPromptOf options) (js "default");
                       ModuleMetadata.modelVersion :=
                         orElse (modelOf options)
                                (js "default-model") |} |})
  end.

(** [workflowOptions.options?.[moduleId]] *)
Definition optionsFor (workflowOptions : WorkflowOptions.t)
    (moduleId : jsstring) : option ModuleOptions.t :=
  match WorkflowOptions.options workflowOptions with
  | Some o => o !! moduleId
  | None => None
  end.

Definition hasStatus (st : ModuleStatus) (result : ModuleResult.t)
    : bool :=
  bool_decide (ModuleResult.status result = st).

(** The [for ... of] loop of the sequential branch, from the ids still
    to visit and the current values of [results] and [overallStatus]. *)
Fixpoint sequentialLoop (this : t) (input : ContentInput.t)
    (workflowOptions : WorkflowOptions.t) (ids : list jsstring)
    (results : list ModuleResult.t) (overallStatus : ModuleStatus)
    {struct ids} : M (list ModuleResult.t * ModuleStatus) :=
  match ids with
  | [] => ret (results, overallStatus)
  | moduleId :: rest =>
      let moduleOptions := optionsFor workflowOptions moduleId in
      step <-
        tryCatch
          (result <- runModule this moduleId input moduleOptions ;;
           let results := results ++ [result] in
           if hasStatus error result then
             if truthy (WorkflowOptions.stopOnError workflowOptions)
             then
               Logger.warning tag
                 (js "Workflow stopped due to error in module "
                  ++ moduleId) ;;;
               ret (Break, results, error)
             else ret (Continue, results, error)
           else if hasStatus warning result
                   && negb (bool_decide (overallStatus = error))
           then ret (Continue, results, warning)
           else ret (Continue, results, overallStatus))
          (fun e =>
             Logger.error tag
               (js "Error in workflow for module " ++ moduleId)
               (Some e) ;;;
             if truthy (WorkflowOptions.stopOnError workflowOptions)
             then ret (Break, results, error)
             else ret (Continue, results, overallStatus)) ;;
      match step with
      | (Break, results, overallStatus) => ret (results, overallStatus)
      | (Continue, results, overallStatus) =>
          sequentialLoop this input workflowOptions rest results
            overallStatus
      end
  end.

(** One callback of [workflowOptions.modules.map(async ...)]: the call
    of [runModule], with the log entry of its [catch] clause, and how
    its promise settles. *)
Definition dispatch (this : t) (input : ContentInput.t)
    (workflowOptions : WorkflowOptions.t) (moduleId : jsstring)
    : M (Outcome ModuleResult.t) :=
  let moduleOptions := optionsFor workflowOptions moduleId in
  fun w =>
    let (settled, w') :=
      tryCatch
        (runModule this moduleId input moduleOptions)
        (fun e =>
           Logger.error tag
             (js "Error in parallel workflow for module " ++ moduleId)
             (Some e) ;;;
           throw e) w in
    (Returned settled, w').

(** The promises of the parallel branch.  The calls start in list order;
    the model lets each of them run to its end before the next one
    starts, which is the schedule in which every completion arrives at
    once.  What [runWorkflow] does with the settled promises does not
    depend on the schedule. *)
Fixpoint dispatchAll (this : t) (input : ContentInput.t)
    (workflowOptions : WorkflowOptions.t) (ids : list jsstring)
    : M (list (Outcome ModuleResult.t)) :=
  match ids with
  | [] => ret []
  | moduleId :: rest =>
      settled <- dispatch this input workflowOptions moduleId ;;
      others <- dispatchAll this input workflowOptions rest ;;
      ret (settled :: others)
  end.

(** The [try] block around [Promise.all] in the parallel branch. *)
Definition joinAll (settled : list (Outcome ModuleResult.t))
    (results : list ModuleResult.t) (overallStatus : ModuleStatus)
    : M (list ModuleResult.t * ModuleStatus) :=
  match Promise_all settled with
  | Returned moduleResults =>
      let results := results ++ moduleResults in
      if existsb (hasStatus error) results then ret (results, error)
      else if existsb (hasStatus warning) results
      then ret (results, warning)
      else ret (results, overallStatus)
  | Thrown e =>
      Logger.error tag (js "Error in parallel workflow execution")
        (Some e) ;;;
      ret (results, error)
  end.

Definition countStatus (st : ModuleStatus) (results : list ModuleResult.t)
    : nat :=
  length (List.filter (hasStatus st) results).

(** [result.report.split('\n')[0]] *)
Definition firstLine (report : jsstring) : jsstring :=
  match split 0x0A report with
  | l :: _ => l
  | [] => js "undefined"
  end.

Definition generateWorkflowSummary (results : list ModuleResult.t)
    : jsstring :=
  let totalModules := length results in
  let successCount := countStatus success results in
  let warningCount := countStatus warning results in
  let errorCount := countStatus error results in
  let summary :=
    js "Workflow Summary: " ++ numberToString totalModules
    ++ js " modules processed" ++ nl
    ++ js "- Success: " ++ numberToString successCount ++ nl
    ++ js "- Warning: " ++ numberToString warningCount ++ nl
    ++ js "- Error: " ++ numberToString errorCount ++ nl ++ nl in
  if (0 <? warningCount) || (0 <? errorCount) then
    fold_left
      (fun summary result =>
         if hasStatus warning result || hasStatus error result then
           let summary :=
             summary ++ js "- ["
             ++ toUpperCase (statusString (ModuleResult.status result))
             ++ js "] " ++ ModuleResult.moduleId result ++ js ": "
             ++ firstLine (ModuleResult.report result) ++ nl in
           match ModuleResult.recommendedFixes result with
           | Some (fix1 :: fixes) =>
               summary ++ js "  Recommended fixes: "
               ++ numberToString (length (fix1 :: fixes)) ++ nl
           | _ => summary
           end
         else summary)
      results
      (summary ++ js "Issues found:" ++ nl)
  else summary.

Definition runWorkflow (this : t) (input : ContentInput.t)
    (workflowOptions : WorkflowOptions.t) : M WorkflowResult.t :=
  workflowId <- uuidv4 ;;
  startTime <- nowISO ;;
  Logger.info tag
    (js "Starting workflow " ++ workflowId ++ js " with "
     ++ numberToString (length (WorkflowOptions.modules workflowOptions))
     ++ js " modules") ;;;
  outcome <-
    (if truthy (WorkflowOptions.sequential workflowOptions) then
       sequentialLoop this input workflowOptions
         (WorkflowOptions.modules workflowOptions) [] success
     else
       settled <- dispatchAll this input workflowOptions
                    (WorkflowOptions.modules workflowOptions) ;;
       joinAll settled [] success) ;;
  let (results, overallStatus) := outcome in
  let summary := generateWorkflowSummary results in
  Logger.info tag
    (js "Workflow " ++ workflowId ++ js " completed with status: "
     ++ statusString overallStatus) ;;;
  ret {| WorkflowResult.workflowId := workflowId;
         WorkflowResult.timestamp := startTime;
         WorkflowResult.status := overallStatus;
         WorkflowResult.results := results;
         WorkflowResult.summary := summary |}.

End ContentGuardianController.
End ContentGuardianController.

(* ===================================================================== *)
(** ** Workflow presets and the WorkflowManager *)
(* ===================================================================== *)

Module Workflows.

Definition preset (modules : list jsstring) : WorkflowOptions.t :=
  {| WorkflowOptions.modules := modules;
     WorkflowOptions.sequential := Some true;
     WorkflowOptions.stopOnError := Some false;
     WorkflowOptions.options := None |}.

Definition comprehensiveWorkflow : WorkflowOptions.t :=
  preset [js "FactCheckLayer"; js "EthicalGuardian";
          js "ToneAndAudienceModulator"; js "PlotLogicBuilder";
          js "SimulatedFeedbackReader"; js "HallucinationFilter";
          js "WYSIWYGLayoutPreview"; js "ChapterImageGallery";
          js "PromptTraceability"; js "SmartExportEngine"].

Definition factualIntegrityWorkflow : WorkflowOptions.t :=
  preset [js "FactCheckLayer"; js "HallucinationFilter";
          js "PromptTraceability"].

Definition ethicalReviewWorkflow : WorkflowOptions.t :=
  preset [js "EthicalGuardian"; js "ToneAndAudienceModulator";
          js "PromptTraceability"].

Definition readerExperienceWorkflow : WorkflowOptions.t :=
  preset [js "ToneAndAudienceModulator"; js "PlotLogicBuilder";
          js "SimulatedFeedbackReader"; js "PromptTraceability"].

Definition publicationPrepWorkflow : WorkflowOptions.t :=
  preset [js "WYSIWYGLayoutPreview"; js "ChapterImageGallery";
          js "SmartExportEngine"; js "PromptTraceability"].

(** [createCustomWorkflow(modules, sequential = true,
    stopOnError = false, moduleOptions = {})]: an argument left out is
    [None] and takes its default. *)
Definition createCustomWorkflow (modules : list jsstring)
    (sequential stopOnError : option bool)
    (moduleOptions : option (gmap jsstring ModuleOptions.t))
    : WorkflowOptions.t :=
  {| WorkflowOptions.modules := modules;
     WorkflowOptions.sequential :=
       Some (match sequential with Some b => b | None => true end);
     WorkflowOptions.stopOnError :=
       Some (match stopOnError with Some b => b | None => false end);
     WorkflowOptions.options :=
       Some (match moduleOptions with Some o => o | None => ∅ end) |}.

End Workflows.

Module WorkflowManager.
Section WorkflowManager.
Context `{External}.

Record t := { controller : ContentGuardianController.t }.

Definition runComprehensiveAnalysis (this : t) (input : ContentInput.t)
    : M WorkflowResult.t :=
  Logger.info (js "WorkflowManager")
    (js "Starting comprehensive analysis workflow") ;;;
  let workflowOptions :=
    {| WorkflowOptions.modules :=
         [js "FactCheckLayer"; js "EthicalGuardian";
          js "ToneAndAudienceModulator"; js "PlotLogicBuilder";
          js "SimulatedFeedbackReader"; js "HallucinationFilter";
          js "WYSIWYGLayoutPreview"; js "ChapterImageGallery";
          js "PromptTraceability"; js "SmartExportEngine"];
       WorkflowOptions.sequential := Some true;
       WorkflowOptions.stopOnError := Some false;
       WorkflowOptions.options := None |} in
  ContentGuardianController.runWorkflow (controller this) input
    workflowOptions.

Definition runFactualIntegrityWorkflow (this : t)
    (input : ContentInput.t) : M WorkflowResult.t :=
  Logger.info (js "WorkflowManager")
    (js "Starting factual integrity workflow") ;;;
  let workflowOptions :=
    {| WorkflowOptions.modules :=
         [js "FactCheckLayer"; js "HallucinationFilter";
          js "PromptTraceability"];
       WorkflowOptions.sequential := Some true;
       WorkflowOptions.stopOnError := Some false;
       WorkflowOptions.options := None |} in
  ContentGuardianController.runWorkflow (controller this) input
    workflowOptions.

Definition runEthicalReviewWorkflow (this : t) (input : ContentInput.t)
    : M WorkflowResult.t :=
  Logger.info (js "WorkflowManager")
    (js "Starting ethical review workflow") ;;;
  let workflowOptions :=
    {| WorkflowOptions.modules :=
         [js "EthicalGuardian"; js "ToneAndAudienceModulator";
          js "PromptTraceability"];
       WorkflowOptions.sequential := Some true;
       WorkflowOptions.stopOnError := Some false;
       WorkflowOptions.options := None |} in
  ContentGuardianController.runWorkflow (controller this) input
    workflowOptions.

Definition runReaderExperienceWorkflow (this : t)
    (input : ContentInput.t) : M WorkflowResult.t :=
  Logger.info (js "WorkflowManager")
    (js "Starting reader experience workflow") ;;;
  let workflowOptions :=
    {| WorkflowOptions.modules :=
         [js "ToneAndAudienceModulator"; js "PlotLogicBuilder";
          js "SimulatedFeedbackReader"; js "PromptTraceability"];
       WorkflowOptions.sequential := Some true;
       WorkflowOptions.stopOnError := Some false;
       WorkflowOptions.options := None |} in
  ContentGuardianController.runWorkflow (controller this) input
    workflowOptions.

Definition runPublicationPrepWorkflow (this : t)
    (input : ContentInput.t) : M WorkflowResult.t :=
  Logger.info (js "WorkflowManager")
    (js "Starting publication preparation workflow") ;;;
  let workflowOptions :=
    {| WorkflowOptions.modules :=
         [js "WYSIWYGLayoutPreview"; js "ChapterImageGallery";
          js "SmartExportEngine"; js "PromptTraceability"];
       WorkflowOptions.sequential := Some true;
       WorkflowOptions.stopOnError := Some false;
       WorkflowOptions.options := None |} in
  ContentGuardianController.runWorkflow (controller this) input
    workflowOptions.

Definition runCustomWorkflow (this : t) (input : ContentInput.t)
    (modules : list jsstring) (sequential stopOnError : option bool)
    (moduleOptions : option (gmap jsstring ModuleOptions.t))
    : M WorkflowResult.t :=
  Logger.info (js "WorkflowManager")
    (js "Starting custom workflow with "
     ++ numberToString (length modules) ++ js " modules") ;;;
  ContentGuardianController.runWorkflow (controller this) input
    (Workflows.createCustomWorkflow modules sequential stopOnError
       moduleOptions).

End WorkflowManager.
End WorkflowManager.

(* ===================================================================== *)
(** ** index: the controller of the application *)
(* ===================================================================== *)

Module Index.
Section Index.
Context `{External}.

(** The start of [src/index.ts]: the controller is created and the ten
    modules are registered with it, one after the other. *)
Definition controller : M ContentGuardianController.t :=
  Logger.info (js "ContentGuardian")
    (js "Initializing Content Guardian system") ;;;
  let controller := ContentGuardianController.create in
  controller <- ContentGuardianController.registerModule controller
                  (instantiate Modules.FactCheckLayer) ;;
  controller <- ContentGuardianController.registerModule controller
                  (instantiate Modules.EthicalGuardian) ;;
  controller <- ContentGuardianController.registerModule controller
                  (instantiate Modules.ToneAndAudienceModulator) ;;
  controller <- ContentGuardianController.registerModule controller
                  (instantiate Modules.PlotLogicBuilder) ;;
  controller <- ContentGuardianController.registerModule controller
                  (instantiate Modules.SimulatedFeedbackReader) ;;
  controller <- ContentGuardianController.registerModule controller
                  (instantiate Modules.WYSIWYGLayoutPreview) ;;
  controller <- ContentGuardianController.registerModule controller
                  (instantiate Modules.ChapterImageGallery) ;;
  controller <- ContentGuardianController.registerModule controller
                  (instantiate Modules.SmartExportEngine) ;;
  controller <- ContentGuardianController.registerModule controller
                  (instantiate Modules.PromptTraceability) ;;
  controller <- ContentGuardianController.registerModule controller
                  (instantiate Modules.HallucinationFilter) ;;
  Logger.info (js "ContentGuardian")
    (js "All modules registered successfully") ;;;
  ret controller.

End Index.
End Index.

(* ===================================================================== *)
(** ** tests/testUtils *)
(* ===================================================================== *)

Module TestUtils.
Section TestUtils.
Context `{External}.

Definition createMockSuccessResult (moduleId : jsstring)
    : M ModuleResult.t :=
  stamp <- nowISO ;;
  ret {| ModuleResult.moduleId := moduleId;
         ModuleResult.status := success;
         ModuleResult.report :=
           js "The content has been analyzed successfully with no issues found.";
         ModuleResult.recommendedFixes := Some [];
         ModuleResult.metadata :=
           {| ModuleMetadata.timestamp := stamp;
              ModuleMetadata.promptUsed := js "Test prompt";
              ModuleMetadata.modelVersion := js "test-model" |} |}.

Definition createMockWarningResult (moduleId : jsstring)
    : M ModuleResult.t :=
  stamp <- nowISO ;;
  ret {| ModuleResult.moduleId := moduleId;
         ModuleResult.status := warning;
         ModuleResult.report :=
           js "The content has been analyzed with some minor issues found.";
         ModuleResult.recommendedFixes :=
           Some [js "Consider revising the introduction for clarity";
                 js "Add more specific examples in the third paragraph"];
         ModuleResult.metadata :=
           {| ModuleMetadata.timestamp := stamp;
              ModuleMetadata.promptUsed := js "Test prompt";
              ModuleMetadata.modelVersion := js "test-model" |} |}.

Definition createMockErrorResult (moduleId : jsstring)
    : M ModuleResult.t :=
  stamp <- nowISO ;;
  ret {| ModuleResult.moduleId := moduleId;
         ModuleResult.status := error;
         ModuleResult.report :=
           js "The content analysis failed due to significant issues.";
         ModuleResult.recommendedFixes :=
           Some [js "Major restructuring required";
                 js "Several factual inaccuracies need correction";
                 js "Ethical concerns need to be addressed"];
         ModuleResult.metadata :=
           {| ModuleMetadata.timestamp := stamp;
              ModuleMetadata.promptUsed := js "Test prompt";
              ModuleMetadata.modelVersion := js "test-model" |} |}.

Definition createMockWorkflowResult (moduleResults : list ModuleResult.t)
    : M WorkflowResult.t :=
  let overallStatus :=
    if existsb (ContentGuardianController.hasStatus error) moduleResults
    then error
    else if existsb (ContentGuardianController.hasStatus warning)
              moduleResults
    then warning
    else success in
  let totalModules := length moduleResults in
  let successCount :=
    ContentGuardianController.countStatus success moduleResults in
  let warningCount :=
    ContentGuardianController.countStatus warning moduleResults in
  let errorCount :=
    ContentGuardianController.countStatus error moduleResults in
  let summary :=
    js "Workflow Summary: " ++ numberToString totalModules
    ++ js " modules processed" ++ nl
    ++ js "- Success: " ++ numberToString successCount ++ nl
    ++ js "- Warning: " ++ numberToString warningCount ++ nl
    ++ js "- Error: " ++ numberToString errorCount ++ nl ++ nl in
  let summary :=
    if (0 <? warningCount) || (0 <? errorCount) then
      fold_left
        (fun summary result =>
           if ContentGuardianController.hasStatus warning result
              || ContentGuardianController.hasStatus error result
           then
             summary ++ js "- ["
             ++ toUpperCase (statusString (ModuleResult.status result))
             ++ js "] " ++ ModuleResult.moduleId result ++ js ": "
             ++ ContentGuardianController.firstLine
                  (ModuleResult.report result) ++ nl
           else summary)
        moduleResults
        (summary ++ js "Issues found:" ++ nl)
    else summary in
  stamp <- nowISO ;;
  ret {| WorkflowResult.workflowId := js "test-workflow-id";
         WorkflowResult.timestamp := stamp;
         WorkflowResult.status := overallStatus;
         WorkflowResult.results := moduleResults;
         WorkflowResult.summary := summary |}.

End TestUtils.
End TestUtils.

(* ===================================================================== *)
(** ** Test doubles *)
(* ===================================================================== *)

(** Concrete collaborators and modules, in the manner of the mocks of the
    test suite, on which the statements below are run. *)
Module Mock.

(** An endpoint that records every request and answers it with
    [answer]. *)
Definition recording (answer : ChatRequest.t -> Outcome (option jsstring))
    : External :=
  {| ApiState := list ChatRequest.t;
     chatCompletionsCreate :=
       fun request st => (answer request, st ++ [request]);
     isoString := fun n => js "T" ++ numberToString n;
     uuidString := fun n => js "id-" ++ numberToString n |}.

Definition answering (text : jsstring) : External :=
  recording (fun _ => Returned (Some text)).

Definition failing (message : jsstring) : External :=
  recording (fun _ => Thrown (JsError message)).

Definition start `{External} (a : ApiState) : World :=
  {| logs := []; reads := 0; api := a |}.

Definition input (text : jsstring) : ContentInput.t :=
  {| ContentInput.content := Some text;
     ContentInput.title := Some (js "The Future of Artificial Intelligence");
     ContentInput.author := None;
     ContentInput.targetAudience := None;
     ContentInput.contentType := Some article;
     ContentInput.additionalContext := None |}.

Definition noContent : ContentInput.t :=
  {| ContentInput.content := None;
     ContentInput.title := None;
     ContentInput.author := None;
     ContentInput.targetAudience := None;
     ContentInput.contentType := None;
     ContentInput.additionalContext := None |}.

(** A module whose [process] leaves a log entry and resolves to a fixed
    result, as [jest.fn().mockResolvedValue] does. *)
Definition resolving `{External} (id : jsstring) (st : ModuleStatus)
    : ContentGuardianModule.t :=
  {| ContentGuardianModule.moduleId := id;
     ContentGuardianModule.description := js "Mock " ++ id;
     ContentGuardianModule.process := fun _ _ =>
       Logger.debug id (js "process called") ;;;
       ret {| ModuleResult.moduleId := id;
              ModuleResult.status := st;
              ModuleResult.report := js "Test report";
              ModuleResult.recommendedFixes := Some [];
              ModuleResult.metadata :=
                {| ModuleMetadata.timestamp := js "T";
                   ModuleMetadata.promptUsed := js "Test prompt";
                   ModuleMetadata.modelVersion := js "test-model" |} |} |}.

(** A module whose [process] rejects. *)
Definition rejecting `{External} (id message : jsstring)
    : ContentGuardianModule.t :=
  {| ContentGuardianModule.moduleId := id;
     ContentGuardianModule.description := js "Mock " ++ id;
     ContentGuardianModule.process := fun _ _ =>
       Logger.debug id (js "process called") ;;;
       throw (JsError message) |}.

(** A controller holding the given modules; the log entries of the
    registration are dropped. *)
Definition controllerOf `{External}
    (ms : list ContentGuardianModule.t) : ContentGuardianController.t :=
  {| ContentGuardianController.modules :=
       fold_left
         (fun m module =>
            JsMap.set (ContentGuardianModule.moduleId module) module m)
         ms [] |}.

Definition workflow (ids : list jsstring) (sequential stopOnError
    : option bool) : WorkflowOptions.t :=
  {| WorkflowOptions.modules := ids;
     WorkflowOptions.sequential := sequential;
     WorkflowOptions.stopOnError := stopOnError;
     WorkflowOptions.options := None |}.

(** The ids of the modules whose [process] was entered, in order, read
    off the log entries of [resolving] and [rejecting]. *)
Definition called (entries : list LogEntry.t) : list jsstring :=
  map LogEntry.moduleId
    (List.filter
       (fun e => bool_decide (LogEntry.message e = js "process called"))
       entries).


(** What a test observes of a workflow run: the status, the number of
    results, and the modules that were called. *)
Definition observe `{External}
    (run : Outcome WorkflowResult.t * World)
    : option (ModuleStatus * nat * list jsstring) :=
  match fst run with
  | Returned wr =>
      Some (WorkflowResult.status wr,
            length (WorkflowResult.results wr),
            called (logs (snd run)))
  | Thrown _ => None
  end.

End Mock.

(** The content, the provider and the module ids of the runs below. *)
Module Fixture.

Definition A : jsstring := js "FactCheckLayer".
Definition B : jsstring := js "EthicalGuardian".
Definition D : jsstring := js "PromptTraceability".

(** The completion of the mocked provider of the test suite, cut down
    to its headers. *)
Definition completion : jsstring :=
  joinLines [ [];
              js "SUMMARY: The content appears to be factually accurate.";
              js "RECOMMENDATIONS:";
              js "1. Qualify the statement about AI in medical imaging";
              js "2. Clarify that General AI is still theoretical";
              js "3. Add specific examples of current AI limitations";
              [];
              js "OVERALL_ASSESSMENT: PASS_WITH_WARNINGS";
              js "      " ].

#[export] Instance provider : External := Mock.answering completion.

Definition w0 : World := Mock.start [].

(** The provider of the test suite on a prompt it does not know. *)
Definition other : External := Mock.answering (js "Default mock response").

Definition w0' : @World other := @Mock.start other [].

Definition article : ContentInput.t :=
  Mock.input (js "Artificial intelligence is transforming our world.").

Definition blank : ContentInput.t :=
  Mock.input (js "  " ++ nl ++ [0x09%N; 0xA0%N]).

End Fixture.

(* ===================================================================== *)
(** ** Vocabulary of the statements and of their proofs *)
(* ===================================================================== *)

(** The trimmed, non-empty lines of a text. *)
Definition trimmedLines (s : jsstring) : list jsstring :=
  List.filter (fun line => 0 <? length line) (map trim (split 0x0A s)).

(** What is left of [s] behind the word [p], when [s] starts with [p]
    (up to the case of letters when the flags say so). *)
Fixpoint stripPrefix (fl : Flags) (p s : jsstring) : option jsstring :=
  match p with
  | [] => Some s
  | c :: p' =>
      match s with
      | x :: s' => if charMatches fl c x then stripPrefix fl p' s' else None
      | [] => None
      end
  end.

(** The lazy star of a one-character class [p]: the first position, from
    the left and over [p]-characters only, at which [k] accepts. *)
Fixpoint lazyScan (p : N -> bool) (k : Cont) (s : jsstring)
    (caps : Captures) : MatchResult :=
  match k s caps with
  | Some m => Some m
  | None =>
      match s with
      | x :: s' => if p x then lazyScan p k s' caps else None
      | [] => None
      end
  end.

(** [k] behind the longest run of [p]-characters that it accepts. *)
Fixpoint greedyScan (p : N -> bool) (k : Cont) (s : jsstring)
    (caps : Captures) : MatchResult :=
  match s with
  | x :: s' =>
      if p x then
        match greedyScan p k s' caps with
        | Some m => Some m
        | None => k s caps
        end
      else k s caps
  | [] => k s caps
  end.

(** Dropping the longest run of [p]-characters at the front. *)
Fixpoint dropWhile (p : N -> bool) (s : jsstring) : jsstring :=
  match s with
  | x :: s' => if p x then dropWhile p s' else s
  | [] => []
  end.

(** Comparison of texts up to the case of ASCII letters. *)
Fixpoint startsWithIgnoringCase (s p : jsstring) {struct p} : bool :=
  match p, s with
  | [], _ => true
  | c :: p', x :: s' =>
      (canonicalize x =? canonicalize c)%N && startsWithIgnoringCase s' p'
  | _ :: _, [] => false
  end.

Definition equalIgnoringCase (a b : jsstring) : bool :=
  (length a =? length b) && startsWithIgnoringCase a b.

(** The rest of [s] behind the first of the words [ts] that [s] starts
    with, up to case. *)
Fixpoint tokenAt (ts : list jsstring) (s : jsstring) : option jsstring :=
  match ts with
  | [] => None
  | t :: ts' =>
      if startsWithIgnoringCase s t then Some (drop (length t) s)
      else tokenAt ts' s
  end.

(** Whether [s] is at one of the words [stops], up to case, or at its
    end. *)
Definition atStop (stops : list jsstring) (s : jsstring) : bool :=
  existsb (startsWithIgnoringCase s) stops
  || match s with [] => true | _ :: _ => false end.

(** The part of [s] before its first position that is at a stop. *)
Fixpoint beforeStop (stops : list jsstring) (s : jsstring) : jsstring :=
  if atStop stops s then []
  else match s with
       | x :: s' => x :: beforeStop stops s'
       | [] => []
       end.

(** The rest of [s] behind the first occurrence of [header], up to
    case. *)
Fixpoint behindFirst (header s : jsstring) : option jsstring :=
  if startsWithIgnoringCase s header then Some (drop (length header) s)
  else match s with
       | [] => None
       | _ :: s' => behindFirst header s'
       end.

Definition cis : Flags := {| ignoreCase := true; dotAll := true |}.

(** The matcher of a one-character class. *)
Definition oneChar (p : N -> bool) (body : Cont -> Cont) : Prop :=
  forall k s caps,
    body k s caps =
      match s with
      | x :: s' => if p x then k s' caps else None
      | [] => None
      end.

(** A word of the pattern that does not start with white space. *)
Definition wordStart (t : jsstring) : bool :=
  match t with
  | c :: _ => negb (isWhiteSpace (canonicalize c))
  | [] => false
  end.

(** A word of upper-case ASCII letters, digits and signs. *)
Definition upperWord (t : jsstring) : bool :=
  forallb (fun c => (c <? 128)%N && (upperAscii c =? c)%N) t.


(** Content that is missing, empty, or made of white space only. *)
Definition blankContent (input : ContentInput.t) : bool :=
  match ContentInput.content input with
  | None => true
  | Some c => forallb isWhiteSpace c
  end.

(** The worst status among results: [error] before [warning] before
    [success]. *)
Definition worstOf (results : list ModuleResult.t) : ModuleStatus :=
  if existsb (ContentGuardianController.hasStatus error) results then error
  else if existsb (ContentGuardianController.hasStatus warning) results
  then warning
  else success.

Section Worlds.
Context `{External}.

(** The world after one more reading of the clock or of the UUID
    generator. *)
Definition tick (w : World) : World :=
  {| logs := logs w; reads := S (reads w); api := api w |}.

(** The world after one more log entry. *)
Definition logged (level : LogLevel) (moduleId message : jsstring)
    (data : option JsThrown) (w : World) : World :=
  {| logs := logs w ++
             [ {| LogEntry.timestamp := isoString (reads w);
                  LogEntry.level := level;
                  LogEntry.moduleId := moduleId;
                  LogEntry.message := message;
                  LogEntry.data := data |} ];
     reads := S (reads w);
     api := api w |}.

(** The world with another state of the completion endpoint. *)
Definition withApi (a : ApiState) (w : World) : World :=
  {| logs := logs w; reads := reads w; api := a |}.

(** The metadata built at the [n]-th reading of the clock. *)
Definition metadataAt (C : ModuleClass.t)
    (options : option ModuleOptions.t) (n : nat) : ModuleMetadata.t :=
  {| ModuleMetadata.timestamp := isoString n;
     ModuleMetadata.promptUsed :=
       orElse (customPromptOf options) (ModuleClass.getDefaultPrompt C);
     ModuleMetadata.modelVersion :=
       orElse (modelOf options) (js "default-model") |}.

End Worlds.

(** The calls of [generateCompletion] that a log records: each call
    starts by logging, as AIService, which model it is about to use. *)
Definition generateCompletionCalls (entries : list LogEntry.t) : nat :=
  length
    (List.filter
       (fun e =>
          bool_decide (LogEntry.moduleId e = js "AIService")
          && startsWith (LogEntry.message e) (js "Generating completion"))
       entries).

Section Calls.
Context `{External}.

(** [Ran this input wo ids w rs w']: the modules [ids], called one after
    the other from the world [w] with the options of the workflow,
    return the results [rs], none of them an error, and leave the world
    [w']. *)
Inductive Ran (this : ContentGuardianController.t)
    (input : ContentInput.t) (workflowOptions : WorkflowOptions.t)
    : list jsstring -> World -> list ModuleResult.t -> World -> Prop :=
| Ran_nil w : Ran this input workflowOptions [] w [] w
| Ran_cons moduleId ids w r w1 rs w2 :
    ContentGuardianController.runModule this moduleId input
      (ContentGuardianController.optionsFor workflowOptions moduleId) w
    = (Returned r, w1) ->
    ModuleResult.status r <> error ->
    Ran this input workflowOptions ids w1 rs w2 ->
    Ran this input workflowOptions (moduleId :: ids) w (r :: rs) w2.

(** The world in which the first module of a workflow is called: the
    workflow id and the start time have been drawn, the start of the
    workflow has been logged. *)
Definition started (workflowOptions : WorkflowOptions.t) (w : World)
    : World :=
  logged INFO ContentGuardianController.tag
    (js "Starting workflow " ++ uuidString (reads w) ++ js " with "
     ++ numberToString (length (WorkflowOptions.modules workflowOptions))
     ++ js " modules")
    None (tick (tick w)).

(** Whether a module id is registered with a controller. *)
Definition registered (this : ContentGuardianController.t)
    (moduleId : jsstring) : Prop :=
  JsMap.get moduleId (ContentGuardianController.modules this) <> None.

End Calls.

(** *** Vocabulary of the further properties *)

(** The entry of a module class in the registry of the application. *)
Definition entryOf `{External} (C : ModuleClass.t)
    : jsstring * ContentGuardianModule.t :=
  (ModuleClass.moduleId C, instantiate C).

(** The ids of a list that are registered with a controller, in order. *)
Definition registeredIds `{External} (this : ContentGuardianController.t)
    (ids : list jsstring) : list jsstring :=
  List.filter
    (fun moduleId =>
       JsMap.has moduleId (ContentGuardianController.modules this))
    ids.

(** How the promise of a module id settles in the parallel branch:
    fulfilled when the id is registered, rejected when it is not. *)
Definition settledAs `{External} (this : ContentGuardianController.t)
    (moduleId : jsstring) (settled : Outcome ModuleResult.t) : Prop :=
  match settled with
  | Returned _ =>
      JsMap.has moduleId (ContentGuardianController.modules this) = true
  | Thrown _ =>
      JsMap.has moduleId (ContentGuardianController.modules this) = false
  end.

(** The head of a workflow summary: the number of results and the number
    of results of each status. *)
Definition summaryHead (results : list ModuleResult.t) : jsstring :=
  js "Workflow Summary: " ++ numberToString (length results)
  ++ js " modules processed" ++ nl
  ++ js "- Success: "
  ++ numberToString (ContentGuardianController.countStatus success results)
  ++ nl
  ++ js "- Warning: "
  ++ numberToString (ContentGuardianController.countStatus warning results)
  ++ nl
  ++ js "- Error: "
  ++ numberToString (ContentGuardianController.countStatus error results)
  ++ nl ++ nl.

(** A result that a summary lists as an issue: a warning or an error. *)
Definition flagged (result : ModuleResult.t) : bool :=
  negb (ContentGuardianController.hasStatus success result).

(** The line of a summary about a flagged result: its status in upper
    case, its module id and the first line of its report. *)
Definition issueLine (result : ModuleResult.t) : jsstring :=
  js "- [" ++ toUpperCase (statusString (ModuleResult.status result))
  ++ js "] " ++ ModuleResult.moduleId result ++ js ": "
  ++ ContentGuardianController.firstLine (ModuleResult.report result)
  ++ nl.

(** The line about the number of recommended fixes of a result, when it
    carries some. *)
Definition fixesLine (result : ModuleResult.t) : jsstring :=
  match ModuleResult.recommendedFixes result with
  | Some (fix1 :: fixes) =>
      js "  Recommended fixes: "
      ++ numberToString (length (fix1 :: fixes)) ++ nl
  | _ => []
  end.

(** Whether a result carries a non-empty list of recommended fixes. *)
Definition carriesFixes (result : ModuleResult.t) : bool :=
  match ModuleResult.recommendedFixes result with
  | Some (_ :: _) => true
  | _ => false
  end.

(** Two words that differ, up to case, at a place that both of them
    have: neither is the beginning of the other. *)
Fixpoint diverge (a b : jsstring) : bool :=
  match a, b with
  | x :: a', y :: b' =>
      negb (canonicalize x =? canonicalize y)%N || diverge a' b'
  | _, _ => false
  end.

(** The status that the [switch] of a parser gives for a word. *)
Definition statusOfWord (C : ModuleClass.t) (t : jsstring) : ModuleStatus :=
  if bool_decide (t = ModuleClass.caseSuccess C) then success
  else if bool_decide (t = ModuleClass.caseWarning C) then warning
  else if bool_decide (t = ModuleClass.caseError C) then error
  else warning.

(** The text of a pattern that is made of literal characters. *)
Fixpoint literalOf (r : Regex) : jsstring :=
  match r with
  | RChar c => [c]
  | RSeq r1 r2 => literalOf r1 ++ literalOf r2
  | _ => []
  end.

(** The field name that the status pattern of a module class starts
    with. *)
Definition statusField (C : ModuleClass.t) : jsstring :=
  match pattern (ModuleClass.statusRegExp C) with
  | RSeq field _ => literalOf field
  | _ => []
  end.

(** A controller whose registry holds instances of module classes only,
    each under the id of its class: what [registerModule] builds from
    the classes of the repository. *)
Definition ofClasses `{External} (this : ContentGuardianController.t)
    : Prop :=
  Forall (fun entry => exists C, entry = entryOf C)
    (ContentGuardianController.modules this).

(** A run of a workflow that returns one result per id of [ids], in
    their order and each under its id, with the worst status of the
    results as its status. *)
Definition runsEach `{External} (run : M WorkflowResult.t) (w : World)
    (ids : list jsstring) : Prop :=
  exists wr w',
    run w = (Returned wr, w') /\
    map ModuleResult.moduleId (WorkflowResult.results wr) = ids /\
    WorkflowResult.status wr = worstOf (WorkflowResult.results wr).



(** The patterns that an alternation chooses from, left to right. *)
Fixpoint alternativesOf (r : Regex) : list Regex :=
  match r with
  | RAlt r1 r2 => r1 :: alternativesOf r2
  | _ => [r]
  end.

(** The words at which the section of recommendations of a module class
    ends: the alternatives of the lookahead of its pattern, but for the
    last one, which is the end of the text. *)
Definition sectionStops (C : ModuleClass.t) : list jsstring :=
  match pattern (ModuleClass.sectionRegExp C) with
  | RSeq _ (RSeq _ (RLookahead stops)) =>
      map literalOf (removelast (alternativesOf stops))
  | _ => []
  end.


(** A request as a module of class [C] sends it under [options]: its
    prompt starts, behind a line break, with the custom prompt of the
    options or else with the default prompt of the class, and it names
    the model of the options or else "gpt-4". *)
Definition requestOf (C : ModuleClass.t) (options : option ModuleOptions.t)
    (request : ChatRequest.t) : Prop :=
  (exists block,
     ChatRequest.content request
     = nl ++ orElse (customPromptOf options)
               (ModuleClass.getDefaultPrompt C) ++ block) /\
  ChatRequest.model request = orElse (modelOf options) (js "gpt-4").

(** The class of a list that is registered under an id when the classes
    of the list are registered one after the other and no id comes
    twice: the first one with that id. *)
Definition classOf (classes : list ModuleClass.t) (moduleId : jsstring)
    : option ModuleClass.t :=
  List.find (fun C => bool_decide (ModuleClass.moduleId C = moduleId))
    classes.

(** The request that a workflow sends for a listed id: that of the
    module class registered under the id, under the options that the
    workflow holds for the id. *)
Definition requestFor (classes : list ModuleClass.t)
    (workflowOptions : WorkflowOptions.t) (moduleId : jsstring)
    (request : ChatRequest.t) : Prop :=
  exists C,
    classOf classes moduleId = Some C /\
    requestOf C
      (ContentGuardianController.optionsFor workflowOptions moduleId)
      request.

(** Collaborators and a controller for the runs of the further
    properties. *)
Module Sample.

(** An endpoint that is out of service. *)
Definition down : External := Mock.failing (js "quota exceeded").

(** An endpoint whose answers have no content. *)
Definition silent : External := Mock.recording (fun _ => Returned None).

(** The registry that the start of the application builds. *)
Definition registry `{External} : ContentGuardianController.t :=
  {| ContentGuardianController.modules := map entryOf Modules.all |}.

(** Options that name a model and a prompt. *)
Definition tuned : ModuleOptions.t :=
  {| ModuleOptions.verbose := Some true;
     ModuleOptions.maxTokens := Some 1000%Q;
     ModuleOptions.model := Some (js "gpt-4-turbo");
     ModuleOptions.customPrompt :=
       Some (js "Analyze the following content carefully.") |}.

End Sample.

(* ===================================================================== *)
(** * Properties *)
(* ===================================================================== *)

(** ** Whitespace, trimming and line splitting *)

Section Strings.

Lemma trimStart_decompose (s : jsstring) :
  exists w, s = w ++ trimStart s /\ forallb isWhiteSpace w = true.
Proof.
  induction s as [|c s [w [Hs Hw]]]; simpl.
  - exists []. split; reflexivity.
  - destruct (isWhiteSpace c) eqn:Hc.
    + exists (c :: w). simpl. rewrite Hc, Hw. split; [congruence | reflexivity].
    + exists []. split; reflexivity.
Qed.

Lemma trimStart_all_white (w : jsstring) :
  forallb isWhiteSpace w = true -> trimStart w = [].
Proof.
  induction w as [|c w IH]; simpl; [reflexivity|].
  intros [Hc Hw]%andb_true_iff. rewrite Hc. auto.
Qed.

Lemma trimStart_app_white (w s : jsstring) :
  forallb isWhiteSpace w = true -> trimStart (w ++ s) = trimStart s.
Proof.
  induction w as [|c w IH]; simpl; [reflexivity|].
  intros [Hc Hw]%andb_true_iff. rewrite Hc. auto.
Qed.

Lemma trimStart_snoc (s : jsstring) (c : N) :
  trimStart (s ++ [c]) =
    if forallb isWhiteSpace s
    then (if isWhiteSpace c then [] else [c])
    else trimStart s ++ [c].
Proof.
  induction s as [|x s IH]; simpl; [reflexivity|].
  destruct (isWhiteSpace x); simpl; [exact IH | reflexivity].
Qed.

Lemma trimEnd_snoc_white (s : jsstring) (c : N) :
  isWhiteSpace c = true -> trimEnd (s ++ [c]) = trimEnd s.
Proof.
  intros Hc. unfold trimEnd. rewrite rev_app_distr. simpl. now rewrite Hc.
Qed.

Lemma trim_snoc_white (s : jsstring) (c : N) :
  isWhiteSpace c = true -> trim (s ++ [c]) = trim s.
Proof.
  intros Hc. unfold trim. rewrite trimStart_snoc, Hc.
  destruct (forallb isWhiteSpace s) eqn:Hs.
  - now rewrite (trimStart_all_white s Hs).
  - now apply trimEnd_snoc_white.
Qed.

Lemma trim_cons_white (s : jsstring) (c : N) :
  isWhiteSpace c = true -> trim (c :: s) = trim s.
Proof. intros Hc. unfold trim. simpl. now rewrite Hc. Qed.

Lemma trim_nil : trim [] = [].
Proof. reflexivity. Qed.

Lemma split_not_nil (sep : N) (s : jsstring) : split sep s <> [].
Proof.
  destruct s as [|c s]; simpl; [discriminate|].
  destruct (c =? sep)%N; [discriminate|].
  destruct (split sep s); discriminate.
Qed.

Lemma split_cons_other (sep c : N) (s : jsstring) :
  (c =? sep)%N = false ->
  exists piece pieces,
    split sep s = piece :: pieces /\
    split sep (c :: s) = (c :: piece) :: pieces.
Proof.
  intros Hc. simpl. rewrite Hc.
  destruct (split sep s) as [|piece pieces] eqn:E.
  - now apply split_not_nil in E.
  - eauto.
Qed.

Lemma split_snoc (sep c : N) (s : jsstring) :
  split sep (s ++ [c]) =
    if (c =? sep)%N then split sep s ++ [[]]
    else removelast (split sep s) ++ [List.last (split sep s) [] ++ [c]].
Proof.
  induction s as [|x s IH]; simpl.
  - destruct (c =? sep)%N; reflexivity.
  - rewrite IH. destruct (x =? sep)%N eqn:Hx.
    + destruct (c =? sep)%N; [reflexivity|].
      destruct (split sep s) as [|p ps] eqn:E;
        [now apply split_not_nil in E|].
      reflexivity.
    + destruct (split sep s) as [|p ps] eqn:E;
        [now apply split_not_nil in E|].
      destruct (c =? sep)%N; [reflexivity|].
      destruct ps; reflexivity.
Qed.

Lemma trimmedLines_cons_white (c : N) (s : jsstring) :
  isWhiteSpace c = true -> trimmedLines (c :: s) = trimmedLines s.
Proof.
  intros Hc. unfold trimmedLines.
  destruct (c =? 0x0A)%N eqn:Hnl.
  - simpl. now rewrite Hnl.
  - destruct (split_cons_other _ _ s Hnl) as (piece & pieces & E1 & E2).
    rewrite E1, E2. simpl. now rewrite (trim_cons_white piece c Hc).
Qed.

Lemma trimmedLines_snoc_white (c : N) (s : jsstring) :
  isWhiteSpace c = true -> trimmedLines (s ++ [c]) = trimmedLines s.
Proof.
  intros Hc. unfold trimmedLines. rewrite split_snoc.
  destruct (c =? 0x0A)%N.
  - rewrite map_app, List.filter_app. simpl. now rewrite app_nil_r.
  - rewrite map_app. simpl. rewrite (trim_snoc_white _ c Hc).
    change [trim (List.last (split 0x0A s) [])]
      with (map trim [List.last (split 0x0A s) []]).
    rewrite <- map_app, <- app_removelast_last; [reflexivity|].
    apply split_not_nil.
Qed.

Lemma trimmedLines_trimStart (s : jsstring) :
  trimmedLines (trimStart s) = trimmedLines s.
Proof.
  induction s as [|c s IH]; simpl; [reflexivity|].
  destruct (isWhiteSpace c) eqn:Hc; [|reflexivity].
  now rewrite (trimmedLines_cons_white c s Hc).
Qed.

Lemma trimmedLines_app_white (s w : jsstring) :
  forallb isWhiteSpace w = true -> trimmedLines (s ++ w) = trimmedLines s.
Proof.
  revert s. induction w as [|c w IH]; intros s Hw.
  - now rewrite app_nil_r.
  - simpl in Hw. apply andb_true_iff in Hw as [Hc Hw].
    change (c :: w) with ([c] ++ w). rewrite app_assoc, (IH _ Hw).
    now apply trimmedLines_snoc_white.
Qed.

Lemma trimEnd_decompose (s : jsstring) :
  exists w, s = trimEnd s ++ w /\ forallb isWhiteSpace w = true.
Proof.
  destruct (trimStart_decompose (rev s)) as (w & Hs & Hw).
  exists (rev w). split.
  - unfold trimEnd. rewrite <- rev_app_distr, <- Hs. now rewrite rev_involutive.
  - apply forallb_forall. intros x Hx. apply in_rev in Hx.
    rewrite forallb_forall in Hw. auto.
Qed.

Lemma trimmedLines_trimEnd (s : jsstring) :
  trimmedLines (trimEnd s) = trimmedLines s.
Proof.
  destruct (trimEnd_decompose s) as (w & Hs & Hw).
  rewrite Hs at 2. symmetry. now apply trimmedLines_app_white.
Qed.

(** Trimming a text before it is split neither adds nor removes a
    non-empty trimmed line. *)
Lemma trimmedLines_trim (s : jsstring) :
  trimmedLines (trim s) = trimmedLines s.
Proof.
  unfold trim. now rewrite trimmedLines_trimEnd, trimmedLines_trimStart.
Qed.

End Strings.

(** ** The matcher on the patterns of the parsers *)

Section Matcher.

Lemma rmatch_seq fl r1 r2 k s caps :
  rmatch fl (RSeq r1 r2) k s caps = rmatch fl r1 (rmatch fl r2 k) s caps.
Proof. reflexivity. Qed.

Lemma rmatch_group fl i r k s caps :
  rmatch fl (RGroup i r) k s caps =
    rmatch fl r
      (fun s' caps' => k s' (<[i:=Some (consumed s s')]> caps')) s caps.
Proof. reflexivity. Qed.

Lemma rmatch_lookahead fl r k s caps :
  rmatch fl (RLookahead r) k s caps =
    match rmatch fl r (fun s' caps' => Some (s', caps')) s caps with
    | Some (_, caps') => k s caps'
    | None => None
    end.
Proof. reflexivity. Qed.

Lemma rmatch_lit fl p k s caps :
  rmatch fl (lit p) k s caps =
    match stripPrefix fl p s with
    | Some rest => k rest caps
    | None => None
    end.
Proof.
  revert s. induction p as [|c p IH]; intros s; [reflexivity|].
  destruct p as [|c' p].
  - simpl. destruct s as [|x s]; [reflexivity|].
    now destruct (charMatches fl c x).
  - change (lit (c :: c' :: p)) with (RSeq (RChar c) (lit (c' :: p))).
    cbn [rmatch stripPrefix]. destruct s as [|x s]; [reflexivity|].
    destruct (charMatches fl c x); [apply IH | reflexivity].
Qed.

Lemma oneChar_class fl p : oneChar p (rmatch fl (RClass p)).
Proof. intros k s caps. reflexivity. Qed.

Lemma oneChar_dot fl : oneChar (dotMatches fl) (rmatch fl RDot).
Proof. intros k s caps. reflexivity. Qed.

Lemma starLoop_lazy p body k fuel s caps :
  oneChar p body -> length s <= fuel ->
  starLoop body false k fuel s caps = lazyScan p k s caps.
Proof.
  intros Hb. revert s. induction fuel as [|fuel IH]; intros s Hlen.
  - destruct s; [|simpl in Hlen; lia]. simpl.
    now destruct (k [] caps).
  - destruct s as [|x s].
    + simpl. destruct (k [] caps); [reflexivity|]. now rewrite Hb.
    + cbn [starLoop lazyScan]. destruct (k (x :: s) caps); [reflexivity|].
      rewrite Hb. destruct (p x); [|reflexivity].
      replace (length s <? length (x :: s)) with true
        by (symmetry; apply Nat.ltb_lt; simpl; lia).
      apply IH. simpl in Hlen. lia.
Qed.

Lemma starLoop_greedy p body k fuel s caps :
  oneChar p body -> length s <= fuel ->
  starLoop body true k fuel s caps = greedyScan p k s caps.
Proof.
  intros Hb. revert s. induction fuel as [|fuel IH]; intros s Hlen.
  - destruct s; [|simpl in Hlen; lia]. reflexivity.
  - destruct s as [|x s].
    + simpl. now rewrite Hb.
    + cbn [starLoop greedyScan]. rewrite Hb. destruct (p x); [|reflexivity].
      replace (length s <? length (x :: s)) with true
        by (symmetry; apply Nat.ltb_lt; simpl; lia).
      rewrite IH by (simpl in Hlen; lia). reflexivity.
Qed.

Lemma rmatch_star_lazy fl p r k s caps :
  oneChar p (rmatch fl r) ->
  rmatch fl (RStar false r) k s caps = lazyScan p k s caps.
Proof. intros Hb. simpl. now apply starLoop_lazy. Qed.

Lemma rmatch_star_greedy fl p r k s caps :
  oneChar p (rmatch fl r) ->
  rmatch fl (RStar true r) k s caps = greedyScan p k s caps.
Proof. intros Hb. simpl. now apply starLoop_greedy. Qed.

(** A continuation that rejects every input starting with a
    [p]-character is reached behind the whole run of them. *)
Lemma greedyScan_skip p k s caps :
  (forall x s' c, p x = true -> k (x :: s') c = None) ->
  greedyScan p k s caps = k (dropWhile p s) caps.
Proof.
  intros Hk. induction s as [|x s IH]; [reflexivity|].
  simpl. destruct (p x) eqn:Hp; [|reflexivity].
  rewrite IH. destruct (k (dropWhile p s) caps) eqn:E; [reflexivity|].
  now apply Hk.
Qed.

Lemma stripPrefix_ignoreCase fl p s :
  ignoreCase fl = true ->
  stripPrefix fl p s =
    if startsWithIgnoringCase s p then Some (drop (length p) s) else None.
Proof.
  intros Hi. revert s. induction p as [|c p IH]; intros s; [reflexivity|].
  destruct s as [|x s]; [reflexivity|]. simpl.
  unfold charMatches. rewrite Hi.
  destruct (canonicalize x =? canonicalize c)%N; [apply IH | reflexivity].
Qed.

Lemma startsWithIgnoringCase_length s p :
  startsWithIgnoringCase s p = true -> length p <= length s.
Proof.
  revert s. induction p as [|c p IH]; intros s H; simpl; [lia|].
  destruct s as [|x s]; [discriminate|]. simpl in *.
  apply andb_true_iff in H as [_ H]. apply IH in H. lia.
Qed.

Lemma startsWithIgnoringCase_app s p rest :
  startsWithIgnoringCase s p = true ->
  startsWithIgnoringCase (s ++ rest) p = true.
Proof.
  revert s. induction p as [|c p IH]; intros s H; [reflexivity|].
  destruct s as [|x s]; [discriminate|]. simpl in *.
  apply andb_true_iff in H as [Hx H]. rewrite Hx. now apply IH.
Qed.

(** A word that starts with [a ++ b] starts with [a]. *)
Lemma startsWithIgnoringCase_prefix s a b :
  startsWithIgnoringCase s (a ++ b) = true ->
  startsWithIgnoringCase s a = true.
Proof.
  revert s. induction a as [|c a IH]; intros s H; [reflexivity|].
  destruct s as [|x s]; [discriminate|]. simpl in *.
  apply andb_true_iff in H as [Hx H]. rewrite Hx. now apply IH.
Qed.

Lemma equalIgnoringCase_spec a b :
  equalIgnoringCase a b = true ->
  length a = length b /\ startsWithIgnoringCase a b = true.
Proof.
  unfold equalIgnoringCase. intros [Hl H]%andb_true_iff.
  apply Nat.eqb_eq in Hl. auto.
Qed.

Lemma isWhiteSpace_canonical x :
  isWhiteSpace x = true -> canonicalize x = x.
Proof.
  intros Hx. unfold canonicalize, upperAscii.
  destruct ((0x61 <=? x)%N && (x <=? 0x7A)%N) eqn:Hr;
    [|now destruct (x <? 128)%N].
  apply andb_true_iff in Hr as [H1 H2].
  apply N.leb_le in H1. apply N.leb_le in H2.
  unfold isWhiteSpace, isLineTerminator in Hx.
  repeat (apply orb_true_iff in Hx as [Hx|Hx]);
    try (apply N.eqb_eq in Hx; lia).
  apply andb_true_iff in Hx as [Hx _]. apply N.leb_le in Hx. lia.
Qed.

Lemma wordStart_no_white t x s :
  wordStart t = true -> isWhiteSpace x = true ->
  startsWithIgnoringCase (x :: s) t = false.
Proof.
  intros Ht Hx. destruct t as [|c t]; [discriminate|]. simpl in *.
  rewrite (isWhiteSpace_canonical x Hx).
  destruct (x =? canonicalize c)%N eqn:E; [|reflexivity].
  apply N.eqb_eq in E. subst x. now rewrite Hx in Ht.
Qed.

Lemma tokenAt_no_white ts x s :
  forallb wordStart ts = true -> isWhiteSpace x = true ->
  tokenAt ts (x :: s) = None.
Proof.
  intros Hts Hx. induction ts as [|t ts IH]; [reflexivity|].
  simpl in Hts. apply andb_true_iff in Hts as [Ht Hts].
  cbn [tokenAt]. rewrite (wordStart_no_white t x s Ht Hx). auto.
Qed.

Lemma dropWhile_trimStart s : dropWhile isWhiteSpace s = trimStart s.
Proof.
  induction s as [|x s IH]; [reflexivity|]. simpl. now rewrite IH.
Qed.

(** The alternation of literal words, in front of a continuation that
    accepts: the first word that fits is taken. *)
Lemma rmatch_words fl ts (f : jsstring -> Captures -> Captures) s caps :
  ignoreCase fl = true -> ts <> [] ->
  rmatch fl (alternatives (map lit ts))
    (fun s' caps' => Some (s', f s' caps')) s caps =
    match tokenAt ts s with
    | Some rest => Some (rest, f rest caps)
    | None => None
    end.
Proof.
  intros Hi. induction ts as [|t ts IH]; [congruence|]. intros _.
  destruct ts as [|t' ts].
  - simpl. rewrite rmatch_lit, (stripPrefix_ignoreCase _ _ _ Hi).
    now destruct (startsWithIgnoringCase s t).
  - change (alternatives (map lit (t :: t' :: ts)))
      with (RAlt (lit t) (alternatives (map lit (t' :: ts)))).
    cbn [rmatch tokenAt].
    rewrite rmatch_lit, (stripPrefix_ignoreCase _ _ _ Hi).
    destruct (startsWithIgnoringCase s t); [reflexivity|].
    apply IH. discriminate.
Qed.

(** One attempt of a status pattern: the field name, white space, one
    of the three words. *)
Lemma matchHere_status field t1 t2 t3 s :
  forallb wordStart [t1; t2; t3] = true ->
  matchHere (statusPattern field t1 t2 t3) s =
    if startsWithIgnoringCase s field then
      let u := trimStart (drop (length field) s) in
      match tokenAt [t1; t2; t3] u with
      | Some rest => Some (rest, [None; Some (consumed u rest)])
      | None => None
      end
    else None.
Proof.
  intros Hw. unfold matchHere, statusPattern.
  cbn [pattern flags nGroups].
  rewrite rmatch_seq, rmatch_lit, stripPrefix_ignoreCase by reflexivity.
  destruct (startsWithIgnoringCase s field); [|reflexivity].
  rewrite rmatch_seq.
  rewrite (rmatch_star_greedy _ isWhiteSpace) by apply oneChar_class.
  change (alternatives [lit t1; lit t2; lit t3])
    with (alternatives (map lit [t1; t2; t3])).
  rewrite greedyScan_skip.
  - rewrite dropWhile_trimStart, rmatch_group.
    rewrite (rmatch_words _ _
               (fun s' caps' =>
                  <[1:=Some (consumed
                               (trimStart (drop (length field) s)) s')]>
                    caps'))
      by (reflexivity || discriminate).
    reflexivity.
  - intros x s' c Hx. rewrite rmatch_group.
    rewrite (rmatch_words _ _
               (fun s'' caps' =>
                  <[1:=Some (consumed (x :: s') s'')]> caps'))
      by (reflexivity || discriminate).
    now rewrite (tokenAt_no_white _ x s' Hw Hx).
Qed.

Lemma consumed_drop n (u : jsstring) :
  n <= length u -> consumed u (drop n u) = take n u.
Proof.
  intros Hn. unfold consumed. rewrite length_drop. f_equal. lia.
Qed.

Lemma canonicalize_upper x c :
  (c <? 128)%N = true -> upperAscii c = c ->
  canonicalize x = canonicalize c -> upperAscii x = c.
Proof.
  intros Hc Hu. unfold canonicalize. rewrite Hc, Hu.
  destruct (x <? 128)%N eqn:Hx; [easy|].
  intros ->. congruence.
Qed.

(** What a word of the pattern matched is that word, once in upper
    case. *)
Lemma toUpperCase_word u t :
  upperWord t = true -> startsWithIgnoringCase u t = true ->
  toUpperCase (take (length t) u) = t.
Proof.
  revert u. induction t as [|c t IH]; intros u Ht Hu; [reflexivity|].
  destruct u as [|x u]; [discriminate|]. simpl in *.
  apply andb_true_iff in Ht as [Hc Ht].
  apply andb_true_iff in Hc as [Hc Hup].
  apply andb_true_iff in Hu as [Hx Hu].
  apply N.eqb_eq in Hup, Hx.
  rewrite (canonicalize_upper x c Hc Hup Hx). f_equal. now apply IH.
Qed.

Lemma tokenAt_word ts u rest :
  forallb upperWord ts = true -> tokenAt ts u = Some rest ->
  exists before t after,
    ts = before ++ t :: after /\
    forallb (fun t' => negb (startsWithIgnoringCase u t')) before = true /\
    startsWithIgnoringCase u t = true /\
    toUpperCase (consumed u rest) = t.
Proof.
  induction ts as [|t ts IH]; [discriminate|]. simpl.
  intros [Ht Hts]%andb_true_iff.
  destruct (startsWithIgnoringCase u t) eqn:Hu.
  - intros [= <-]. exists [], t, ts. repeat split; [assumption|].
    rewrite consumed_drop by now apply startsWithIgnoringCase_length.
    now apply toUpperCase_word.
  - intros H. destruct (IH Hts H) as (before & t' & after & -> & Hb & Hu' & Hw).
    exists (t :: before), t', after. simpl. rewrite Hu. auto.
Qed.

(** Whatever a status pattern finds, its group holds one of the three
    words, as written in the input at a place where no earlier word of
    the alternation fits. *)
Lemma exec_status_capture field t1 t2 t3 s m :
  forallb wordStart [t1; t2; t3] = true ->
  exec (statusPattern field t1 t2 t3) s = Some m ->
  exists u rest,
    tokenAt [t1; t2; t3] u = Some rest /\ capture m 1 = consumed u rest.
Proof.
  intros Hw. induction s as [|x s IH]; cbn [exec];
    rewrite (matchHere_status _ _ _ _ _ Hw).
  - destruct (startsWithIgnoringCase [] field); [|discriminate].
    cbn zeta.
    destruct (tokenAt _ _) as [rest|] eqn:E; [|discriminate].
    intros [= <-]. eauto.
  - destruct (startsWithIgnoringCase (x :: s) field); [|exact IH].
    cbn zeta.
    destruct (tokenAt _ _) as [rest|] eqn:E; [|exact IH].
    intros [= <-]. eauto.
Qed.

Lemma exec_status_none field t1 t2 t3 s :
  forallb wordStart [t1; t2; t3] = true ->
  (forall i, i <= length s ->
     startsWithIgnoringCase (drop i s) field = true ->
     tokenAt [t1; t2; t3]
       (trimStart (drop (length field) (drop i s))) = None) ->
  exec (statusPattern field t1 t2 t3) s = None.
Proof.
  intros Hw. induction s as [|x s IH]; intros Hno; cbn [exec];
    rewrite (matchHere_status _ _ _ _ _ Hw).
  - specialize (Hno 0 (Nat.le_refl _)). cbn [drop] in Hno.
    destruct (startsWithIgnoringCase [] field); [|reflexivity].
    cbn zeta. now rewrite Hno.
  - assert (H0 := Hno 0 (Nat.le_0_l _)). cbn [drop] in H0.
    destruct (startsWithIgnoringCase (x :: s) field).
    + cbn zeta. rewrite H0 by reflexivity. apply IH.
      intros i Hi. apply (Hno (S i)). simpl. lia.
    + apply IH. intros i Hi. apply (Hno (S i)). simpl. lia.
Qed.

Lemma alternatives_cons r rs :
  rs <> [] -> alternatives (r :: rs) = RAlt r (alternatives rs).
Proof. destruct rs; [congruence | reflexivity]. Qed.

(** The look-ahead of a section pattern holds at a stop word and at the
    end of the input, and leaves the captures as they are. *)
Lemma rmatch_stops fl stops s caps :
  ignoreCase fl = true ->
  rmatch fl (alternatives (map lit stops ++ [REnd]))
    (fun s' caps' => Some (s', caps')) s caps =
    if atStop stops s
    then Some
           (match tokenAt stops s with Some rest => rest | None => [] end,
            caps)
    else None.
Proof.
  intros Hi. unfold atStop. induction stops as [|t stops IH].
  - simpl. now destruct s.
  - cbn [map app]. rewrite alternatives_cons by now destruct stops.
    cbn [rmatch existsb tokenAt].
    rewrite rmatch_lit, (stripPrefix_ignoreCase _ _ _ Hi).
    destruct (startsWithIgnoringCase s t); [reflexivity|].
    exact IH.
Qed.

Lemma lookahead_stops fl stops k s caps :
  ignoreCase fl = true ->
  rmatch fl (RLookahead (alternatives (map lit stops ++ [REnd]))) k s caps
  = if atStop stops s then k s caps else None.
Proof.
  intros Hi. rewrite rmatch_lookahead, (rmatch_stops _ _ _ _ Hi).
  now destruct (atStop stops s).
Qed.

Lemma consumed_app (pre s : jsstring) : consumed (pre ++ s) s = pre.
Proof.
  unfold consumed. rewrite length_app.
  replace (length pre + length s - length s) with (length pre) by lia.
  now rewrite take_app_length.
Qed.

Lemma lazyScan_ext p k1 k2 s caps :
  (forall s' caps', k1 s' caps' = k2 s' caps') ->
  lazyScan p k1 s caps = lazyScan p k2 s caps.
Proof.
  intros Hk. induction s as [|x s IH]; simpl; rewrite Hk.
  - reflexivity.
  - now rewrite IH.
Qed.

Lemma lazyScan_beforeStop p stops pre s caps :
  (forall x, p x = true) ->
  lazyScan p
    (fun s' caps' =>
       if atStop stops s'
       then Some (s', <[1:=Some (consumed (pre ++ s) s')]> caps')
       else None)
    s caps
  = Some (drop (length (beforeStop stops s)) s,
          <[1:=Some (pre ++ beforeStop stops s)]> caps).
Proof.
  intros Hp. revert pre. induction s as [|x s IH]; intros pre.
  - simpl. unfold atStop. rewrite orb_true_r.
    now rewrite (consumed_app pre []), app_nil_r.
  - cbn [lazyScan beforeStop]. destruct (atStop stops (x :: s)).
    + now rewrite consumed_app, app_nil_r.
    + rewrite Hp. replace (pre ++ x :: s) with ((pre ++ [x]) ++ s)
        by now rewrite <- app_assoc.
      rewrite IH. now rewrite <- app_assoc.
Qed.

(** One attempt of a section pattern: the header, then the text up to
    the first stop. *)
Lemma matchHere_section header stops s :
  matchHere (sectionPattern header stops) s =
    if startsWithIgnoringCase s header then
      let u := drop (length header) s in
      Some (drop (length (beforeStop stops u)) u,
            [None; Some (beforeStop stops u)])
    else None.
Proof.
  unfold matchHere, sectionPattern. cbn [pattern flags nGroups].
  rewrite rmatch_seq, rmatch_lit, stripPrefix_ignoreCase by reflexivity.
  destruct (startsWithIgnoringCase s header); [|reflexivity].
  rewrite rmatch_seq, rmatch_group.
  rewrite (rmatch_star_lazy _ (dotMatches cis)) by apply oneChar_dot.
  cbn zeta. set (u := drop (length header) s).
  transitivity
    (lazyScan (dotMatches cis)
       (fun s' caps' =>
          if atStop stops s'
          then Some (s', <[1:=Some (consumed ([] ++ u) s')]> caps')
          else None)
       u (replicate 2 None)).
  - apply lazyScan_ext. intros s' caps'.
    now rewrite lookahead_stops.
  - now rewrite lazyScan_beforeStop.
Qed.

(** What a section pattern finds: the text between the first header
    and the first stop behind it. *)
Lemma exec_section header stops s :
  option_map (fun m => capture m 1) (exec (sectionPattern header stops) s)
  = option_map (beforeStop stops) (behindFirst header s).
Proof.
  induction s as [|x s IH]; cbn [exec behindFirst];
    rewrite matchHere_section.
  - now destruct (startsWithIgnoringCase [] header).
  - destruct (startsWithIgnoringCase (x :: s) header); [reflexivity|].
    exact IH.
Qed.

Lemma behindFirst_decompose header pre rest :
  (forall i, i < length pre ->
     startsWithIgnoringCase (drop i (pre ++ rest)) header = false) ->
  startsWithIgnoringCase rest header = true ->
  behindFirst header (pre ++ rest) = Some (drop (length header) rest).
Proof.
  intros Hpre Hrest. induction pre as [|x pre IH].
  - simpl. destruct rest; simpl; now rewrite Hrest.
  - assert (H0 := Hpre 0 (Nat.lt_0_succ _)). simpl in H0.
    cbn [app behindFirst]. rewrite H0.
    apply IH. intros i Hi. apply (Hpre (S i)). simpl. lia.
Qed.

Lemma beforeStop_decompose stops mid rest :
  (forall i, i < length mid ->
     atStop stops (drop i (mid ++ rest)) = false) ->
  atStop stops rest = true ->
  beforeStop stops (mid ++ rest) = mid.
Proof.
  intros Hmid Hrest. induction mid as [|x mid IH].
  - simpl. destruct rest; simpl; now rewrite Hrest.
  - assert (H0 := Hmid 0 (Nat.lt_0_succ _)). simpl in H0.
    cbn [app beforeStop]. rewrite H0. f_equal.
    apply IH. intros i Hi. apply (Hmid (S i)). simpl. lia.
Qed.

Lemma drop_equalIgnoringCase m header rest :
  equalIgnoringCase m header = true ->
  startsWithIgnoringCase (m ++ rest) header = true /\
  drop (length header) (m ++ rest) = rest.
Proof.
  intros [Hl Hm]%equalIgnoringCase_spec. split.
  - now apply startsWithIgnoringCase_app.
  - rewrite <- Hl. apply drop_app_length.
Qed.

End Matcher.

(** ** The result parsers *)

Section Parsers.

Lemma filter_both {A} (f g : A -> bool) (l : list A) :
  List.filter (fun x => f x && g x) l = List.filter g (List.filter f l).
Proof.
  induction l as [|x l IH]; [reflexivity|]. simpl.
  destruct (f x); simpl; [destruct (g x)|]; now rewrite IH.
Qed.

(** The recommended fixes are the trimmed, non-empty lines of the text
    between the first header and the first stop behind it, without the
    lines that start with the literal of the [startsWith] test. *)
Lemma parseResults_recommendedFixes (C : ModuleClass.t) header stops
    completion :
  ModuleClass.sectionRegExp C = sectionPattern header stops ->
  Parsed.recommendedFixes (parseResults C completion) =
    List.filter
      (fun line => negb (startsWith line (ModuleClass.sectionHeader C)))
      (trimmedLines
         (match behindFirst header completion with
          | Some u => beforeStop stops u
          | None => []
          end)).
Proof.
  intros HC. unfold parseResults. cbn [Parsed.recommendedFixes].
  rewrite filter_both. f_equal. fold (trimmedLines
    match String_match completion (ModuleClass.sectionRegExp C) with
    | Some m => trim (capture m 1)
    | None => []
    end).
  unfold String_match. rewrite HC.
  pose proof (exec_section header stops completion) as E.
  destruct (exec (sectionPattern header stops) completion) as [m|];
    destruct (behindFirst header completion) as [u|];
    try discriminate; [|reflexivity].
  injection E as ->. apply trimmedLines_trim.
Qed.

(** The status is read off the word in the group of the status pattern:
    the word of the first alternative that fits. *)
Lemma parseResults_status_found (C : ModuleClass.t) field t1 t2 t3
    completion m :
  ModuleClass.statusRegExp C = statusPattern field t1 t2 t3 ->
  forallb wordStart [t1; t2; t3] = true ->
  forallb upperWord [t1; t2; t3] = true ->
  String_match completion (ModuleClass.statusRegExp C) = Some m ->
  exists before t after u,
    [t1; t2; t3] = before ++ t :: after /\
    forallb (fun t' => negb (startsWithIgnoringCase u t')) before = true /\
    startsWithIgnoringCase u t = true /\
    Parsed.status (parseResults C completion) =
      if bool_decide (t = ModuleClass.caseSuccess C) then success
      else if bool_decide (t = ModuleClass.caseWarning C) then warning
      else if bool_decide (t = ModuleClass.caseError C) then error
      else warning.
Proof.
  intros HC Hw Hu Hm. unfold parseResults. cbn [Parsed.status].
  rewrite Hm. unfold String_match in Hm. rewrite HC in Hm.
  destruct (exec_status_capture _ _ _ _ _ _ Hw Hm) as (u & rest & Ht & Hc).
  destruct (tokenAt_word _ _ _ Hu Ht)
    as (before & t & after & Hts & Hb & Hfit & Hup).
  exists before, t, after, u. rewrite Hc, Hup. auto.
Qed.

Lemma parseResults_status_missing (C : ModuleClass.t) completion :
  String_match completion (ModuleClass.statusRegExp C) = None ->
  ModuleClass.caseSuccess C <> js "UNKNOWN" ->
  ModuleClass.caseError C <> js "UNKNOWN" ->
  Parsed.status (parseResults C completion) = warning.
Proof.
  intros Hm Hs He. unfold parseResults. cbn [Parsed.status]. rewrite Hm.
  rewrite (bool_decide_eq_false_2 _ (not_eq_sym Hs)).
  rewrite (bool_decide_eq_false_2 _ (not_eq_sym He)).
  now destruct (bool_decide _).
Qed.

(** In the status pattern of FactCheckLayer the word PASS stands before
    PASS_WITH_WARNINGS, of which it is a prefix: the group holds PASS or
    FAIL, never PASS_WITH_WARNINGS, and the status read off a recognised
    word is never [warning]. *)
Lemma FactCheckLayer_status_found completion m :
  String_match completion
    (ModuleClass.statusRegExp Modules.FactCheckLayer) = Some m ->
  Parsed.status (parseResults Modules.FactCheckLayer completion) = success
  \/ Parsed.status (parseResults Modules.FactCheckLayer completion) = error.
Proof.
  intros Hm.
  destruct (parseResults_status_found Modules.FactCheckLayer
              (js "OVERALL_ASSESSMENT:") (js "PASS")
              (js "PASS_WITH_WARNINGS") (js "FAIL") completion m
              eq_refl eq_refl eq_refl Hm)
    as (before & t & after & u & Hts & Hb & Hfit & ->).
  destruct before as [|b1 before].
  { injection Hts as <- _. left. reflexivity. }
  destruct before as [|b2 before].
  { injection Hts as <- <- _. exfalso.
    cbn [forallb] in Hb. rewrite andb_true_r in Hb.
    apply negb_true_iff in Hb.
    change (js "PASS_WITH_WARNINGS")
      with (js "PASS" ++ js "_WITH_WARNINGS") in Hfit.
    apply startsWithIgnoringCase_prefix in Hfit. congruence. }
  destruct before as [|b3 before].
  { injection Hts as <- <- <- _. right. reflexivity. }
  exfalso. apply (f_equal length) in Hts. simpl in Hts.
  rewrite length_app in Hts. simpl in Hts. lia.
Qed.

Lemma FactCheckLayer_warning_iff_unrecognised completion :
  Parsed.status (parseResults Modules.FactCheckLayer completion) = warning
  <-> String_match completion
        (ModuleClass.statusRegExp Modules.FactCheckLayer) = None.
Proof.
  split.
  - intros Hw.
    destruct (String_match completion _) as [m|] eqn:Hm; [|reflexivity].
    destruct (FactCheckLayer_status_found completion m Hm); congruence.
  - intros Hm. apply parseResults_status_missing; [exact Hm | |];
      intros H; discriminate H.
Qed.

End Parsers.

(** ** Logger, AIService and the module contract *)

Section Effects.
Context `{External}.

Lemma log_run level moduleId message data w :
  Logger.log level moduleId message data w
  = (Returned tt, logged level moduleId message data w).
Proof. reflexivity. Qed.

Lemma info_run moduleId message w :
  Logger.info moduleId message w
  = (Returned tt, logged INFO moduleId message None w).
Proof. reflexivity. Qed.

Lemma warning_run moduleId message w :
  Logger.warning moduleId message w
  = (Returned tt, logged WARNING moduleId message None w).
Proof. reflexivity. Qed.

Lemma error_run moduleId message data w :
  Logger.error moduleId message data w
  = (Returned tt, logged ERROR moduleId message data w).
Proof. reflexivity. Qed.

Lemma bind_run {A B} (m : M A) (f : A -> M B) w a w' :
  m w = (Returned a, w') -> bind m f w = f a w'.
Proof. intros E. unfold bind. now rewrite E. Qed.

Lemma bind_thrown {A B} (m : M A) (f : A -> M B) w e w' :
  m w = (Thrown e, w') -> bind m f w = (Thrown e, w').
Proof. intros E. unfold bind. now rewrite E. Qed.

Lemma tryCatch_returned {A} (m : M A) h w a w' :
  m w = (Returned a, w') -> tryCatch m h w = (Returned a, w').
Proof. intros E. unfold tryCatch. now rewrite E. Qed.

Lemma tryCatch_thrown {A} (m : M A) h w e w' :
  m w = (Thrown e, w') -> tryCatch m h w = h e w'.
Proof. intros E. unfold tryCatch. now rewrite E. Qed.

(** [generateCompletion]: one log entry, one call of the endpoint, one
    more log entry; a failure of the endpoint is wrapped and thrown. *)
Lemma generateCompletion_run prompt options w :
  AIService.generateCompletion prompt options w =
    let w1 :=
      logged INFO (js "AIService")
        (js "Generating completion with model: "
         ++ orElse (AIServiceOptions.model options) (js "default"))
        None w in
    match chatCompletionsCreate (AIService.chatRequest prompt options)
            (api w) with
    | (Returned response, a) =>
        (Returned (orElse response []),
         logged INFO (js "AIService")
           (js "Completion generated successfully") None (withApi a w1))
    | (Thrown e, a) =>
        (Thrown (JsError (js "Failed to generate completion: "
                          ++ errorText e)),
         logged ERROR (js "AIService") (js "Error generating completion")
           (Some e) (withApi a w1))
    end.
Proof.
  unfold AIService.generateCompletion, tryCatch, bind, callApi.
  rewrite info_run. cbn [api logged].
  destruct (chatCompletionsCreate _ (api w)) as [[response|e] a];
    reflexivity.
Qed.

Lemma createMetadata_run C options w :
  BaseModule.createMetadata C options w
  = (Returned (metadataAt C options (reads w)), tick w).
Proof. reflexivity. Qed.

Lemma createResult_run C st report fixes md w :
  BaseModule.createResult C st report fixes (Some md) w =
    (Returned
       {| ModuleResult.moduleId := ModuleClass.moduleId C;
          ModuleResult.status := st;
          ModuleResult.report := report;
          ModuleResult.recommendedFixes :=
            match fixes with
            | Some (fix1 :: rest) => Some (fix1 :: rest)
            | _ => None
            end;
          ModuleResult.metadata := md |},
     logged INFO (ModuleClass.moduleId C)
       (js "Module processing completed with status: " ++ statusString st)
       None w).
Proof. reflexivity. Qed.

Lemma createResult_default_run C st report fixes w :
  BaseModule.createResult C st report fixes None w =
    (Returned
       {| ModuleResult.moduleId := ModuleClass.moduleId C;
          ModuleResult.status := st;
          ModuleResult.report := report;
          ModuleResult.recommendedFixes :=
            match fixes with
            | Some (fix1 :: rest) => Some (fix1 :: rest)
            | _ => None
            end;
          ModuleResult.metadata := metadataAt C None (reads w) |},
     logged INFO (ModuleClass.moduleId C)
       (js "Module processing completed with status: " ++ statusString st)
       None (tick w)).
Proof. reflexivity. Qed.

Lemma trimStart_nil_inv s :
  trimStart s = [] -> forallb isWhiteSpace s = true.
Proof.
  induction s as [|c s IH]; [reflexivity|]. simpl.
  destruct (isWhiteSpace c); [exact IH | discriminate].
Qed.

(** A text trims to the empty string exactly when it is made of white
    space only. *)
Lemma trim_nil_iff s : trim s = [] <-> forallb isWhiteSpace s = true.
Proof.
  split.
  - unfold trim, trimEnd. intros Ht.
    apply (f_equal (@rev N)) in Ht. rewrite rev_involutive in Ht.
    simpl in Ht. apply trimStart_nil_inv in Ht.
    destruct (trimStart_decompose s) as (w & Hs & Hw).
    destruct (trimStart s) as [|c t] eqn:E.
    + rewrite Hs, app_nil_r. exact Hw.
    + exfalso. rewrite forallb_forall in Ht.
      assert (Hc : isWhiteSpace c = true)
        by (apply Ht, in_rev; rewrite rev_involutive; now left).
      destruct s as [|x s]; [discriminate|]. simpl in E.
      destruct (isWhiteSpace x) eqn:Hx.
      * clear -E Hc. revert E. induction s as [|y s IH]; [discriminate|].
        simpl. destruct (isWhiteSpace y) eqn:Hy; [exact IH|].
        intros [= -> _]. congruence.
      * injection E as -> _. congruence.
  - intros Hs. unfold trim. now rewrite (trimStart_all_white s Hs).
Qed.

Lemma validateInput_blank C input w :
  blankContent input = true ->
  BaseModule.validateInput C input w =
    (Returned false,
     logged ERROR (ModuleClass.moduleId C)
       (js "Invalid input: content is required") None w).
Proof.
  unfold blankContent, BaseModule.validateInput.
  destruct (ContentInput.content input) as [[|c s]|]; try reflexivity.
  intros Hb. apply trim_nil_iff in Hb.
  now rewrite (bool_decide_eq_true_2 _ Hb).
Qed.

Lemma validateInput_present C input w :
  blankContent input = false ->
  BaseModule.validateInput C input w = (Returned true, w).
Proof.
  unfold blankContent, BaseModule.validateInput.
  destruct (ContentInput.content input) as [[|c s]|]; try discriminate.
  intros Hb. rewrite bool_decide_eq_false_2; [reflexivity|].
  intros Ht. apply trim_nil_iff in Ht. congruence.
Qed.

(** The prompt is the custom or default prompt behind a line break and
    in front of the rendered content record; composing it leaves the
    log and the endpoint alone. *)
Lemma preparePrompt_run C input options w :
  exists block n,
    block <> [] /\
    BaseModule.preparePrompt C input options w =
      (Returned
         (nl ++ orElse (customPromptOf options)
                       (ModuleClass.getDefaultPrompt C) ++ block),
       {| logs := logs w; reads := n; api := api w |}).
Proof.
  unfold BaseModule.preparePrompt. destruct w as [l r a].
  destruct (ModuleClass.layout C); eexists; eexists; (split; [|
    unfold bind, ret, uuidv4, nowISO; cbn [fst snd reads logs api];
    rewrite <- ?app_assoc; reflexivity]);
    intros Hnil; apply (f_equal length) in Hnil;
    rewrite !length_app in Hnil; simpl in Hnil; lia.
Qed.

(** The invalid-input path of [process]. *)
Lemma process_blank C input options w :
  blankContent input = true ->
  BaseModule.process C input options w =
    (Returned
       {| ModuleResult.moduleId := ModuleClass.moduleId C;
          ModuleResult.status := error;
          ModuleResult.report := js "Invalid input: content is required";
          ModuleResult.recommendedFixes :=
            Some [ModuleClass.invalidInputFix C];
          ModuleResult.metadata := metadataAt C options (S (reads w)) |},
     logged INFO (ModuleClass.moduleId C)
       (js "Module processing completed with status: "
        ++ statusString error) None
       (tick
          (logged ERROR (ModuleClass.moduleId C)
             (js "Invalid input: content is required") None w))).
Proof.
  intros Hb. unfold BaseModule.process.
  rewrite (bind_run _ _ _ _ _ (validateInput_blank C input w Hb)).
  cbn [negb].
  rewrite (bind_run _ _ _ _ _ (createMetadata_run C options _)).
  now rewrite createResult_run.
Qed.

(** The path of [process] on which the endpoint answers. *)
Lemma process_answered C input options w prompt w2 response a :
  blankContent input = false ->
  BaseModule.preparePrompt C input options
    (logged INFO (ModuleClass.moduleId C) (ModuleClass.startMessage C)
       None w)
  = (Returned prompt, w2) ->
  chatCompletionsCreate
    (AIService.chatRequest prompt
       (AIService.convertModuleOptionsToAIOptions options)) (api w2)
  = (Returned response, a) ->
  let parsed := parseResults C (orElse response []) in
  exists n w',
    BaseModule.process C input options w =
      (Returned
         {| ModuleResult.moduleId := ModuleClass.moduleId C;
            ModuleResult.status := Parsed.status parsed;
            ModuleResult.report := orElse response [];
            ModuleResult.recommendedFixes :=
              match Parsed.recommendedFixes parsed with
              | fix1 :: rest => Some (fix1 :: rest)
              | [] => None
              end;
            ModuleResult.metadata := metadataAt C options n |},
       w')
    /\ api w' = a.
Proof.
  intros Hb Hp Hc parsed. unfold BaseModule.process.
  rewrite (bind_run _ _ _ _ _ (validateInput_present C input w Hb)).
  cbn [negb].
  rewrite (bind_run _ _ _ _ _ (info_run _ _ _)).
  eexists; eexists. split.
  - erewrite tryCatch_returned; [reflexivity|].
    rewrite (bind_run _ _ _ _ _ Hp).
    erewrite bind_run
      by (rewrite generateCompletion_run; cbn zeta; rewrite Hc;
          reflexivity).
    rewrite (bind_run _ _ _ _ _ (info_run _ _ _)).
    rewrite (bind_run _ _ _ _ _ (createMetadata_run C options _)).
    rewrite createResult_run. reflexivity.
  - reflexivity.
Qed.

(** The path of [process] on which the endpoint fails. *)
Lemma process_failed C input options w prompt w2 e a :
  blankContent input = false ->
  BaseModule.preparePrompt C input options
    (logged INFO (ModuleClass.moduleId C) (ModuleClass.startMessage C)
       None w)
  = (Returned prompt, w2) ->
  chatCompletionsCreate
    (AIService.chatRequest prompt
       (AIService.convertModuleOptionsToAIOptions options)) (api w2)
  = (Thrown e, a) ->
  exists n w',
    BaseModule.process C input options w =
      (Returned
         {| ModuleResult.moduleId := ModuleClass.moduleId C;
            ModuleResult.status := error;
            ModuleResult.report :=
              ModuleClass.errorMessage C ++ js ": "
              ++ js "Failed to generate completion: " ++ errorText e;
            ModuleResult.recommendedFixes :=
              Some [ModuleClass.retryFix C; js "Check API connectivity"];
            ModuleResult.metadata := metadataAt C options n |},
       w')
    /\ api w' = a.
Proof.
  intros Hb Hp Hc. unfold BaseModule.process.
  rewrite (bind_run _ _ _ _ _ (validateInput_present C input w Hb)).
  cbn [negb].
  rewrite (bind_run _ _ _ _ _ (info_run _ _ _)).
  eexists; eexists. split.
  - erewrite tryCatch_thrown.
    2:{ rewrite (bind_run _ _ _ _ _ Hp).
        erewrite bind_thrown; [reflexivity|].
        rewrite generateCompletion_run. cbn zeta. rewrite Hc.
        reflexivity. }
    rewrite (bind_run _ _ _ _ _ (error_run _ _ _ _)).
    rewrite (bind_run _ _ _ _ _ (createMetadata_run C options _)).
    rewrite createResult_run. reflexivity.
  - reflexivity.
Qed.

(** [process] never throws, and the result it returns never carries an
    empty list of recommended fixes. *)
Lemma process_returns C input options w :
  exists r w',
    BaseModule.process C input options w = (Returned r, w') /\
    ModuleResult.recommendedFixes r <> Some [].
Proof.
  destruct (blankContent input) eqn:Hb.
  - eexists; eexists. split; [now apply process_blank|]. discriminate.
  - destruct (preparePrompt_run C input options
                (logged INFO (ModuleClass.moduleId C)
                   (ModuleClass.startMessage C) None w))
      as (block & n & _ & Hp).
    destruct (chatCompletionsCreate
                (AIService.chatRequest
                   (nl ++ orElse (customPromptOf options)
                                 (ModuleClass.getDefaultPrompt C) ++ block)
                   (AIService.convertModuleOptionsToAIOptions options))
                (api (logged INFO (ModuleClass.moduleId C)
                        (ModuleClass.startMessage C) None w)))
      as [[response|e] a] eqn:Hc.
    + destruct (process_answered C input options w _ _ response a Hb Hp Hc)
        as (k & w' & Hrun & _).
      eexists; eexists. split; [exact Hrun|].
      cbn [ModuleResult.recommendedFixes].
      destruct (Parsed.recommendedFixes _); discriminate.
    + destruct (process_failed C input options w _ _ e a Hb Hp Hc)
        as (k & w' & Hrun & _).
      eexists; eexists. split; [exact Hrun|]. discriminate.
Qed.

End Effects.

(** ** The controller *)

Section Controller.
Context `{External}.

Import ContentGuardianController.

Lemma runModule_unregistered this moduleId input options w :
  JsMap.get moduleId (modules this) = None ->
  runModule this moduleId input options w =
    (Thrown (JsError (js "Module " ++ moduleId ++ js " not found")),
     logged ERROR tag (js "Module " ++ moduleId ++ js " not found")
       None w).
Proof. intros Hget. unfold runModule. now rewrite Hget. Qed.

Lemma runModule_registered this moduleId input options w module :
  JsMap.get moduleId (modules this) = Some module ->
  runModule this moduleId input options w =
    match ContentGuardianModule.process module input options
            (logged INFO tag (js "Running module " ++ moduleId) None w)
    with
    | (Returned r, w1) =>
        (Returned r,
         logged INFO tag
           (js "Module " ++ moduleId ++ js " completed with status: "
            ++ statusString (ModuleResult.status r)) None w1)
    | (Thrown e, w1) =>
        (Returned
           {| ModuleResult.moduleId := moduleId;
              ModuleResult.status := error;
              ModuleResult.report :=
                js "Error running module: " ++ errorText e;
              ModuleResult.recommendedFixes := None;
              ModuleResult.metadata :=
                {| ModuleMetadata.timestamp := isoString (S (reads w1));
                   ModuleMetadata.promptUsed :=
                     orElse (customPromptOf options) (js "default");
                   ModuleMetadata.modelVersion :=
                     orElse (modelOf options) (js "default-model") |} |},
         tick (logged ERROR tag (js "Error running module " ++ moduleId)
                 (Some e) w1))
    end.
Proof.
  intros Hget. unfold runModule. rewrite Hget.
  rewrite (bind_run _ _ _ _ _ (info_run _ _ _)).
  unfold tryCatch, bind.
  destruct (ContentGuardianModule.process module input options _)
    as [[r|e] w1]; reflexivity.
Qed.

Lemma runModule_registered_returns this moduleId input options w :
  registered this moduleId ->
  exists r w', runModule this moduleId input options w = (Returned r, w').
Proof.
  unfold registered. intros Hreg.
  destruct (JsMap.get moduleId (modules this)) as [module|] eqn:Hget;
    [|congruence].
  rewrite (runModule_registered _ _ _ _ _ _ Hget).
  destruct (ContentGuardianModule.process module input options _)
    as [[r|e] w1]; eauto.
Qed.

(** One iteration of the sequential loop. *)
Lemma sequentialLoop_cons this input wo moduleId rest rs st w :
  sequentialLoop this input wo (moduleId :: rest) rs st w =
    match runModule this moduleId input (optionsFor wo moduleId) w with
    | (Returned r, w1) =>
        if hasStatus error r then
          if truthy (WorkflowOptions.stopOnError wo) then
            (Returned (rs ++ [r], error),
             logged WARNING tag
               (js "Workflow stopped due to error in module " ++ moduleId)
               None w1)
          else sequentialLoop this input wo rest (rs ++ [r]) error w1
        else if hasStatus warning r && negb (bool_decide (st = error))
        then sequentialLoop this input wo rest (rs ++ [r]) warning w1
        else sequentialLoop this input wo rest (rs ++ [r]) st w1
    | (Thrown e, w1) =>
        let w2 :=
          logged ERROR tag
            (js "Error in workflow for module " ++ moduleId) (Some e) w1 in
        if truthy (WorkflowOptions.stopOnError wo)
        then (Returned (rs, error), w2)
        else sequentialLoop this input wo rest rs st w2
    end.
Proof.
  cbn [sequentialLoop]. unfold tryCatch, bind at 1.
  unfold bind at 1.
  destruct (runModule this moduleId input (optionsFor wo moduleId) w)
    as [[r|e] w1].
  - destruct (hasStatus error r).
    + destruct (truthy (WorkflowOptions.stopOnError wo)); reflexivity.
    + destruct (hasStatus warning r && negb (bool_decide (st = error)));
        reflexivity.
  - unfold bind. rewrite error_run.
    destruct (truthy (WorkflowOptions.stopOnError wo)); reflexivity.
Qed.

Lemma hasStatus_true st r :
  hasStatus st r = true <-> ModuleResult.status r = st.
Proof. unfold hasStatus. apply bool_decide_eq_true. Qed.

Lemma hasStatus_false st r :
  hasStatus st r = false <-> ModuleResult.status r <> st.
Proof. unfold hasStatus. apply bool_decide_eq_false. Qed.

Lemma worstOf_snoc rs r :
  worstOf (rs ++ [r]) =
    match ModuleResult.status r with
    | error => error
    | warning =>
        if bool_decide (worstOf rs = error) then error else warning
    | success => worstOf rs
    end.
Proof.
  unfold worstOf. rewrite !existsb_app. cbn [existsb].
  rewrite !orb_false_r. unfold hasStatus at 2 4.
  destruct (ModuleResult.status r); cbn [bool_decide decide_rel];
    rewrite ?orb_true_r, ?orb_false_r;
    destruct (existsb (hasStatus error) rs);
    destruct (existsb (hasStatus warning) rs); reflexivity.
Qed.

(** When every id is registered, the sequential loop ends, and it keeps
    the running status at the worst status of the results. *)
Lemma sequentialLoop_worstOf this input wo ids rs w :
  Forall (registered this) ids ->
  exists rs' w',
    sequentialLoop this input wo ids rs (worstOf rs) w
    = (Returned (rs', worstOf rs'), w').
Proof.
  intros Hreg. revert rs w.
  induction Hreg as [|moduleId ids Hid _ IH]; intros rs w.
  - eexists; eexists. reflexivity.
  - rewrite sequentialLoop_cons.
    destruct (runModule_registered_returns this moduleId input
                (optionsFor wo moduleId) w Hid) as (r & w1 & ->).
    pose proof (worstOf_snoc rs r) as Hw.
    destruct (IH (rs ++ [r]) w1) as (rs' & w' & E). rewrite Hw in E.
    destruct (hasStatus error r) eqn:He.
    + apply hasStatus_true in He. rewrite He in E.
      destruct (truthy (WorkflowOptions.stopOnError wo)); [|eauto].
      exists (rs ++ [r]), (logged WARNING tag
        (js "Workflow stopped due to error in module " ++ moduleId)
        None w1).
      now rewrite Hw, He.
    + apply hasStatus_false in He.
      destruct (hasStatus warning r) eqn:Hwarn.
      * apply hasStatus_true in Hwarn. rewrite Hwarn in E.
        destruct (bool_decide (worstOf rs = error)) eqn:Hrs;
          cbn [andb negb]; [|eauto].
        apply bool_decide_eq_true in Hrs. rewrite Hrs. eauto.
      * apply hasStatus_false in Hwarn. cbn [andb].
        destruct (ModuleResult.status r); try congruence. eauto.
Qed.

Lemma Promise_all_returned {A} (l : list A) :
  Promise_all (map Returned l) = Returned l.
Proof. induction l as [|a l IH]; simpl; [|rewrite IH]; reflexivity. Qed.

Lemma dispatchAll_registered this input wo ids w :
  Forall (registered this) ids ->
  exists rs w',
    dispatchAll this input wo ids w = (Returned (map Returned rs), w').
Proof.
  intros Hreg. revert w. induction Hreg as [|moduleId ids Hid _ IH];
    intros w.
  - exists [], w. reflexivity.
  - cbn [dispatchAll]. unfold bind at 1, dispatch, tryCatch.
    destruct (runModule_registered_returns this moduleId input
                (optionsFor wo moduleId) w Hid) as (r & w1 & ->).
    destruct (IH w1) as (rs & w' & Hrest).
    exists (r :: rs), w'. unfold bind. now rewrite Hrest.
Qed.

Lemma joinAll_returned rs w :
  joinAll (map Returned rs) [] success w = (Returned (rs, worstOf rs), w).
Proof.
  unfold joinAll. rewrite Promise_all_returned. cbn [app].
  unfold worstOf.
  destruct (existsb (hasStatus error) rs); [reflexivity|].
  destruct (existsb (hasStatus warning) rs); reflexivity.
Qed.

(** The join of the parallel branch, for promises settled in whatever
    order: when all of them are fulfilled, the results are their values
    and the status is the worst of them; when one is rejected, there is
    no result and the status is [error]. *)
Lemma joinAll_status settled w :
  exists rs st w',
    joinAll settled [] success w = (Returned (rs, st), w') /\
    match Promise_all settled with
    | Returned values => rs = values /\ st = worstOf values /\ w' = w
    | Thrown _ => rs = [] /\ st = error
    end.
Proof.
  unfold joinAll. destruct (Promise_all settled) as [values|e].
  - cbn [app]. unfold worstOf.
    destruct (existsb (hasStatus error) values);
      [|destruct (existsb (hasStatus warning) values)];
      eexists; eexists; eexists; (split; [reflexivity|]); auto.
  - rewrite (bind_run _ _ _ _ _ (error_run _ _ _ _)).
    eexists; eexists; eexists. split; [reflexivity|]. auto.
Qed.

(** The head of [runWorkflow] and its tail around the two branches. *)
Lemma runWorkflow_run this input wo w :
  runWorkflow this input wo w =
    match
      (if truthy (WorkflowOptions.sequential wo) then
         sequentialLoop this input wo (WorkflowOptions.modules wo) []
           success
       else
         settled <- dispatchAll this input wo
                      (WorkflowOptions.modules wo) ;;
         joinAll settled [] success) (started wo w)
    with
    | (Returned (results, overallStatus), w1) =>
        (Returned
           {| WorkflowResult.workflowId := uuidString (reads w);
              WorkflowResult.timestamp := isoString (S (reads w));
              WorkflowResult.status := overallStatus;
              WorkflowResult.results := results;
              WorkflowResult.summary := generateWorkflowSummary results |},
         logged INFO tag
           (js "Workflow " ++ uuidString (reads w)
            ++ js " completed with status: "
            ++ statusString overallStatus) None w1)
    | (Thrown e, w1) => (Thrown e, w1)
    end.
Proof.
  unfold runWorkflow.
  match goal with
  | |- context [if truthy ?x then ?a else ?b] =>
      set (branch := if truthy x then a else b)
  end.
  unfold bind, uuidv4, nowISO. cbn [reads logs api].
  rewrite info_run.
  change (logged INFO tag _ None _) with (started wo w) at 1.
  destruct (branch (started wo w)) as [[[results overallStatus]|e] w1];
    [|reflexivity].
  now rewrite info_run.
Qed.

End Controller.

(* ===================================================================== *)
(** * The claims of the specification *)
(* ===================================================================== *)

Section WorkflowClaims.
Context `{External}.

Import ContentGuardianController.

(** The loop runs through a prefix whose calls all return results
    without an error, and goes on behind it. *)
Lemma sequentialLoop_ran this input wo pre rest rs0 st0 w rs w1 :
  Ran this input wo pre w rs w1 ->
  exists st1,
    sequentialLoop this input wo (pre ++ rest) rs0 st0 w
    = sequentialLoop this input wo rest (rs0 ++ rs) st1 w1.
Proof.
  intros Hran. revert rs0 st0.
  induction Hran as [w|moduleId ids w r w1 rs w2 Hrun Hne _ IH];
    intros rs0 st0.
  - exists st0. now rewrite app_nil_r.
  - cbn [app]. rewrite sequentialLoop_cons, Hrun.
    apply hasStatus_false in Hne. rewrite Hne.
    replace (rs0 ++ r :: rs) with ((rs0 ++ [r]) ++ rs)
      by now rewrite <- app_assoc.
    destruct (hasStatus warning r && negb (bool_decide (st0 = error)));
      apply IH.
Qed.

(** C1, as amended.  For every workflow whose module ids are all
    registered, in the sequential and in the parallel mode and for every
    setting of stopOnError, [runWorkflow] returns a result whose status
    is the worst status of its results: [error] if one of them is an
    error, else [warning] if one of them is a warning, else
    [success]. *)
Theorem workflow_status_is_worst_of_results this input wo w :
  Forall (registered this) (WorkflowOptions.modules wo) ->
  exists wr w',
    runWorkflow this input wo w = (Returned wr, w') /\
    WorkflowResult.status wr = worstOf (WorkflowResult.results wr).
Proof.
  intros Hreg. rewrite runWorkflow_run.
  destruct (truthy (WorkflowOptions.sequential wo)).
  - destruct (sequentialLoop_worstOf this input wo _ [] (started wo w)
                Hreg) as (rs & w1 & Hloop).
    change (worstOf []) with success in Hloop. rewrite Hloop.
    eexists; eexists. split; reflexivity.
  - destruct (dispatchAll_registered this input wo _ (started wo w) Hreg)
      as (rs & w1 & Hall).
    rewrite (bind_run _ _ _ _ _ Hall), joinAll_returned.
    eexists; eexists. split; reflexivity.
Qed.

(** C2.  In the sequential mode with stopOnError, when the calls for the
    ids [pre] return results without an error and the call for the next
    id [m] returns the first result with status [error], the workflow
    ends there: its results are those of [pre] followed by the error
    result, its status is [error], and the world it leaves is the one
    the call for [m] left, with the two log entries of the controller
    added; the ids [post] behind [m] play no part, none of their modules
    is called. *)
Theorem sequential_stop_on_first_error this input wo pre m post w
    rs w1 r w2 :
  truthy (WorkflowOptions.sequential wo) = true ->
  truthy (WorkflowOptions.stopOnError wo) = true ->
  WorkflowOptions.modules wo = pre ++ m :: post ->
  Ran this input wo pre (started wo w) rs w1 ->
  runModule this m input (optionsFor wo m) w1 = (Returned r, w2) ->
  ModuleResult.status r = error ->
  exists wr,
    runWorkflow this input wo w =
      (Returned wr,
       logged INFO tag
         (js "Workflow " ++ uuidString (reads w)
          ++ js " completed with status: " ++ statusString error) None
         (logged WARNING tag
            (js "Workflow stopped due to error in module " ++ m)
            None w2)) /\
    WorkflowResult.results wr = rs ++ [r] /\
    WorkflowResult.status wr = error.
Proof.
  intros Hseq Hstop Hids Hran Hrun Herr.
  rewrite runWorkflow_run, Hseq, Hids.
  destruct (sequentialLoop_ran this input wo pre (m :: post) [] success
              _ _ _ Hran) as (st1 & ->).
  rewrite sequentialLoop_cons, Hrun, Hstop.
  apply hasStatus_true in Herr. rewrite Herr. cbn [app].
  eexists. split; [reflexivity|]. split; reflexivity.
Qed.

(** C3.  [runModule] throws exactly when the id is not registered, and
    then with a message that names the id.  For a registered module it
    returns: the result of the module's [process] when that returns,
    and, when [process] throws, a result with status [error] whose
    report ends with the message of the exception. *)
Theorem runModule_throws_iff_unregistered this moduleId input options w :
  ((exists e, fst (runModule this moduleId input options w) = Thrown e)
   <-> JsMap.get moduleId (modules this) = None) /\
  (JsMap.get moduleId (modules this) = None ->
   fst (runModule this moduleId input options w)
   = Thrown (JsError (js "Module " ++ moduleId ++ js " not found"))) /\
  (forall module,
     JsMap.get moduleId (modules this) = Some module ->
     exists r,
       fst (runModule this moduleId input options w) = Returned r /\
       match fst (ContentGuardianModule.process module input options
                    (logged INFO tag (js "Running module " ++ moduleId)
                       None w)) with
       | Returned r' => r = r'
       | Thrown e =>
           ModuleResult.status r = error /\
           ModuleResult.moduleId r = moduleId /\
           ModuleResult.report r
           = js "Error running module: " ++ errorText e
       end).
Proof.
  assert (Hsome : forall module,
     JsMap.get moduleId (modules this) = Some module ->
     exists r,
       fst (runModule this moduleId input options w) = Returned r /\
       match fst (ContentGuardianModule.process module input options
                    (logged INFO tag (js "Running module " ++ moduleId)
                       None w)) with
       | Returned r' => r = r'
       | Thrown e =>
           ModuleResult.status r = error /\
           ModuleResult.moduleId r = moduleId /\
           ModuleResult.report r
           = js "Error running module: " ++ errorText e
       end).
  { intros module Hget. rewrite (runModule_registered _ _ _ _ _ _ Hget).
    destruct (ContentGuardianModule.process module input options _)
      as [[r|e] w1]; eexists; (split; [reflexivity|]); cbn; auto. }
  split; [split|split].
  - intros [e He].
    destruct (JsMap.get moduleId (modules this)) as [module|] eqn:Hget;
      [|reflexivity].
    destruct (Hsome module eq_refl) as (r & Hr & _). congruence.
  - intros Hget. rewrite (runModule_unregistered _ _ _ _ _ Hget). eauto.
  - intros Hget. now rewrite (runModule_unregistered _ _ _ _ _ Hget).
  - exact Hsome.
Qed.

(** An iteration of the sequential loop in which [runModule] throws adds
    no result.  With stopOnError it sets the running status to [error]
    and ends the loop; without, it leaves the running status as it is
    and goes on with the next id. *)
Lemma sequentialLoop_thrown this input wo moduleId rest rs st w e w1 :
  runModule this moduleId input (optionsFor wo moduleId) w
  = (Thrown e, w1) ->
  sequentialLoop this input wo (moduleId :: rest) rs st w =
    if truthy (WorkflowOptions.stopOnError wo)
    then (Returned (rs, error),
          logged ERROR tag
            (js "Error in workflow for module " ++ moduleId) (Some e) w1)
    else sequentialLoop this input wo rest rs st
           (logged ERROR tag
              (js "Error in workflow for module " ++ moduleId) (Some e)
              w1).
Proof. intros Hrun. now rewrite sequentialLoop_cons, Hrun. Qed.

Lemma dispatchAll_options this input wo wo' ids w :
  WorkflowOptions.options wo = WorkflowOptions.options wo' ->
  dispatchAll this input wo ids w = dispatchAll this input wo' ids w.
Proof.
  intros Hopts. revert w. induction ids as [|moduleId ids IH]; intros w;
    [reflexivity|].
  cbn [dispatchAll]. unfold bind at 1 3, dispatch, optionsFor.
  rewrite Hopts.
  destruct (tryCatch _ _ w) as [settled w1].
  unfold bind. now rewrite IH.
Qed.

(** A workflow without the sequential flag runs as one whose flag is
    false: in the parallel branch. *)
Lemma runWorkflow_flag_missing this input ids stop opts w :
  runWorkflow this input
    {| WorkflowOptions.modules := ids;
       WorkflowOptions.sequential := None;
       WorkflowOptions.stopOnError := stop;
       WorkflowOptions.options := opts |} w
  = runWorkflow this input
      {| WorkflowOptions.modules := ids;
         WorkflowOptions.sequential := Some false;
         WorkflowOptions.stopOnError := stop;
         WorkflowOptions.options := opts |} w.
Proof.
  rewrite !runWorkflow_run.
  cbn [truthy WorkflowOptions.sequential WorkflowOptions.modules].
  unfold bind.
  rewrite (dispatchAll_options this input _
             {| WorkflowOptions.modules := ids;
                WorkflowOptions.sequential := Some false;
                WorkflowOptions.stopOnError := stop;
                WorkflowOptions.options := opts |}) by reflexivity.
  reflexivity.
Qed.

End WorkflowClaims.

Section ModuleClaims.
Context `{External}.

(** C4.  For every module class (the ten classes of the repository
    among them) and every content record whose content is missing, empty
    or made of white space only, [process] returns a result with status
    [error] whose report starts with "Invalid input", and the completion
    provider is not contacted: the state of the endpoint is untouched
    and the log records no further call of [generateCompletion]. *)
Theorem blank_content_is_rejected_without_provider (C : ModuleClass.t)
    input options w :
  blankContent input = true ->
  exists r w',
    BaseModule.process C input options w = (Returned r, w') /\
    ModuleResult.status r = error /\
    startsWith (ModuleResult.report r) (js "Invalid input") = true /\
    api w' = api w /\
    generateCompletionCalls (logs w') = generateCompletionCalls (logs w).
Proof.
  intros Hb. rewrite (process_blank C input options w Hb).
  eexists; eexists. split; [reflexivity|]. repeat split.
  unfold generateCompletionCalls. cbn [logs logged tick].
  rewrite <- app_assoc, List.filter_app. cbn [List.filter app].
  cbn [LogEntry.message LogEntry.moduleId].
  replace (startsWith (js "Invalid input: content is required")
             (js "Generating completion")) with false by reflexivity.
  replace (startsWith
             (js "Module processing completed with status: "
              ++ statusString error) (js "Generating completion"))
    with false by reflexivity.
  rewrite !andb_false_r. now rewrite app_nil_r.
Qed.

(** C9, as amended.  When the content is valid and the completion
    endpoint answers, the result of [process] carries the completion
    text as it came as its report, and its metadata record as
    [promptUsed] the custom prompt of the options when there is one, and
    the default prompt of the module otherwise.  That is not the prompt
    that was sent: the prompt sent is this text behind a line break and
    followed by the rendered content record. *)
Theorem report_is_completion_promptUsed_is_template (C : ModuleClass.t)
    input options w prompt w2 response a :
  blankContent input = false ->
  BaseModule.preparePrompt C input options
    (logged INFO (ModuleClass.moduleId C) (ModuleClass.startMessage C)
       None w)
  = (Returned prompt, w2) ->
  chatCompletionsCreate
    (AIService.chatRequest prompt
       (AIService.convertModuleOptionsToAIOptions options)) (api w)
  = (Returned response, a) ->
  exists r w',
    BaseModule.process C input options w = (Returned r, w') /\
    ModuleResult.report r = orElse response [] /\
    ModuleMetadata.promptUsed (ModuleResult.metadata r)
    = orElse (customPromptOf options) (ModuleClass.getDefaultPrompt C) /\
    (exists block,
       block <> [] /\
       prompt
       = nl ++ ModuleMetadata.promptUsed (ModuleResult.metadata r)
         ++ block) /\
    ModuleMetadata.promptUsed (ModuleResult.metadata r) <> prompt /\
    api w' = a.
Proof.
  intros Hb Hp Hc.
  destruct (preparePrompt_run C input options
              (logged INFO (ModuleClass.moduleId C)
                 (ModuleClass.startMessage C) None w))
    as (block & n & Hblock & Hp').
  rewrite Hp in Hp'. injection Hp' as Hprompt Hw2.
  assert (Hapi : api w2 = api w) by now rewrite Hw2.
  rewrite <- Hapi in Hc.
  destruct (process_answered C input options w prompt w2 response a
              Hb Hp Hc) as (k & w' & Hrun & Ha).
  eexists; eexists. split; [exact Hrun|].
  cbn [ModuleResult.report ModuleResult.metadata metadataAt
       ModuleMetadata.promptUsed].
  repeat split; [| |exact Ha].
  - exists block. auto.
  - intros Heq. rewrite Hprompt in Heq. apply (f_equal length) in Heq.
    cbn [length] in Heq. rewrite length_app in Heq. lia.
Qed.

(** C10.  [createResult] leaves the field [recommendedFixes] out when
    no list or an empty list is supplied, and sets it to the supplied
    list otherwise.  So no result of [process], of whatever module
    class and on whatever path, carries an empty list; on the path on
    which the endpoint answers, the field is absent exactly when no fix
    line was extracted from the completion, and holds the extracted
    lines otherwise. *)
Theorem recommendedFixes_present_iff_nonempty (C : ModuleClass.t) :
  (forall st report fixes md w,
     exists r w',
       BaseModule.createResult C st report fixes md w = (Returned r, w') /\
       (ModuleResult.recommendedFixes r = None
        <-> fixes = None \/ fixes = Some []) /\
       (forall l,
          ModuleResult.recommendedFixes r = Some l
          <-> fixes = Some l /\ l <> [])) /\
  (forall input options w,
     exists r w',
       BaseModule.process C input options w = (Returned r, w') /\
       ModuleResult.recommendedFixes r <> Some []) /\
  (forall input options w prompt w2 response a,
     blankContent input = false ->
     BaseModule.preparePrompt C input options
       (logged INFO (ModuleClass.moduleId C) (ModuleClass.startMessage C)
          None w)
     = (Returned prompt, w2) ->
     chatCompletionsCreate
       (AIService.chatRequest prompt
          (AIService.convertModuleOptionsToAIOptions options)) (api w2)
     = (Returned response, a) ->
     exists r w',
       BaseModule.process C input options w = (Returned r, w') /\
       (ModuleResult.recommendedFixes r = None
        <-> Parsed.recommendedFixes
              (parseResults C (orElse response [])) = []) /\
       (forall l,
          ModuleResult.recommendedFixes r = Some l ->
          l = Parsed.recommendedFixes
                (parseResults C (orElse response [])))).
Proof.
  split; [|split].
  - intros st report fixes md w.
    assert (Hrun : exists w' mdv,
              BaseModule.createResult C st report fixes md w =
                (Returned
                   {| ModuleResult.moduleId := ModuleClass.moduleId C;
                      ModuleResult.status := st;
                      ModuleResult.report := report;
                      ModuleResult.recommendedFixes :=
                        match fixes with
                        | Some (fix1 :: rest) => Some (fix1 :: rest)
                        | _ => None
                        end;
                      ModuleResult.metadata := mdv |}, w')).
    { destruct md as [md|];
        [rewrite createResult_run | rewrite createResult_default_run];
        eauto. }
    destruct Hrun as (w' & mdv & ->). eexists; eexists.
    split; [reflexivity|]. cbn [ModuleResult.recommendedFixes].
    destruct fixes as [[|fix1 rest]|]; (split; [|intros l]);
      intuition (subst; try discriminate; try congruence).
  - intros input options w. apply process_returns.
  - intros input options w prompt w2 response a Hb Hp Hc.
    destruct (process_answered C input options w prompt w2 response a
                Hb Hp Hc) as (k & w' & Hrun & _).
    eexists; eexists. split; [exact Hrun|].
    cbn [ModuleResult.recommendedFixes].
    destruct (Parsed.recommendedFixes _); split; try split;
      intros; try discriminate; try congruence.
Qed.

End ModuleClaims.

Section ParserClaims.

Lemma drop_not_nil {A} i (l : list A) : i < length l -> drop i l <> [].
Proof.
  intros Hi Hnil. apply (f_equal length) in Hnil.
  rewrite length_drop in Hnil. simpl in Hnil. lia.
Qed.

(** C6, as amended.  For every completion text, take the first place
    where RECOMMENDATIONS: stands (in whatever case of letters) and,
    behind it, the first place where OVERALL_ASSESSMENT: stands (in
    whatever case): the recommended fixes that FactCheckLayer extracts
    are the trimmed, non-empty lines of the text between the two, in
    their order, without the lines that start with RECOMMENDATIONS:. *)
Theorem recommendedFixes_between_first_markers pre m1 mid m2 post :
  equalIgnoringCase m1 (js "RECOMMENDATIONS:") = true ->
  equalIgnoringCase m2 (js "OVERALL_ASSESSMENT:") = true ->
  (forall i, i < length pre ->
     startsWithIgnoringCase (drop i (pre ++ m1 ++ mid ++ m2 ++ post))
       (js "RECOMMENDATIONS:") = false) ->
  (forall i, i < length mid ->
     startsWithIgnoringCase (drop i (mid ++ m2 ++ post))
       (js "OVERALL_ASSESSMENT:") = false) ->
  Parsed.recommendedFixes
    (parseResults Modules.FactCheckLayer
       (pre ++ m1 ++ mid ++ m2 ++ post))
  = List.filter
      (fun line => negb (startsWith line (js "RECOMMENDATIONS:")))
      (trimmedLines mid).
Proof.
  intros Hm1 Hm2 Hpre Hmid.
  rewrite (parseResults_recommendedFixes Modules.FactCheckLayer
             (js "RECOMMENDATIONS:") [js "OVERALL_ASSESSMENT:"])
    by reflexivity.
  destruct (drop_equalIgnoringCase m1 _ (mid ++ m2 ++ post) Hm1)
    as [Hstart Hdrop].
  rewrite (behindFirst_decompose _ pre _ Hpre Hstart), Hdrop.
  rewrite beforeStop_decompose; [reflexivity | |].
  - intros i Hi. unfold atStop. cbn [existsb].
    rewrite (Hmid i Hi). cbn [orb].
    destruct (drop i (mid ++ m2 ++ post)) eqn:E; [|reflexivity].
    exfalso. revert E. apply drop_not_nil. rewrite length_app. lia.
  - unfold atStop. cbn [existsb].
    destruct (drop_equalIgnoringCase m2 _ post Hm2) as [-> _].
    reflexivity.
Qed.

(** A check by enumeration that a word occurs at none of the first [n]
    places of a text. *)
Lemma no_occurrence_before n s p :
  forallb (fun i => negb (startsWithIgnoringCase (drop i s) p)) (seq 0 n)
  = true ->
  forall i, i < n -> startsWithIgnoringCase (drop i s) p = false.
Proof.
  intros Hall i Hi. rewrite forallb_forall in Hall.
  apply negb_true_iff, Hall, in_seq. lia.
Qed.

End ParserClaims.

(** ** The statements on concrete runs *)

Module Runs.

Ltac evaluate := vm_compute; reflexivity.

Import Fixture.

(** C1, the amended statement on a parallel workflow of two registered
    modules. *)
Lemma workflow_status_is_worst_of_results_witness :
  let this := Mock.controllerOf
                [Mock.resolving A success; Mock.resolving B warning] in
  let wo := Mock.workflow [A; B] (Some false) None in
  Forall (registered this) (WorkflowOptions.modules wo) /\
  exists wr w',
    ContentGuardianController.runWorkflow this article wo w0
    = (Returned wr, w') /\
    WorkflowResult.status wr = worstOf (WorkflowResult.results wr).
Proof.
  intros this wo.
  assert (Hreg : Forall (registered this) (WorkflowOptions.modules wo))
    by (repeat constructor; intros Hnone; vm_compute in Hnone;
        discriminate Hnone).
  split; [exact Hreg|].
  exact (workflow_status_is_worst_of_results this article wo w0 Hreg).
Defined.

(** C1 as stated fails: a sequential workflow with stopOnError over an
    id that is not registered returns the status [error] with no result
    at all, where the worst status of the results is [success]. *)
Lemma workflow_status_not_worst_of_results :
  let this := ContentGuardianController.create in
  let wo := Mock.workflow [js "DoesNotExist"] (Some true) (Some true) in
  exists wr w',
    ContentGuardianController.runWorkflow this article wo w0
    = (Returned wr, w') /\
    WorkflowResult.results wr = [] /\
    WorkflowResult.status wr = error /\
    worstOf (WorkflowResult.results wr) = success /\
    WorkflowResult.status wr <> worstOf (WorkflowResult.results wr).
Proof.
  intros this wo. eexists; eexists.
  split; [evaluate|].
  repeat split. discriminate.
Qed.

(** C2 on a workflow of three modules whose second one returns an
    error: the third one is not called. *)
Lemma sequential_stop_on_first_error_witness :
  let this := Mock.controllerOf
                [Mock.resolving A success; Mock.resolving B error;
                 Mock.resolving D success] in
  let wo := Mock.workflow [A; B; D] (Some true) (Some true) in
  exists wr w',
    ContentGuardianController.runWorkflow this article wo w0
    = (Returned wr, w') /\
    map ModuleResult.moduleId (WorkflowResult.results wr) = [A; B] /\
    WorkflowResult.status wr = error /\
    Mock.called (logs w') = [A; B].
Proof.
  intros this wo.
  edestruct (sequential_stop_on_first_error this article wo [A] B [D] w0)
    as (wr & Hrun & Hresults & Hstatus).
  - reflexivity.
  - reflexivity.
  - reflexivity.
  - eapply Ran_cons; [evaluate | | apply Ran_nil].
    discriminate.
  - evaluate.
  - reflexivity.
  - eexists; eexists. split; [exact Hrun|].
    rewrite Hresults. split; [evaluate|].
    split; [exact Hstatus|]. evaluate.
Defined.

(** C3 on a module whose [process] rejects, and on an id that is not
    registered. *)
Lemma runModule_throws_iff_unregistered_witness :
  let this := Mock.controllerOf [Mock.rejecting A (js "boom")] in
  (exists r,
     fst (ContentGuardianController.runModule this A article None w0)
     = Returned r /\
     ModuleResult.status r = error /\
     ModuleResult.report r = js "Error running module: boom") /\
  fst (ContentGuardianController.runModule this (js "DoesNotExist")
         article None w0)
  = Thrown (JsError (js "Module DoesNotExist not found")).
Proof.
  intros this.
  destruct (runModule_throws_iff_unregistered this A article None w0)
    as (_ & _ & Hsome).
  destruct (runModule_throws_iff_unregistered this (js "DoesNotExist")
              article None w0) as (_ & Hnone & _).
  split.
  - destruct (Hsome (Mock.rejecting A (js "boom")) eq_refl)
      as (r & Hr & Hst & _ & Hrep).
    exists r. auto.
  - apply Hnone. reflexivity.
Defined.

(** C4 on FactCheckLayer and a content of blanks, a line break, a tab
    and a no-break space. *)
Lemma blank_content_is_rejected_without_provider_witness :
  blankContent blank = true /\
  exists r w',
    BaseModule.process Modules.FactCheckLayer blank None w0
    = (Returned r, w') /\
    ModuleResult.status r = error /\
    startsWith (ModuleResult.report r) (js "Invalid input") = true /\
    api w' = api w0 /\
    generateCompletionCalls (logs w') = generateCompletionCalls (logs w0).
Proof.
  split; [reflexivity|].
  apply blank_content_is_rejected_without_provider. reflexivity.
Defined.

(** C5 fails on the code.  On the completion of the mocked provider,
    whose assessment is PASS_WITH_WARNINGS, FactCheckLayer returns the
    status [success]: the pattern tries PASS first, which fits, so the
    group holds PASS and the label PASS_WITH_WARNINGS of the switch is
    never reached. *)
Theorem FactCheckLayer_reads_PASS_WITH_WARNINGS_as_success :
  Parsed.status
    (parseResults Modules.FactCheckLayer
       (js "OVERALL_ASSESSMENT: PASS_WITH_WARNINGS")) = success /\
  String_match (js "OVERALL_ASSESSMENT: PASS_WITH_WARNINGS")
    (ModuleClass.statusRegExp Modules.FactCheckLayer)
  = Some [Some (js "OVERALL_ASSESSMENT: PASS"); Some (js "PASS")] /\
  exists r w',
    BaseModule.process Modules.FactCheckLayer article None w0
    = (Returned r, w') /\
    ModuleResult.report r = completion /\
    ModuleResult.status r = success.
Proof.
  split; [evaluate|].
  split; [evaluate|].
  eexists; eexists. split; [evaluate|].
  split; evaluate.
Qed.

(** The slip is that of FactCheckLayer alone: in no other class is a word
    of the status pattern the beginning of a later one, and each of the
    other nine reads its second word as [warning]. *)
Lemma second_word_by_module :
  map (fun C =>
         startsWith (ModuleClass.caseWarning C) (ModuleClass.caseSuccess C)
         || startsWith (ModuleClass.caseError C) (ModuleClass.caseSuccess C)
         || startsWith (ModuleClass.caseError C) (ModuleClass.caseWarning C))
    Modules.all
  = [true; false; false; false; false; false; false; false; false; false]
  /\
  map (fun run => Parsed.status (parseResults (fst run) (snd run)))
    [(Modules.FactCheckLayer, js "OVERALL_ASSESSMENT: PASS_WITH_WARNINGS");
     (Modules.EthicalGuardian, js "OVERALL_RATING: NEEDS_REVISION");
     (Modules.ToneAndAudienceModulator,
      js "OVERALL_ASSESSMENT: MINOR_ADJUSTMENTS_NEEDED");
     (Modules.PlotLogicBuilder, js "OVERALL_COHERENCE: ADEQUATE");
     (Modules.SimulatedFeedbackReader, js "OVERALL_CLARITY: SOMEWHAT_CLEAR");
     (Modules.WYSIWYGLayoutPreview,
      js "OVERALL_ASSESSMENT: MINOR_ADJUSTMENTS_NEEDED");
     (Modules.ChapterImageGallery, js "OVERALL_ASSESSMENT: PARTIAL_COVERAGE");
     (Modules.SmartExportEngine,
      js "OVERALL_ASSESSMENT: MINOR_ADJUSTMENTS_NEEDED");
     (Modules.PromptTraceability,
      js "OVERALL_ASSESSMENT: PARTIALLY_TRACEABLE");
     (Modules.HallucinationFilter,
      js "OVERALL_ASSESSMENT: MINOR_HALLUCINATIONS")]
  = [success; warning; warning; warning; warning; warning; warning;
     warning; warning; warning].
Proof. split; evaluate. Qed.

(** The other two words and a missing word are read as C5 says, in
    whatever case they are written. *)
Lemma FactCheckLayer_other_words :
  map (fun text => Parsed.status (parseResults Modules.FactCheckLayer text))
    [js "OVERALL_ASSESSMENT: PASS"; js "overall_assessment:pass";
     js "OVERALL_ASSESSMENT: FAIL"; js "Overall_Assessment:  Fail";
     js "OVERALL_ASSESSMENT: MAYBE"; js "no assessment at all"]
  = [success; success; error; error; warning; warning].
Proof. evaluate. Qed.

(** C6 as stated fails.  In the text below the marker RECOMMENDATIONS:
    stands once and the marker OVERALL_ASSESSMENT: once, behind it; the
    trimmed, non-empty lines between them are the one line "- a".  The
    code starts at the earlier "Recommendations:", whose case differs,
    and drops the line that starts with RECOMMENDATIONS:. *)
Lemma recommendedFixes_not_between_markers :
  let pre := js "Recommendations: none needed" ++ nl in
  let mid := nl ++ js "- a" ++ nl in
  let text :=
    pre ++ js "RECOMMENDATIONS:" ++ mid ++ js "OVERALL_ASSESSMENT:"
    ++ js " PASS" in
  trimmedLines mid = [js "- a"] /\
  Parsed.recommendedFixes (parseResults Modules.FactCheckLayer text)
  = [js "none needed"; js "- a"] /\
  Parsed.recommendedFixes (parseResults Modules.FactCheckLayer text)
  <> trimmedLines mid.
Proof.
  intros pre mid text.
  split; [evaluate|].
  split; [evaluate|].
  vm_compute. discriminate.
Qed.

(** C6, the amended statement on a text whose first header is in mixed
    case and whose section holds a line that starts with the header. *)
Lemma recommendedFixes_between_first_markers_witness :
  let pre := js "SUMMARY: fine" ++ nl in
  let m1 := js "Recommendations:" in
  let mid :=
    nl ++ js "1. first" ++ nl ++ js "   2. second  " ++ nl ++ nl
    ++ js "RECOMMENDATIONS: third" ++ nl in
  let m2 := js "overall_assessment:" in
  let post := js " FAIL" in
  Parsed.recommendedFixes
    (parseResults Modules.FactCheckLayer
       (pre ++ m1 ++ mid ++ m2 ++ post))
  = [js "1. first"; js "2. second"].
Proof.
  intros pre m1 mid m2 post.
  rewrite (recommendedFixes_between_first_markers pre m1 mid m2 post).
  - evaluate.
  - reflexivity.
  - reflexivity.
  - apply no_occurrence_before. evaluate.
  - apply no_occurrence_before. evaluate.
Defined.

(** C7 fails on the code.  A workflow that leaves the sequential flag
    out runs in the parallel branch: with stopOnError and a first module
    that returns an error, both modules are called and two results come
    back, where the sequential mode stops behind the first. *)
Theorem missing_sequential_flag_runs_parallel :
  let this := Mock.controllerOf
                [Mock.resolving A error; Mock.resolving B success] in
  Mock.observe
    (ContentGuardianController.runWorkflow this article
       (Mock.workflow [A; B] None (Some true)) w0)
  = Some (error, 2, [A; B]) /\
  Mock.observe
    (ContentGuardianController.runWorkflow this article
       (Mock.workflow [A; B] (Some true) (Some true)) w0)
  = Some (error, 1, [A]) /\
  ContentGuardianController.runWorkflow this article
    (Mock.workflow [A; B] None (Some true)) w0
  = ContentGuardianController.runWorkflow this article
      (Mock.workflow [A; B] (Some false) (Some true)) w0.
Proof.
  intros this. split; [evaluate|].
  split; [evaluate|].
  apply runWorkflow_flag_missing.
Qed.

(** C8 fails on the code.  In a sequential workflow without stopOnError,
    the iteration for an id that is not registered, in which [runModule]
    throws, leaves the running status as it is: the workflow below ends
    with the status [success]. *)
Theorem thrown_iteration_keeps_status_without_stopOnError :
  let this := Mock.controllerOf [Mock.resolving A success] in
  Mock.observe
    (ContentGuardianController.runWorkflow this article
       (Mock.workflow [js "DoesNotExist"; A] (Some true) (Some false)) w0)
  = Some (success, 1, [A]) /\
  Mock.observe
    (ContentGuardianController.runWorkflow this article
       (Mock.workflow [js "DoesNotExist"; A] (Some true) (Some true)) w0)
  = Some (error, 0, []) /\
  Mock.observe
    (ContentGuardianController.runWorkflow this article
       (Mock.workflow [js "DoesNotExist"; A] (Some false) (Some false))
       w0)
  = Some (error, 0, [A]).
Proof.
  intros this. repeat split; evaluate.
Qed.

(** C9 as stated fails.  FactCheckLayer records its default prompt as
    [promptUsed]; the prompt in the request that reached the provider is
    longer, it holds the content record as well. *)
Lemma promptUsed_is_not_the_prompt_sent :
  exists r w' request,
    BaseModule.process Modules.FactCheckLayer article None w0
    = (Returned r, w') /\
    api w' = [request] /\
    ModuleMetadata.promptUsed (ModuleResult.metadata r)
    = ModuleClass.getDefaultPrompt Modules.FactCheckLayer /\
    length (ModuleMetadata.promptUsed (ModuleResult.metadata r)) = 763 /\
    length (ChatRequest.content request) = 925 /\
    ModuleMetadata.promptUsed (ModuleResult.metadata r)
    <> ChatRequest.content request.
Proof.
  eexists; eexists; eexists.
  split; [evaluate|].
  split; [reflexivity|].
  split; [evaluate|].
  split; [evaluate|].
  split; [evaluate|].
  intros Heq. apply (f_equal length) in Heq. vm_compute in Heq.
  discriminate Heq.
Qed.

(** C9, the amended statement on FactCheckLayer and the mocked
    provider. *)
Lemma report_is_completion_promptUsed_is_template_witness :
  blankContent article = false /\
  exists r w' request,
    BaseModule.process Modules.FactCheckLayer article None w0
    = (Returned r, w') /\
    ModuleResult.report r = completion /\
    ModuleMetadata.promptUsed (ModuleResult.metadata r)
    = ModuleClass.getDefaultPrompt Modules.FactCheckLayer /\
    api w' = [request] /\
    ModuleMetadata.promptUsed (ModuleResult.metadata r)
    <> ChatRequest.content request.
Proof.
  split; [reflexivity|].
  edestruct (report_is_completion_promptUsed_is_template
               Modules.FactCheckLayer article None w0)
    as (r & w' & Hrun & Hreport & Hused & _ & Hne & Hapi).
  - reflexivity.
  - evaluate.
  - reflexivity.
  - exists r, w'. eexists.
    split; [exact Hrun|]. split; [exact Hreport|].
    split; [exact Hused|]. split; [exact Hapi|]. exact Hne.
Defined.

(** C10 on FactCheckLayer: three fixes when the completion lists three,
    no field when the completion has no section of recommendations. *)
Lemma recommendedFixes_present_iff_nonempty_witness :
  (exists r w',
     BaseModule.process Modules.FactCheckLayer article None w0
     = (Returned r, w') /\
     option_map (@length jsstring) (ModuleResult.recommendedFixes r)
     = Some 3) /\
  (exists r w',
     BaseModule.process (H := other) Modules.FactCheckLayer article
       None w0'
     = (Returned r, w') /\
     ModuleResult.recommendedFixes r = None).
Proof.
  split.
  - destruct (recommendedFixes_present_iff_nonempty
                Modules.FactCheckLayer) as (_ & _ & Hanswered).
    edestruct (Hanswered article None w0)
      as (r & w' & Hrun & Hnone & Hsome).
    + reflexivity.
    + evaluate.
    + reflexivity.
    + exists r, w'. split; [exact Hrun|].
      destruct (ModuleResult.recommendedFixes r) as [l|] eqn:E.
      * rewrite (Hsome l eq_refl). evaluate.
      * exfalso. destruct Hnone as [Hn _]. specialize (Hn eq_refl).
        vm_compute in Hn. discriminate Hn.
  - destruct (recommendedFixes_present_iff_nonempty (H := other)
                Modules.FactCheckLayer) as (_ & _ & Hanswered).
    edestruct (Hanswered article None w0')
      as (r & w' & Hrun & Hnone & _).
    + reflexivity.
    + evaluate.
    + reflexivity.
    + exists r, w'. split; [exact Hrun|].
      apply Hnone. evaluate.
Defined.

End Runs.

(* ===================================================================== *)
(** * Further properties of the code *)
(* ===================================================================== *)

(** ** The registry of the controller *)

Section JsMapFacts.
Context {V : Type}.
Implicit Types (k : jsstring) (v : V) (m : JsMap.t V).

Lemma JsMap_get_set_same k v m : JsMap.get k (JsMap.set k v m) = Some v.
Proof.
  induction m as [|[k' v'] m IH]; simpl.
  - now rewrite bool_decide_eq_true_2.
  - destruct (decide (k' = k)) as [->|Hne].
    + rewrite bool_decide_eq_true_2 by reflexivity. simpl.
      now rewrite bool_decide_eq_true_2.
    + rewrite (bool_decide_eq_false_2 _ Hne). simpl.
      now rewrite (bool_decide_eq_false_2 _ Hne).
Qed.

Lemma JsMap_get_set_other k k0 v m :
  k0 <> k -> JsMap.get k0 (JsMap.set k v m) = JsMap.get k0 m.
Proof.
  intros Hne. induction m as [|[k' v'] m IH]; simpl.
  - rewrite bool_decide_eq_false_2; [reflexivity | congruence].
  - destruct (decide (k' = k)) as [->|Hk].
    + rewrite bool_decide_eq_true_2 by reflexivity. simpl.
      rewrite !bool_decide_eq_false_2; [reflexivity | congruence..].
    + rewrite (bool_decide_eq_false_2 _ Hk). simpl. now rewrite IH.
Qed.

Lemma JsMap_set_fresh k v m :
  JsMap.get k m = None -> JsMap.set k v m = m ++ [(k, v)].
Proof.
  induction m as [|[k' v'] m IH]; simpl; [reflexivity|].
  destruct (bool_decide (k' = k)); [discriminate|].
  intros Hm. now rewrite IH.
Qed.

Lemma JsMap_set_present k v m old :
  JsMap.get k m = Some old ->
  exists before behind,
    m = before ++ (k, old) :: behind /\
    JsMap.get k before = None /\
    JsMap.set k v m = before ++ (k, v) :: behind.
Proof.
  induction m as [|[k' v'] m IH]; simpl; [discriminate|].
  destruct (bool_decide (k' = k)) eqn:Hk.
  - apply bool_decide_eq_true in Hk as ->. intros [= ->].
    exists [], m. auto.
  - intros Hm. destruct (IH Hm) as (before & behind & -> & Hb & ->).
    exists ((k', v') :: before), behind. simpl. rewrite Hk. auto.
Qed.

Lemma JsMap_get_None k m :
  JsMap.get k m = None <-> k ∉ map fst m.
Proof.
  induction m as [|[k' v'] m IH]; simpl.
  - split; [intros _; apply not_elem_of_nil | reflexivity].
  - rewrite not_elem_of_cons. destruct (decide (k' = k)) as [->|Hk].
    + rewrite bool_decide_eq_true_2 by reflexivity.
      split; [discriminate | intros [Hne _]; congruence].
    + rewrite (bool_decide_eq_false_2 _ Hk), IH.
      split; [intros Hm; split; [congruence | exact Hm] | tauto].
Qed.

Lemma JsMap_get_entry k v m :
  NoDup (map fst m) -> (k, v) ∈ m -> JsMap.get k m = Some v.
Proof.
  induction m as [|[k' v'] m IH]; simpl.
  - intros _ Hin. now apply elem_of_nil in Hin.
  - intros [Hk' Hm]%NoDup_cons [Hhd|Htl]%elem_of_cons.
    + injection Hhd as -> ->.
      now rewrite bool_decide_eq_true_2.
    + rewrite bool_decide_eq_false_2; [now apply IH|].
      intros ->. apply Hk'.
      change k with (fst (k, v)). now apply list_elem_of_fmap_2.
Qed.

Lemma JsMap_has_get k m :
  JsMap.has k m = match JsMap.get k m with Some _ => true | None => false end.
Proof. reflexivity. Qed.

End JsMapFacts.

(** A decidable statement about ids is settled by evaluating its
    decision procedure. *)
Ltac by_evaluation :=
  match goal with
  | |- ?P => apply (@bool_decide_unpack P _); vm_compute; exact I
  end.

Section Registry.
Context `{External}.

Import ContentGuardianController.

(** [registerModule] sets the entry of the module's id and logs that; it
    logs a warning before when the id was taken. *)
Lemma registerModule_run this module w :
  let id := ContentGuardianModule.moduleId module in
  registerModule this module w =
    (Returned {| modules := JsMap.set id module (modules this) |},
     logged INFO tag (js "Module " ++ id ++ js " registered successfully")
       None
       (if JsMap.has id (modules this)
        then logged WARNING tag
               (js "Module with ID " ++ id
                ++ js " already exists. Overwriting.") None w
        else w)).
Proof.
  intros id. unfold registerModule. fold id.
  destruct (JsMap.has id (modules this)); reflexivity.
Qed.

(** X1.  A module that has been registered is found under its id, and the
    registration leaves what is found under every other id as it was.
    [registerModule] does not throw. *)
Theorem registered_module_is_found this module w :
  exists this' w',
    registerModule this module w = (Returned this', w') /\
    getModule this' (ContentGuardianModule.moduleId module) = Some module /\
    forall moduleId,
      moduleId <> ContentGuardianModule.moduleId module ->
      getModule this' moduleId = getModule this moduleId.
Proof.
  rewrite registerModule_run. eexists; eexists.
  split; [reflexivity|]. unfold getModule. cbn [modules]. split.
  - apply JsMap_get_set_same.
  - intros moduleId Hne. now apply JsMap_get_set_other.
Qed.

(** X2.  The first registration under an id appends the module to the list
    of [getAllModules] and logs one entry, at level INFO.  A further
    registration under the same id puts the module at the place of the one
    it replaces, the list keeps its length and its order, and a WARNING is
    logged before the INFO entry. *)
Theorem registration_appends_or_replaces_in_place this module w :
  let id := ContentGuardianModule.moduleId module in
  exists this' w',
    registerModule this module w = (Returned this', w') /\
    match getModule this id with
    | None =>
        getAllModules this' = getAllModules this ++ [module] /\
        map LogEntry.level (drop (length (logs w)) (logs w')) = [INFO]
    | Some old =>
        (exists before behind,
           modules this = before ++ (id, old) :: behind /\
           JsMap.get id before = None /\
           modules this' = before ++ (id, module) :: behind /\
           getAllModules this'
           = map snd before ++ module :: map snd behind) /\
        length (getAllModules this') = length (getAllModules this) /\
        map LogEntry.level (drop (length (logs w)) (logs w'))
        = [WARNING; INFO]
    end.
Proof.
  intros id. rewrite registerModule_run. fold id.
  eexists; eexists. split; [reflexivity|].
  unfold getModule, getAllModules, JsMap.values. cbn [modules].
  rewrite JsMap_has_get.
  destruct (JsMap.get id (modules this)) as [old|] eqn:Hget.
  - destruct (JsMap_set_present id module _ old Hget)
      as (before & behind & Hm & Hb & Hset).
    split; [|split].
    + exists before, behind. rewrite Hset, map_app. auto.
    + rewrite Hset, Hm, !length_map, !length_app. reflexivity.
    + cbn [logs logged]. rewrite <- app_assoc, drop_app_length.
      reflexivity.
  - rewrite (JsMap_set_fresh id module _ Hget), map_app. split.
    + reflexivity.
    + cbn [logs logged]. now rewrite drop_app_length.
Qed.

Lemma registerModule_fresh this module w :
  ContentGuardianModule.moduleId module ∉ map fst (modules this) ->
  registerModule this module w =
    (Returned
       {| modules :=
            modules this
            ++ [(ContentGuardianModule.moduleId module, module)] |},
     logged INFO tag
       (js "Module " ++ ContentGuardianModule.moduleId module
        ++ js " registered successfully") None w).
Proof.
  intros Hfresh%JsMap_get_None. rewrite registerModule_run.
  cbv zeta. rewrite JsMap_has_get, Hfresh.
  now rewrite (JsMap_set_fresh _ _ _ Hfresh).
Qed.

(** The run of the start of the application. *)
Lemma Index_controller_run w :
  exists w',
    Index.controller w
    = (Returned {| modules := map entryOf Modules.all |}, w') /\
    map LogEntry.level (drop (length (logs w)) (logs w'))
    = replicate 12 INFO.
Proof.
  unfold Index.controller.
  rewrite (bind_run _ _ _ _ _ (info_run _ _ _)).
  do 10 (erewrite bind_run;
         [|apply registerModule_fresh; by_evaluation]).
  rewrite (bind_run _ _ _ _ _ (info_run _ _ _)).
  eexists. split; [reflexivity|].
  cbn [logs logged]. rewrite <- !app_assoc, drop_app_length.
  reflexivity.
Qed.

Lemma classes_have_distinct_ids :
  NoDup (map fst (map entryOf Modules.all)).
Proof. by_evaluation. Qed.

(** X3.  The start of the application leaves a controller that holds the ten
    module classes, each under its own id, listed by [getAllModules] in the
    order of their registration.  No id is registered twice: the twelve log
    entries of the start are all at level INFO, none of them is the warning
    of an overwritten module. *)
Theorem index_registers_the_ten_modules w :
  exists controller w',
    Index.controller w = (Returned controller, w') /\
    modules controller = map entryOf Modules.all /\
    getAllModules controller = map instantiate Modules.all /\
    (forall C, C ∈ Modules.all ->
       getModule controller (ModuleClass.moduleId C)
       = Some (instantiate C)) /\
    map LogEntry.level (drop (length (logs w)) (logs w'))
    = replicate 12 INFO.
Proof.
  destruct (Index_controller_run w) as (w' & Hrun & Hlog).
  eexists; eexists. split; [exact Hrun|]. cbn [modules].
  split; [reflexivity|]. split; [reflexivity|]. split; [|exact Hlog].
  intros C HC. unfold getModule. cbn [modules].
  apply JsMap_get_entry; [apply classes_have_distinct_ids|].
  change (entryOf C ∈ map entryOf Modules.all).
  now apply list_elem_of_fmap_2.
Qed.

End Registry.

(** ** Workflows *)

Section WorkflowFacts.
Context `{External}.

Import ContentGuardianController.

Lemma registered_has this moduleId :
  registered this moduleId <-> JsMap.has moduleId (modules this) = true.
Proof.
  unfold registered. rewrite JsMap_has_get.
  destruct (JsMap.get moduleId (modules this)); split; congruence.
Qed.

(** [runModule] returns for a registered id and throws for any other. *)
Lemma runModule_outcome this moduleId input options w :
  exists o w',
    runModule this moduleId input options w = (o, w') /\
    match o with
    | Returned _ => JsMap.has moduleId (modules this) = true
    | Thrown _ => JsMap.has moduleId (modules this) = false
    end.
Proof.
  rewrite JsMap_has_get.
  destruct (JsMap.get moduleId (modules this)) as [module|] eqn:Hget.
  - rewrite (runModule_registered _ _ _ _ _ _ Hget).
    destruct (ContentGuardianModule.process module input options _)
      as [[r|e] w1]; eexists; eexists; (split; [reflexivity|]);
      reflexivity.
  - rewrite (runModule_unregistered _ _ _ _ _ Hget).
    eexists; eexists. split; reflexivity.
Qed.

(** The sequential loop ends for whatever ids, and never by throwing;
    it adds one result per id at most. *)
Lemma sequentialLoop_returns this input wo ids rs st w :
  exists rs' st' w',
    sequentialLoop this input wo ids rs st w = (Returned (rs', st'), w')
    /\ length rs' <= length rs + length ids.
Proof.
  revert rs st w. induction ids as [|moduleId ids IH]; intros rs st w.
  - exists rs, st, w. split; [reflexivity | lia].
  - rewrite sequentialLoop_cons. cbn [length].
    destruct (runModule this moduleId input (optionsFor wo moduleId) w)
      as [[r|e] w1].
    + assert (Hgo : forall st1,
                exists rs' st' w',
                  sequentialLoop this input wo ids (rs ++ [r]) st1 w1
                  = (Returned (rs', st'), w')
                  /\ length rs' <= length rs + S (length ids)).
      { intros st1. destruct (IH (rs ++ [r]) st1 w1)
          as (rs' & st' & w' & E & Hlen).
        rewrite length_app in Hlen. cbn [length] in Hlen.
        exists rs', st', w'. split; [exact E | lia]. }
      destruct (hasStatus error r);
        [destruct (truthy (WorkflowOptions.stopOnError wo))|
         destruct (hasStatus warning r && negb (bool_decide (st = error)))];
        try apply Hgo.
      eexists; eexists; eexists. split; [reflexivity|].
      rewrite length_app. cbn [length]. lia.
    + cbv zeta. destruct (truthy (WorkflowOptions.stopOnError wo)).
      * eexists; eexists; eexists. split; [reflexivity | lia].
      * destruct (IH rs st (logged ERROR tag
          (js "Error in workflow for module " ++ moduleId) (Some e) w1))
          as (rs' & st' & w' & E & Hlen).
        exists rs', st', w'. split; [exact E | lia].
Qed.

(** Without stopOnError the loop visits every id; the ids that are not
    registered add nothing, neither a result nor a change of status. *)
Lemma sequentialLoop_no_stop this input wo ids rs w :
  truthy (WorkflowOptions.stopOnError wo) = false ->
  exists rs' w',
    sequentialLoop this input wo ids rs (worstOf rs) w
    = (Returned (rs ++ rs', worstOf (rs ++ rs')), w') /\
    length rs' = length (registeredIds this ids).
Proof.
  intros Hstop. revert rs w.
  induction ids as [|moduleId ids IH]; intros rs w.
  - exists [], w. rewrite app_nil_r. split; reflexivity.
  - rewrite sequentialLoop_cons, Hstop. unfold registeredIds.
    cbn [List.filter].
    destruct (runModule_outcome this moduleId input
                (optionsFor wo moduleId) w) as (o & w1 & -> & Ho).
    destruct o as [r|e]; rewrite Ho.
    + destruct (IH (rs ++ [r]) w1) as (rs' & w' & E & Hlen).
      rewrite (worstOf_snoc rs r) in E at 1.
      rewrite <- app_assoc in E. cbn [app] in E.
      exists (r :: rs'), w'. split; [|simpl; now rewrite Hlen].
      destruct (hasStatus error r) eqn:He.
      * apply hasStatus_true in He. now rewrite He in E.
      * apply hasStatus_false in He.
        destruct (hasStatus warning r) eqn:Hwarn.
        -- apply hasStatus_true in Hwarn. rewrite Hwarn in E.
           destruct (bool_decide (worstOf rs = error)) eqn:Hrs;
             cbn [andb negb]; [|exact E].
           apply bool_decide_eq_true in Hrs. now rewrite Hrs.
        -- apply hasStatus_false in Hwarn. cbn [andb].
           destruct (ModuleResult.status r); try congruence; exact E.
    + cbv zeta. destruct (IH rs (logged ERROR tag
        (js "Error in workflow for module " ++ moduleId) (Some e) w1))
        as (rs' & w' & E & Hlen).
      exists rs', w'. auto.
Qed.

Lemma dispatch_run this input wo moduleId w :
  dispatch this input wo moduleId w =
    match runModule this moduleId input (optionsFor wo moduleId) w with
    | (Returned r, w1) => (Returned (Returned r), w1)
    | (Thrown e, w1) =>
        (Returned (Thrown e),
         logged ERROR tag
           (js "Error in parallel workflow for module " ++ moduleId)
           (Some e) w1)
    end.
Proof.
  unfold dispatch, tryCatch.
  destruct (runModule this moduleId input (optionsFor wo moduleId) w)
    as [[r|e] w1]; [reflexivity|].
  unfold bind. now rewrite error_run.
Qed.

(** Every promise of the parallel branch settles: fulfilled for a
    registered id, rejected for any other. *)
Lemma dispatchAll_settles this input wo ids w :
  exists settled w',
    dispatchAll this input wo ids w = (Returned settled, w') /\
    Forall2 (settledAs this) ids settled.
Proof.
  revert w. induction ids as [|moduleId ids IH]; intros w.
  - exists [], w. split; [reflexivity | constructor].
  - cbn [dispatchAll]. unfold bind at 1. rewrite dispatch_run.
    destruct (runModule_outcome this moduleId input
                (optionsFor wo moduleId) w) as (o & w1 & -> & Ho).
    destruct o as [r|e].
    + destruct (IH w1) as (settled & w' & E & Hall).
      exists (Returned r :: settled), w'. unfold bind. rewrite E.
      split; [reflexivity | now constructor].
    + destruct (IH (logged ERROR tag
        (js "Error in parallel workflow for module " ++ moduleId)
        (Some e) w1)) as (settled & w' & E & Hall).
      exists (Thrown e :: settled), w'. unfold bind. rewrite E.
      split; [reflexivity | now constructor].
Qed.

Lemma Promise_all_settled this ids settled :
  Forall2 (settledAs this) ids settled ->
  if forallb (fun moduleId => JsMap.has moduleId (modules this)) ids
  then exists values,
         Promise_all settled = Returned values /\
         length values = length ids
  else exists e, Promise_all settled = Thrown e.
Proof.
  induction 1 as [|moduleId o ids settled Ho _ IH]; cbn [forallb].
  - exists []. split; reflexivity.
  - destruct o as [r|e]; cbn [settledAs] in Ho; rewrite Ho;
      cbn [andb Promise_all]; [|eauto].
    destruct (forallb _ ids).
    + destruct IH as (values & -> & Hlen). exists (r :: values).
      split; [reflexivity | simpl; now rewrite Hlen].
    + destruct IH as (e & ->). eauto.
Qed.

(** The loop reads the options of the workflow through the entries of
    the ids it visits and through the stopOnError flag only. *)
Lemma sequentialLoop_options this input wo wo' ids rs st w :
  truthy (WorkflowOptions.stopOnError wo)
  = truthy (WorkflowOptions.stopOnError wo') ->
  Forall (fun moduleId => optionsFor wo moduleId = optionsFor wo' moduleId)
    ids ->
  sequentialLoop this input wo ids rs st w
  = sequentialLoop this input wo' ids rs st w.
Proof.
  intros Hstop Hids. revert rs st w.
  induction Hids as [|moduleId ids Hid _ IH]; intros rs st w;
    [reflexivity|].
  rewrite !sequentialLoop_cons, Hid, Hstop.
  destruct (runModule this moduleId input (optionsFor wo' moduleId) w)
    as [[r|e] w1].
  - destruct (hasStatus error r);
      [destruct (truthy (WorkflowOptions.stopOnError wo'))|
       destruct (hasStatus warning r && negb (bool_decide (st = error)))];
      auto.
  - cbv zeta. destruct (truthy (WorkflowOptions.stopOnError wo')); auto.
Qed.

Lemma dispatchAll_listed_options this input wo wo' ids w :
  Forall (fun moduleId => optionsFor wo moduleId = optionsFor wo' moduleId)
    ids ->
  dispatchAll this input wo ids w = dispatchAll this input wo' ids w.
Proof.
  intros Hids. revert w.
  induction Hids as [|moduleId ids Hid _ IH]; intros w; [reflexivity|].
  cbn [dispatchAll]. unfold bind at 1 3. rewrite !dispatch_run, Hid.
  destruct (runModule this moduleId input (optionsFor wo' moduleId) w)
    as [[r|e] w1]; unfold bind; now rewrite IH.
Qed.


(** X4.  [runWorkflow] does not throw, whatever the workflow names and
    whatever the modules do: it returns a result whose summary is the
    summary of its results, and which holds one result per listed id at
    most. *)
Theorem runWorkflow_never_throws this input wo w :
  exists wr w',
    runWorkflow this input wo w = (Returned wr, w') /\
    WorkflowResult.summary wr
    = generateWorkflowSummary (WorkflowResult.results wr) /\
    length (WorkflowResult.results wr)
    <= length (WorkflowOptions.modules wo).
Proof.
  rewrite runWorkflow_run.
  destruct (truthy (WorkflowOptions.sequential wo)).
  - destruct (sequentialLoop_returns this input wo
                (WorkflowOptions.modules wo) [] success (started wo w))
      as (rs & st & w1 & -> & Hlen).
    eexists; eexists. split; [reflexivity|]. split; [reflexivity|].
    exact Hlen.
  - destruct (dispatchAll_settles this input wo
                (WorkflowOptions.modules wo) (started wo w))
      as (settled & w1 & Hall & Hsettled).
    rewrite (bind_run _ _ _ _ _ Hall).
    destruct (joinAll_status settled w1) as (rs & st & w2 & -> & Hjoin).
    eexists; eexists. split; [reflexivity|]. split; [reflexivity|].
    cbn [WorkflowResult.results].
    pose proof (Promise_all_settled this _ _ Hsettled) as Hp.
    destruct (forallb _ _).
    + destruct Hp as (values & Hv & Hlen). rewrite Hv in Hjoin.
      destruct Hjoin as (-> & _). lia.
    + destruct Hp as (e & He). rewrite He in Hjoin.
      destruct Hjoin as (-> & _). simpl. lia.
Qed.

(** X5.  The parallel branch gives all results or none.  When every listed
    id is registered, the workflow returns one result per id.  When one of
    them is not, it returns no result at all, with the status [error] and
    the summary of an empty run, whatever the other modules returned. *)
Theorem parallel_results_all_or_nothing this input wo w :
  truthy (WorkflowOptions.sequential wo) = false ->
  exists wr w',
    runWorkflow this input wo w = (Returned wr, w') /\
    if forallb (fun moduleId => JsMap.has moduleId (modules this))
         (WorkflowOptions.modules wo)
    then length (WorkflowResult.results wr)
         = length (WorkflowOptions.modules wo)
    else WorkflowResult.results wr = [] /\
         WorkflowResult.status wr = error /\
         WorkflowResult.summary wr = generateWorkflowSummary [].
Proof.
  intros Hseq. rewrite runWorkflow_run, Hseq.
  destruct (dispatchAll_settles this input wo
              (WorkflowOptions.modules wo) (started wo w))
    as (settled & w1 & Hall & Hsettled).
  rewrite (bind_run _ _ _ _ _ Hall).
  destruct (joinAll_status settled w1) as (rs & st & w2 & -> & Hjoin).
  eexists; eexists. split; [reflexivity|].
  cbn [WorkflowResult.results WorkflowResult.status
       WorkflowResult.summary].
  pose proof (Promise_all_settled this _ _ Hsettled) as Hp.
  destruct (forallb _ _).
  - destruct Hp as (values & Hv & Hlen). rewrite Hv in Hjoin.
    now destruct Hjoin as (-> & _).
  - destruct Hp as (e & He). rewrite He in Hjoin.
    destruct Hjoin as (-> & ->). auto.
Qed.

(** X6.  In the sequential mode without stopOnError every listed id is
    visited.  An id that is not registered is passed over: it adds no result
    and leaves the status alone.  So the workflow returns one result per
    registered id of the list, and its status is the worst status of these
    results. *)
Theorem sequential_without_stop_passes_over_unregistered this input wo w :
  truthy (WorkflowOptions.sequential wo) = true ->
  truthy (WorkflowOptions.stopOnError wo) = false ->
  exists wr w',
    runWorkflow this input wo w = (Returned wr, w') /\
    length (WorkflowResult.results wr)
    = length (registeredIds this (WorkflowOptions.modules wo)) /\
    WorkflowResult.status wr = worstOf (WorkflowResult.results wr).
Proof.
  intros Hseq Hstop. rewrite runWorkflow_run, Hseq.
  destruct (sequentialLoop_no_stop this input wo
              (WorkflowOptions.modules wo) [] (started wo w) Hstop)
    as (rs & w1 & Hloop & Hlen).
  change (worstOf []) with success in Hloop. cbn [app] in Hloop.
  rewrite Hloop. eexists; eexists. split; [reflexivity|].
  split; [exact Hlen | reflexivity].
Qed.

(** X7.  In the sequential mode with stopOnError, an id that is not
    registered ends the workflow as an error result does, but without a
    result of its own: when the calls for the ids [pre] return results
    without an error and the next id [m] is not registered, the results are
    those of [pre], the status is [error], and the ids behind [m] play no
    part. *)
Theorem sequential_stop_on_unregistered this input wo pre m post w rs w1 :
  truthy (WorkflowOptions.sequential wo) = true ->
  truthy (WorkflowOptions.stopOnError wo) = true ->
  WorkflowOptions.modules wo = pre ++ m :: post ->
  Ran this input wo pre (started wo w) rs w1 ->
  JsMap.get m (modules this) = None ->
  exists wr,
    runWorkflow this input wo w =
      (Returned wr,
       logged INFO tag
         (js "Workflow " ++ uuidString (reads w)
          ++ js " completed with status: " ++ statusString error) None
         (logged ERROR tag (js "Error in workflow for module " ++ m)
            (Some (JsError (js "Module " ++ m ++ js " not found")))
            (logged ERROR tag (js "Module " ++ m ++ js " not found")
               None w1))) /\
    WorkflowResult.results wr = rs /\
    WorkflowResult.status wr = error.
Proof.
  intros Hseq Hstop Hids Hran Hget.
  rewrite runWorkflow_run, Hseq, Hids.
  destruct (sequentialLoop_ran this input wo pre (m :: post) [] success
              _ _ _ Hran) as (st1 & ->).
  rewrite (sequentialLoop_thrown this input wo m post _ _ _ _ _
             (runModule_unregistered this m input _ w1 Hget)), Hstop.
  cbn [app]. eexists. split; [reflexivity|]. split; reflexivity.
Qed.

(** X8.  A workflow that lists no module returns at once, in either mode: no
    result, the status [success], the summary of an empty run, and the two
    log entries of its start and its end. *)
Theorem empty_workflow_succeeds this input sequential stopOnError options
    w :
  let wo := {| WorkflowOptions.modules := [];
               WorkflowOptions.sequential := sequential;
               WorkflowOptions.stopOnError := stopOnError;
               WorkflowOptions.options := options |} in
  exists wr,
    runWorkflow this input wo w =
      (Returned wr,
       logged INFO tag
         (js "Workflow " ++ uuidString (reads w)
          ++ js " completed with status: success") None (started wo w)) /\
    WorkflowResult.results wr = [] /\
    WorkflowResult.status wr = success /\
    WorkflowResult.summary wr
    = js "Workflow Summary: 0 modules processed" ++ nl
      ++ js "- Success: 0" ++ nl ++ js "- Warning: 0" ++ nl
      ++ js "- Error: 0" ++ nl ++ nl.
Proof.
  intros wo. rewrite runWorkflow_run.
  destruct (truthy (WorkflowOptions.sequential wo));
    eexists; (split; [reflexivity|]); repeat split.
Qed.

(** X9.  Of the options of a workflow, a run reads the list of ids, whether
    the two flags are truthy, and the entries of [options] under the listed
    ids; nothing else.  Two workflows that agree on these run alike: an
    absent flag runs as [false], an absent [options] object as an empty one,
    and entries under ids that are not listed are never looked at. *)
Theorem workflow_reads_listed_options_only this input wo wo' w :
  WorkflowOptions.modules wo = WorkflowOptions.modules wo' ->
  truthy (WorkflowOptions.sequential wo)
  = truthy (WorkflowOptions.sequential wo') ->
  truthy (WorkflowOptions.stopOnError wo)
  = truthy (WorkflowOptions.stopOnError wo') ->
  Forall (fun moduleId => optionsFor wo moduleId = optionsFor wo' moduleId)
    (WorkflowOptions.modules wo) ->
  runWorkflow this input wo w = runWorkflow this input wo' w.
Proof.
  intros Hm Hseq Hstop Hopts. rewrite !runWorkflow_run.
  assert (Hstart : started wo w = started wo' w)
    by (unfold started; now rewrite Hm).
  rewrite <- Hseq, <- Hm, <- Hstart.
  destruct (truthy (WorkflowOptions.sequential wo)).
  - now rewrite (sequentialLoop_options this input wo wo' _ _ _ _
                   Hstop Hopts).
  - unfold bind.
    now rewrite (dispatchAll_listed_options this input wo wo' _ _ Hopts).
Qed.

End WorkflowFacts.

(** ** The summary of a workflow *)

Section Summary.
Context `{External}.

Import ContentGuardianController.

Lemma flagged_warning_or_error r :
  hasStatus warning r || hasStatus error r = flagged r.
Proof.
  unfold flagged, hasStatus. now destruct (ModuleResult.status r).
Qed.

Lemma countStatus_cons st r rs :
  countStatus st (r :: rs)
  = (if hasStatus st r then 1 else 0) + countStatus st rs.
Proof.
  unfold countStatus. cbn [List.filter].
  now destruct (hasStatus st r).
Qed.

Lemma some_issue_counted rs :
  (0 <? countStatus warning rs) || (0 <? countStatus error rs)
  = negb (forallb (hasStatus success) rs).
Proof.
  induction rs as [|r rs IH]; [reflexivity|].
  rewrite !countStatus_cons. cbn [forallb].
  rewrite negb_andb, <- IH. unfold hasStatus.
  destruct (ModuleResult.status r); cbn [bool_decide decide_rel negb];
    try reflexivity.
  - now rewrite orb_true_r.
Qed.

(** A loop over the results that appends the lines of the flagged
    ones, as a concatenation. *)
Lemma issues_fold (line : ModuleResult.t -> jsstring)
    (step : jsstring -> ModuleResult.t -> jsstring) rs acc :
  (forall summary r,
     step summary r = if flagged r then summary ++ line r else summary) ->
  fold_left step rs acc
  = acc ++ concat (map line (List.filter flagged rs)).
Proof.
  intros Hstep. revert acc. induction rs as [|r rs IH]; intros acc.
  - simpl. now rewrite app_nil_r.
  - cbn [fold_left List.filter]. rewrite IH, Hstep.
    destruct (flagged r); [|reflexivity].
    cbn [map concat]. now rewrite <- app_assoc.
Qed.

(** The shape of a summary whose loop appends the lines [line] of the
    flagged results. *)
Lemma summary_of_lines (line : ModuleResult.t -> jsstring)
    (step : jsstring -> ModuleResult.t -> jsstring) rs head :
  (forall summary r,
     step summary r = if flagged r then summary ++ line r else summary) ->
  (if (0 <? countStatus warning rs) || (0 <? countStatus error rs)
   then fold_left step rs (head ++ js "Issues found:" ++ nl)
   else head)
  = head
    ++ (if forallb (hasStatus success) rs then []
        else js "Issues found:" ++ nl
             ++ concat (map line (List.filter flagged rs))).
Proof.
  intros Hstep. rewrite some_issue_counted.
  destruct (forallb (hasStatus success) rs); cbn [negb].
  - now rewrite app_nil_r.
  - rewrite (issues_fold line _ _ _ Hstep). now rewrite <- !app_assoc.
Qed.

(** The step of the loop of [generateWorkflowSummary] on a result. *)
Ltac controller_step :=
  let summary := fresh "summary" in
  let r := fresh "r" in
  intros summary r; rewrite flagged_warning_or_error;
  destruct (flagged r); [|reflexivity];
  unfold issueLine, fixesLine;
  destruct (ModuleResult.recommendedFixes r) as [[|? ?]|];
  rewrite <- ?app_assoc, ?app_nil_r; reflexivity.

(** X10.  The three counts of a summary add up to the number of results. *)
Theorem summary_counts_add_up rs :
  countStatus success rs + countStatus warning rs + countStatus error rs
  = length rs.
Proof.
  induction rs as [|r rs IH]; [reflexivity|].
  rewrite !countStatus_cons. cbn [length]. unfold hasStatus.
  destruct (ModuleResult.status r);
    repeat match goal with
           | |- context [bool_decide ?P] =>
               first [ rewrite (bool_decide_eq_true_2 P) by reflexivity
                     | rewrite (bool_decide_eq_false_2 P) by discriminate ]
           end; lia.
Qed.

(** X11.  The summary is its head when every result is a success.  Otherwise
    the head is followed by the line "Issues found:" and, for each result
    that is a warning or an error and in the order of the results, by the
    line of that result and, when it carries recommended fixes, by the line
    with their number. *)
Theorem summary_lists_the_flagged_results rs :
  generateWorkflowSummary rs =
    summaryHead rs
    ++ (if forallb (hasStatus success) rs then []
        else js "Issues found:" ++ nl
             ++ concat
                  (map (fun r => issueLine r ++ fixesLine r)
                     (List.filter flagged rs))).
Proof.
  unfold generateWorkflowSummary. cbv zeta.
  rewrite (summary_of_lines (fun r => issueLine r ++ fixesLine r)).
  - reflexivity.
  - controller_step.
Qed.

Lemma concat_map_longer {A} (f g : A -> jsstring) (l : list A) :
  length (concat (map f l))
  <= length (concat (map (fun r => f r ++ g r) l)).
Proof.
  induction l as [|r l IH]; [reflexivity|].
  cbn [map concat]. rewrite !length_app. lia.
Qed.

Lemma concat_map_same {A} (f g : A -> jsstring) (l : list A) :
  concat (map f l) = concat (map (fun r => f r ++ g r) l) <->
  Forall (fun r => g r = []) l.
Proof.
  split.
  - induction l as [|r l IH]; [constructor|].
    cbn [map concat]. rewrite <- app_assoc. intros Heq%app_inv_head.
    pose proof (concat_map_longer f g l) as Hle.
    pose proof (f_equal length Heq) as Hlen.
    rewrite length_app in Hlen.
    assert (Hg : g r = []) by (apply length_zero_iff_nil; lia).
    rewrite Hg in Heq. constructor; [exact Hg | now apply IH].
  - induction 1 as [|r l Hg _ IH]; [reflexivity|].
    cbn [map concat]. now rewrite Hg, app_nil_r, IH.
Qed.

Lemma fixesLine_nil r : fixesLine r = [] <-> carriesFixes r = false.
Proof.
  unfold fixesLine, carriesFixes.
  destruct (ModuleResult.recommendedFixes r) as [[|fix1 fixes]|];
    split; try reflexivity; discriminate.
Qed.

(** X12.  The workflow result that the test suite builds from a list of
    results has the status that the controller gives: the worst status of
    the results.  Its summary has the head and the issue lines of the
    controller's summary but never a line about recommended fixes: it is the
    controller's summary of the same results exactly when no result that is
    a warning or an error carries fixes. *)
Theorem mock_workflow_summary_lacks_fixes_lines rs w :
  exists wr,
    TestUtils.createMockWorkflowResult rs w = (Returned wr, tick w) /\
    WorkflowResult.results wr = rs /\
    WorkflowResult.status wr = worstOf rs /\
    WorkflowResult.summary wr =
      summaryHead rs
      ++ (if forallb (hasStatus success) rs then []
          else js "Issues found:" ++ nl
               ++ concat (map issueLine (List.filter flagged rs))) /\
    (WorkflowResult.summary wr = generateWorkflowSummary rs <->
     forallb (fun r => negb (carriesFixes r)) (List.filter flagged rs)
     = true).
Proof.
  assert (Hmock :
    (if (0 <? countStatus warning rs) || (0 <? countStatus error rs)
     then fold_left
            (fun summary result =>
               if hasStatus warning result || hasStatus error result
               then summary ++ js "- ["
                    ++ toUpperCase
                         (statusString (ModuleResult.status result))
                    ++ js "] " ++ ModuleResult.moduleId result ++ js ": "
                    ++ firstLine (ModuleResult.report result) ++ nl
               else summary)
            rs (summaryHead rs ++ js "Issues found:" ++ nl)
     else summaryHead rs)
    = summaryHead rs
      ++ (if forallb (hasStatus success) rs then []
          else js "Issues found:" ++ nl
               ++ concat (map issueLine (List.filter flagged rs)))).
  { apply summary_of_lines. intros summary r.
    now rewrite flagged_warning_or_error. }
  assert (Hcontroller :
    generateWorkflowSummary rs
    = summaryHead rs
      ++ (if forallb (hasStatus success) rs then []
          else js "Issues found:" ++ nl
               ++ concat
                    (map (fun r => issueLine r ++ fixesLine r)
                       (List.filter flagged rs)))).
  { unfold generateWorkflowSummary. cbv zeta.
    rewrite (summary_of_lines (fun r => issueLine r ++ fixesLine r));
      [reflexivity | controller_step]. }
  eexists. split; [|split; [|split; [|split]]].
  - unfold TestUtils.createMockWorkflowResult. cbv zeta.
    unfold bind, nowISO, ret. reflexivity.
  - reflexivity.
  - reflexivity.
  - exact Hmock.
  - cbn [WorkflowResult.summary].
    match goal with
    | |- ?mock = _ <-> _ =>
        replace mock
          with (summaryHead rs
                ++ (if forallb (hasStatus success) rs then []
                    else js "Issues found:" ++ nl
                         ++ concat
                              (map issueLine (List.filter flagged rs))))
          by (symmetry; exact Hmock)
    end.
    clear Hmock. rewrite Hcontroller. clear Hcontroller.
    destruct (forallb (hasStatus success) rs) eqn:Hall.
    + split; [intros _|reflexivity].
      apply forallb_forall. intros r [Hin Hr]%filter_In.
      rewrite forallb_forall in Hall. unfold flagged in Hr.
      rewrite (Hall r Hin) in Hr. discriminate Hr.
    + split.
      * intros Heq%app_inv_head%app_inv_head%app_inv_head.
        apply concat_map_same in Heq.
        apply forallb_forall. intros r Hr.
        rewrite Forall_forall in Heq.
        apply negb_true_iff, fixesLine_nil, Heq, list_elem_of_In, Hr.
      * intros Hno. do 3 f_equal. apply concat_map_same.
        apply Forall_forall. intros r Hr%list_elem_of_In.
        rewrite forallb_forall in Hno.
        apply fixesLine_nil, negb_true_iff, Hno, Hr.
Qed.

End Summary.

(** ** The logger *)

Section LoggerFacts.
Context `{External}.

(** X13.  An entry that has been logged is the last one of the log.  A later
    [getLogs] returns what it returned before, followed by the new entry
    when the entry passes the filters: it does so for its own level and its
    own module id, and for no other level. *)
Theorem logged_entry_is_retrieved level moduleId message data lv mid w :
  let entry :=
    {| LogEntry.timestamp := isoString (reads w);
       LogEntry.level := level;
       LogEntry.moduleId := moduleId;
       LogEntry.message := message;
       LogEntry.data := data |} in
  exists w' before,
    Logger.log level moduleId message data w = (Returned tt, w') /\
    logs w' = logs w ++ [entry] /\
    Logger.getLogs lv mid w = (Returned before, w) /\
    Logger.getLogs lv mid w'
    = (Returned
         (before ++ if Logger.selects lv mid entry then [entry] else []),
       w') /\
    Logger.selects None None entry = true /\
    Logger.selects (Some level) (Some moduleId) entry = true /\
    (forall l, l <> level -> Logger.selects (Some l) mid entry = false).
Proof.
  intros entry. eexists; eexists. split; [apply log_run|].
  split; [reflexivity|]. split; [reflexivity|]. split.
  - unfold Logger.getLogs. cbn [logs logged].
    rewrite List.filter_app. cbn [List.filter].
    fold entry. now destruct (Logger.selects lv mid entry).
  - split; [reflexivity|]. split.
    + unfold Logger.selects. cbn [LogEntry.level LogEntry.moduleId entry].
      rewrite bool_decide_eq_true_2 by reflexivity. cbn [negb].
      destruct moduleId as [|c s]; [reflexivity|].
      now rewrite bool_decide_eq_true_2.
    + intros l Hl. unfold Logger.selects. cbn [LogEntry.level entry].
      rewrite bool_decide_eq_false_2 by congruence. reflexivity.
Qed.

End LoggerFacts.

(** ** The completion service *)

Section ServiceFacts.
Context `{External}.

Lemma numberOr_nonzero a b :
  ~ (b == 0)%Q -> ~ (numberOr a b == 0)%Q.
Proof.
  intros Hb. unfold numberOr. destruct a as [q|]; [|exact Hb].
  destruct (Qeq_bool q 0) eqn:Hq; [exact Hb|].
  now apply Qeq_bool_neq.
Qed.

Lemma numberOr_zero q b : (q == 0)%Q -> numberOr (Some q) b = b.
Proof.
  intros Hq. unfold numberOr. now rewrite (Qeq_eq_bool _ _ Hq).
Qed.

Lemma orElse_again a b : b <> [] -> orElse (Some (orElse a b)) b = orElse a b.
Proof.
  intros Hb. destruct a as [[|c s]|]; cbn [orElse];
    destruct b; congruence.
Qed.

Lemma numberOr_again a b :
  ~ (b == 0)%Q -> numberOr (Some (numberOr a b)) b = numberOr a b.
Proof.
  intros Hb. unfold numberOr at 1.
  destruct (Qeq_bool (numberOr a b) 0) eqn:Hq; [|reflexivity].
  apply Qeq_bool_eq in Hq. now apply numberOr_nonzero in Hq.
Qed.

(** X14.  A zero among the options of a request counts as no value: the
    request that goes out never has the temperature, the token limit or the
    nucleus size zero, and never an empty model name.  A caller who asks for
    the temperature zero gets 0.7. *)
Theorem zero_options_fall_back_to_defaults prompt options :
  let request := AIService.chatRequest prompt options in
  ~ (ChatRequest.temperature request == 0)%Q /\
  ~ (ChatRequest.max_tokens request == 0)%Q /\
  ~ (ChatRequest.top_p request == 0)%Q /\
  ChatRequest.model request <> [] /\
  (forall q,
     AIServiceOptions.temperature options = Some q -> (q == 0)%Q ->
     ChatRequest.temperature request = 0.7%Q) /\
  (forall q,
     AIServiceOptions.maxTokens options = Some q -> (q == 0)%Q ->
     ChatRequest.max_tokens request = 1000%Q).
Proof.
  intros request. unfold request, AIService.chatRequest.
  cbn [ChatRequest.temperature ChatRequest.max_tokens ChatRequest.top_p
       ChatRequest.model].
  repeat split.
  - apply numberOr_nonzero. discriminate.
  - apply numberOr_nonzero. discriminate.
  - apply numberOr_nonzero. discriminate.
  - now destruct (AIServiceOptions.model options) as [[|c s]|].
  - intros q -> Hq. now apply numberOr_zero.
  - intros q -> Hq. now apply numberOr_zero.
Qed.

(** X15.  The request that a module sends carries the model and the token
    limit of the module options, or "gpt-4" and 1000 where these are
    missing, empty or zero; its sampling parameters are fixed: the
    temperature 0.7, the nucleus size 1 and both penalties 0. *)
Theorem module_requests_have_fixed_sampling prompt moduleOptions :
  AIService.chatRequest prompt
    (AIService.convertModuleOptionsToAIOptions moduleOptions)
  = {| ChatRequest.model := orElse (modelOf moduleOptions) (js "gpt-4");
       ChatRequest.content := prompt;
       ChatRequest.max_tokens := numberOr (maxTokensOf moduleOptions) 1000;
       ChatRequest.temperature := 0.7%Q;
       ChatRequest.top_p := 1%Q;
       ChatRequest.frequency_penalty := 0%Q;
       ChatRequest.presence_penalty := 0%Q |}.
Proof.
  unfold AIService.chatRequest, AIService.convertModuleOptionsToAIOptions.
  cbn [AIServiceOptions.model AIServiceOptions.maxTokens
       AIServiceOptions.temperature AIServiceOptions.topP
       AIServiceOptions.frequencyPenalty AIServiceOptions.presencePenalty].
  rewrite orElse_again by discriminate.
  rewrite numberOr_again by discriminate.
  reflexivity.
Qed.

(** X16.  [generateCompletion] returns the content of the answer of the
    endpoint, and the empty string when the answer has no content.  When the
    endpoint fails it throws, never the failure itself but an error whose
    message is the text "Failed to generate completion: " followed by the
    message of the failure.  Either way the endpoint is called once and two
    entries are logged. *)
Theorem completion_is_returned_or_failure_wrapped prompt options w :
  exists outcome w',
    AIService.generateCompletion prompt options w = (outcome, w') /\
    (api w' =
       snd (chatCompletionsCreate (AIService.chatRequest prompt options)
              (api w))) /\
    length (logs w') = length (logs w) + 2 /\
    match fst (chatCompletionsCreate
                 (AIService.chatRequest prompt options) (api w)) with
    | Returned (Some (c :: s)) => outcome = Returned (c :: s)
    | Returned _ => outcome = Returned []
    | Thrown cause =>
        outcome
        = Thrown (JsError (js "Failed to generate completion: "
                           ++ errorText cause))
    end.
Proof.
  rewrite generateCompletion_run. cbv zeta.
  destruct (chatCompletionsCreate _ (api w)) as [[response|cause] a];
    eexists; eexists; (split; [reflexivity|]);
    (split; [reflexivity|]);
    (split; [cbn [logs logged withApi]; rewrite !length_app; simpl; lia|]).
  - now destruct response as [[|c s]|].
  - reflexivity.
Qed.

End ServiceFacts.

(** ** The analysis modules *)

Section ModuleFacts.
Context `{External}.

(** The prompt ends with the content as it is, between two line breaks
    and in front of the four blanks that close the template. *)
Lemma preparePrompt_ends_with_content C input options w :
  exists front n,
    BaseModule.preparePrompt C input options w =
      (Returned (front ++ nl ++ contentText input ++ nl ++ js "    "),
       {| logs := logs w; reads := n; api := api w |}).
Proof.
  unfold BaseModule.preparePrompt. cbv zeta. destruct w as [l r a].
  set (body := nl ++ contentText input ++ nl ++ js "    ").
  destruct (ModuleClass.layout C);
    unfold bind, ret, uuidv4, nowISO; cbn [fst snd reads logs api];
    rewrite !app_assoc; eexists; eexists; reflexivity.
Qed.

(** What [process] does with content that is not blank: it composes the
    prompt, sends one request, which neither the composition nor
    anything behind the answer changes, and builds its result from the
    answer or from the failure of the endpoint. *)
Lemma process_by_endpoint C input options w :
  blankContent input = false ->
  exists prompt w2 n w',
    BaseModule.preparePrompt C input options
      (logged INFO (ModuleClass.moduleId C) (ModuleClass.startMessage C)
         None w)
    = (Returned prompt, w2) /\
    let request :=
      AIService.chatRequest prompt
        (AIService.convertModuleOptionsToAIOptions options) in
    api w' = snd (chatCompletionsCreate request (api w)) /\
    BaseModule.process C input options w =
      (Returned
         match fst (chatCompletionsCreate request (api w)) with
         | Returned response =>
             let parsed := parseResults C (orElse response []) in
             {| ModuleResult.moduleId := ModuleClass.moduleId C;
                ModuleResult.status := Parsed.status parsed;
                ModuleResult.report := orElse response [];
                ModuleResult.recommendedFixes :=
                  match Parsed.recommendedFixes parsed with
                  | fix1 :: rest => Some (fix1 :: rest)
                  | [] => None
                  end;
                ModuleResult.metadata := metadataAt C options n |}
         | Thrown e =>
             {| ModuleResult.moduleId := ModuleClass.moduleId C;
                ModuleResult.status := error;
                ModuleResult.report :=
                  ModuleClass.errorMessage C ++ js ": "
                  ++ js "Failed to generate completion: " ++ errorText e;
                ModuleResult.recommendedFixes :=
                  Some [ModuleClass.retryFix C;
                        js "Check API connectivity"];
                ModuleResult.metadata := metadataAt C options n |}
         end,
       w').
Proof.
  intros Hb.
  destruct (preparePrompt_run C input options
              (logged INFO (ModuleClass.moduleId C)
                 (ModuleClass.startMessage C) None w))
    as (block & k & _ & Hp).
  set (prompt := nl ++ orElse (customPromptOf options)
                         (ModuleClass.getDefaultPrompt C) ++ block) in Hp.
  set (w2 := {| logs := _; reads := k; api := _ |}) in Hp.
  assert (Hapi : api w2 = api w) by reflexivity.
  destruct (chatCompletionsCreate
              (AIService.chatRequest prompt
                 (AIService.convertModuleOptionsToAIOptions options))
              (api w)) as [[response|e] a] eqn:Hc.
  - destruct (process_answered C input options w prompt w2 response a
                Hb Hp) as (n & w' & Hrun & Ha);
      [now rewrite Hapi|].
    exists prompt, w2, n, w'. split; [exact Hp|]. cbv zeta.
    rewrite Hc. split; [exact Ha | exact Hrun].
  - destruct (process_failed C input options w prompt w2 e a Hb Hp)
      as (n & w' & Hrun & Ha); [now rewrite Hapi|].
    exists prompt, w2, n, w'. split; [exact Hp|]. cbv zeta.
    rewrite Hc. split; [exact Ha | exact Hrun].
Qed.

(** X17.  When the endpoint fails, [process] does not throw: it returns a
    result with the status [error], whose report names the failure behind
    the message of the module, and with the two recommended fixes of the
    module for this case. *)
Theorem endpoint_failure_becomes_error_result C input options w cause :
  blankContent input = false ->
  (forall request,
     fst (chatCompletionsCreate request (api w)) = Thrown cause) ->
  exists r w',
    BaseModule.process C input options w = (Returned r, w') /\
    ModuleResult.status r = error /\
    ModuleResult.report r
    = ModuleClass.errorMessage C
      ++ js ": Failed to generate completion: " ++ errorText cause /\
    ModuleResult.recommendedFixes r
    = Some [ModuleClass.retryFix C; js "Check API connectivity"].
Proof.
  intros Hb Hfail.
  destruct (process_by_endpoint C input options w Hb)
    as (prompt & w2 & n & w' & _ & _ & Hrun).
  rewrite Hfail in Hrun. rewrite Hrun.
  eexists; eexists. split; [reflexivity|].
  cbn [ModuleResult.status ModuleResult.report
       ModuleResult.recommendedFixes].
  repeat split.
Qed.

(** X18.  An answer of the endpoint without content, or with the empty
    string as content, makes each of the ten modules return a warning: the
    report is empty, no status word is found in it, and the result carries
    no recommended fixes. *)
Theorem empty_completion_is_a_warning C input options w response :
  C ∈ Modules.all ->
  blankContent input = false ->
  (forall request,
     fst (chatCompletionsCreate request (api w)) = Returned response) ->
  orElse response [] = [] ->
  exists r w',
    BaseModule.process C input options w = (Returned r, w') /\
    ModuleResult.status r = warning /\
    ModuleResult.report r = [] /\
    ModuleResult.recommendedFixes r = None.
Proof.
  intros HC Hb Hanswer Hempty.
  destruct (process_by_endpoint C input options w Hb)
    as (prompt & w2 & n & w' & _ & _ & Hrun).
  rewrite Hanswer in Hrun. rewrite Hrun, Hempty.
  eexists; eexists. split; [reflexivity|].
  cbn [ModuleResult.status ModuleResult.report
       ModuleResult.recommendedFixes].
  assert (Hparsed :
    Parsed.status (parseResults C []) = warning /\
    Parsed.recommendedFixes (parseResults C []) = []).
  { repeat (apply elem_of_cons in HC as [->|HC];
            [split; vm_compute; reflexivity|]).
    now apply elem_of_nil in HC. }
  destruct Hparsed as [-> ->]. repeat split.
Qed.

End ModuleFacts.

Section RecordedRequests.
Variable answer : ChatRequest.t -> Outcome (option jsstring).

(** X19.  With an endpoint that records its requests, [process] on content
    that is not blank sends one request, whether the endpoint answers or
    fails: the module does not try again.  The request carries the prompt,
    which ends with the content as it was given. *)
Theorem process_sends_exactly_one_request C input options
    (w : World (H := Mock.recording answer)) :
  blankContent input = false ->
  exists r w' request front,
    BaseModule.process (H := Mock.recording answer) C input options w
    = (Returned r, w') /\
    api w' = api w ++ [request] /\
    ChatRequest.content request
    = front ++ nl ++ contentText input ++ nl ++ js "    ".
Proof.
  intros Hb.
  destruct (process_by_endpoint (H := Mock.recording answer)
              C input options w Hb)
    as (prompt & w2 & n & w' & Hp & Ha & Hrun).
  destruct (preparePrompt_ends_with_content (H := Mock.recording answer)
              C input options
              (logged INFO (ModuleClass.moduleId C)
                 (ModuleClass.startMessage C) None w))
    as (front & k & Hp').
  rewrite Hp in Hp'. injection Hp' as Hprompt _.
  eexists; eexists; eexists; exists front.
  split; [exact Hrun|]. split; [exact Ha|]. exact Hprompt.
Qed.

(** X20.  The model that a result records is not the model that was asked
    for when the options name none: the request then asks for "gpt-4", and
    the metadata of the result say "default-model".  When the options name a
    model, both carry that name. *)
Theorem modelVersion_differs_from_requested_default C input options
    (w : World (H := Mock.recording answer)) :
  blankContent input = false ->
  exists r w' request,
    BaseModule.process (H := Mock.recording answer) C input options w
    = (Returned r, w') /\
    api w' = api w ++ [request] /\
    ChatRequest.model request = orElse (modelOf options) (js "gpt-4") /\
    ModuleMetadata.modelVersion (ModuleResult.metadata r)
    = orElse (modelOf options) (js "default-model") /\
    (orElse (modelOf options) [] = [] ->
     ChatRequest.model request = js "gpt-4" /\
     ModuleMetadata.modelVersion (ModuleResult.metadata r)
     = js "default-model") /\
    (orElse (modelOf options) [] <> [] ->
     ChatRequest.model request
     = ModuleMetadata.modelVersion (ModuleResult.metadata r)).
Proof.
  intros Hb.
  destruct (process_by_endpoint (H := Mock.recording answer)
              C input options w Hb)
    as (prompt & w2 & n & w' & Hp & Ha & Hrun).
  eexists; eexists; eexists.
  split; [exact Hrun|]. split; [exact Ha|].
  assert (Hmodel :
    ChatRequest.model
      (AIService.chatRequest prompt
         (AIService.convertModuleOptionsToAIOptions options))
    = orElse (modelOf options) (js "gpt-4")).
  { unfold AIService.chatRequest,
      AIService.convertModuleOptionsToAIOptions.
    cbn [ChatRequest.model AIServiceOptions.model].
    now destruct (modelOf options) as [[|c s]|]. }
  split; [exact Hmodel|].
  set (o := fst (chatCompletionsCreate _ _)).
  assert (Hversion :
    ModuleMetadata.modelVersion
      (ModuleResult.metadata
         match o with
         | Returned response =>
             let parsed := parseResults C (orElse response []) in
             {| ModuleResult.moduleId := ModuleClass.moduleId C;
                ModuleResult.status := Parsed.status parsed;
                ModuleResult.report := orElse response [];
                ModuleResult.recommendedFixes :=
                  match Parsed.recommendedFixes parsed with
                  | fix1 :: rest => Some (fix1 :: rest)
                  | [] => None
                  end;
                ModuleResult.metadata :=
                  metadataAt (H := Mock.recording answer) C options n |}
         | Thrown e =>
             {| ModuleResult.moduleId := ModuleClass.moduleId C;
                ModuleResult.status := error;
                ModuleResult.report :=
                  ModuleClass.errorMessage C ++ js ": "
                  ++ js "Failed to generate completion: " ++ errorText e;
                ModuleResult.recommendedFixes :=
                  Some [ModuleClass.retryFix C;
                        js "Check API connectivity"];
                ModuleResult.metadata :=
                  metadataAt (H := Mock.recording answer) C options n |}
         end)
    = orElse (modelOf options) (js "default-model"))
    by now destruct o.
  split; [exact Hversion|]. rewrite Hmodel, Hversion. split.
  - intros Hnone.
    destruct (modelOf options) as [[|c s]|]; try discriminate;
      split; reflexivity.
  - intros Hsome.
    destruct (modelOf options) as [[|c s]|]; cbn [orElse] in Hsome;
      try congruence; reflexivity.
Qed.

End RecordedRequests.

(** ** The result parsers of the ten modules *)

Section ParserFacts.


Lemma trimStart_tight s :
  match s with c :: _ => isWhiteSpace c = false | [] => True end ->
  trimStart s = s.
Proof. destruct s as [|c s]; simpl; [reflexivity|]. now intros ->. Qed.






Lemma behindFirst_absent header s :
  header <> [] ->
  (forall i, i < length s ->
     startsWithIgnoringCase (drop i s) header = false) ->
  behindFirst header s = None.
Proof.
  intros Hh. induction s as [|x s IH]; intros Hno.
  - simpl. now destruct header.
  - assert (H0 := Hno 0 (Nat.lt_0_succ _)). cbn [drop] in H0.
    cbn [behindFirst]. rewrite H0. apply IH.
    intros i Hi. apply (Hno (S i)). simpl. lia.
Qed.

(** The section pattern of each of the ten classes is made of the
    header that its [startsWith] test names and of its stops. *)
Lemma sectionRegExp_of_class C :
  C ∈ Modules.all ->
  ModuleClass.sectionRegExp C
  = sectionPattern (ModuleClass.sectionHeader C) (sectionStops C).
Proof.
  intros HC.
  repeat (apply elem_of_cons in HC as [->|HC]; [reflexivity|]).
  now apply elem_of_nil in HC.
Qed.

(** A check by enumeration that none of the first [n] places of a text
    is at a stop. *)
Lemma no_stop_before n stops s :
  forallb (fun i => negb (atStop stops (drop i s))) (seq 0 n) = true ->
  forall i, i < n -> atStop stops (drop i s) = false.
Proof.
  intros Hall i Hi. rewrite forallb_forall in Hall.
  apply negb_true_iff, Hall, in_seq. lia.
Qed.

(** X22.  For each of the ten modules: the recommended fixes are the
    trimmed, non-empty lines of the section of the completion that starts
    behind the first header, in whatever case of letters, and goes up to the
    first place behind it that is at one of the stops of the module, in
    whatever case, or else to the end of the text; the lines that start with
    the header as the module writes it are left out. *)
Theorem fixes_are_the_lines_of_the_section C before header section rest :
  C ∈ Modules.all ->
  equalIgnoringCase header (ModuleClass.sectionHeader C) = true ->
  (forall i, i < length before ->
     startsWithIgnoringCase
       (drop i (before ++ header ++ section ++ rest))
       (ModuleClass.sectionHeader C) = false) ->
  (forall i, i < length section ->
     atStop (sectionStops C) (drop i (section ++ rest)) = false) ->
  atStop (sectionStops C) rest = true ->
  Parsed.recommendedFixes
    (parseResults C (before ++ header ++ section ++ rest))
  = List.filter
      (fun line => negb (startsWith line (ModuleClass.sectionHeader C)))
      (trimmedLines section).
Proof.
  intros HC Hheader Hbefore Hsection Hrest.
  rewrite (parseResults_recommendedFixes C _ _ _
             (sectionRegExp_of_class C HC)).
  destruct (drop_equalIgnoringCase header _ (section ++ rest) Hheader)
    as [Hstart Hdrop].
  rewrite (behindFirst_decompose _ before _ Hbefore Hstart), Hdrop.
  now rewrite (beforeStop_decompose _ _ _ Hsection Hrest).
Qed.

(** X23.  When the header of the section of recommendations stands nowhere
    in the completion, in whatever case of letters, the parser of each of
    the ten modules extracts no fix. *)
Theorem missing_section_gives_no_fixes C completion :
  C ∈ Modules.all ->
  (forall i, i < length completion ->
     startsWithIgnoringCase (drop i completion)
       (ModuleClass.sectionHeader C) = false) ->
  Parsed.recommendedFixes (parseResults C completion) = [].
Proof.
  intros HC Hno.
  rewrite (parseResults_recommendedFixes C _ _ _
             (sectionRegExp_of_class C HC)).
  rewrite behindFirst_absent; [reflexivity | | exact Hno].
  clear Hno.
  repeat (apply elem_of_cons in HC as [->|HC]; [discriminate|]).
  now apply elem_of_nil in HC.
Qed.

Lemma diverge_not_start a b u :
  diverge a b = true -> startsWithIgnoringCase u b = true ->
  startsWithIgnoringCase u a = false.
Proof.
  revert b u. induction a as [|x a IH]; intros b u; [discriminate|].
  destruct b as [|y b]; [discriminate|].
  destruct u as [|z u]; [discriminate|]. simpl.
  intros Hd [Hz Hu]%andb_true_iff. apply N.eqb_eq in Hz.
  destruct (canonicalize z =? canonicalize x)%N eqn:Hx; [|reflexivity].
  apply N.eqb_eq in Hx. simpl.
  rewrite <- Hx, <- Hz, N.eqb_refl in Hd. simpl in Hd.
  now apply (IH b u).
Qed.

(** An attempt that fails at every place of [before] leaves the search
    to what stands behind. *)
Lemma exec_behind re before s :
  (forall i, i < length before ->
     matchHere re (drop i (before ++ s)) = None) ->
  exec re (before ++ s) = exec re s.
Proof.
  induction before as [|x before IH]; intros Hno; [reflexivity|].
  assert (H0 := Hno 0 (Nat.lt_0_succ _)). cbn [drop app] in H0.
  cbn [app exec]. rewrite H0. apply IH.
  intros i Hi. apply (Hno (S i)). simpl. lia.
Qed.

Lemma exec_status_here field t1 t2 t3 s rest :
  forallb wordStart [t1; t2; t3] = true ->
  startsWithIgnoringCase s field = true ->
  tokenAt [t1; t2; t3] (trimStart (drop (length field) s)) = Some rest ->
  exists m,
    exec (statusPattern field t1 t2 t3) s = Some m /\
    capture m 1 = consumed (trimStart (drop (length field) s)) rest.
Proof.
  intros Hw Hs Ht.
  assert (Hm := matchHere_status field t1 t2 t3 s Hw).
  rewrite Hs in Hm. cbv zeta in Hm. rewrite Ht in Hm.
  destruct s as [|x s]; cbn [exec]; rewrite Hm; eexists;
    (split; [reflexivity|]); reflexivity.
Qed.

Lemma word_head_not_white word t :
  wordStart t = true -> startsWithIgnoringCase word t = true ->
  exists c rest, word = c :: rest /\ isWhiteSpace c = false.
Proof.
  destruct t as [|y t]; [discriminate|].
  destruct word as [|c word]; [discriminate|]. simpl.
  intros Hy [Hc _]%andb_true_iff. apply N.eqb_eq in Hc.
  exists c, word. split; [reflexivity|].
  destruct (isWhiteSpace c) eqn:Hw; [|reflexivity].
  rewrite (isWhiteSpace_canonical c Hw) in Hc. rewrite <- Hc, Hw in Hy.
  discriminate Hy.
Qed.

(** The status line of a completion: at the first place where the field
    name stands, in whatever case, followed by white space or none and
    by one of the three words, in whatever case, the parser reads that
    word, provided that none of the words is the beginning of another. *)
Lemma parseResults_status_word C field t1 t2 t3 before field' blanks word
    behind t :
  ModuleClass.statusRegExp C = statusPattern field t1 t2 t3 ->
  forallb wordStart [t1; t2; t3] = true ->
  forallb upperWord [t1; t2; t3] = true ->
  diverge t1 t2 && diverge t1 t3 && diverge t2 t3 = true ->
  (forall i, i < length before ->
     startsWithIgnoringCase
       (drop i (before ++ field' ++ blanks ++ word ++ behind)) field
     = false) ->
  equalIgnoringCase field' field = true ->
  forallb isWhiteSpace blanks = true ->
  t ∈ [t1; t2; t3] ->
  equalIgnoringCase word t = true ->
  Parsed.status
    (parseResults C (before ++ field' ++ blanks ++ word ++ behind))
  = statusOfWord C t.
Proof.
  intros HC Hw Hu Hd Hbefore Hfield Hblanks Ht Hword.
  apply andb_true_iff in Hd as [Hd H23].
  apply andb_true_iff in Hd as [H12 H13].
  destruct (drop_equalIgnoringCase field' field
              (blanks ++ word ++ behind) Hfield) as [Hstart Hdrop].
  apply equalIgnoringCase_spec in Hword as [Hlen Hfits].
  assert (Hfit : startsWithIgnoringCase (word ++ behind) t = true)
    by now apply startsWithIgnoringCase_app.
  assert (Hwt : wordStart t = true /\ upperWord t = true).
  { pose proof Hw as Hw'. pose proof Hu as Hu'.
    cbn [forallb] in Hw', Hu'. rewrite !andb_true_r in Hw', Hu'.
    apply andb_true_iff in Hw' as [Hw1 Hw'].
    apply andb_true_iff in Hw' as [Hw2 Hw3].
    apply andb_true_iff in Hu' as [Hu1 Hu'].
    apply andb_true_iff in Hu' as [Hu2 Hu3].
    pose proof Ht as Ht'.
    repeat (apply elem_of_cons in Ht' as [->|Ht']; [auto|]).
    now apply elem_of_nil in Ht'. }
  destruct Hwt as [Hwt Hut].
  assert (Hu' : trimStart (drop (length field)
                             (field' ++ blanks ++ word ++ behind))
                = word ++ behind).
  { rewrite Hdrop, (trimStart_app_white _ _ Hblanks).
    apply trimStart_tight.
    destruct (word_head_not_white word t Hwt Hfits)
      as (c & rest & -> & Hc).
    exact Hc. }
  assert (Htok : tokenAt [t1; t2; t3] (word ++ behind)
                 = Some (drop (length t) (word ++ behind))).
  { cbn [tokenAt].
    apply elem_of_cons in Ht as [->|Ht]; [now rewrite Hfit|].
    apply elem_of_cons in Ht as [->|Ht].
    { now rewrite (diverge_not_start _ _ _ H12 Hfit), Hfit. }
    apply elem_of_cons in Ht as [->|Ht]; [|now apply elem_of_nil in Ht].
    now rewrite (diverge_not_start _ _ _ H13 Hfit),
      (diverge_not_start _ _ _ H23 Hfit), Hfit. }
  destruct (exec_status_here field t1 t2 t3
              (field' ++ blanks ++ word ++ behind)
              (drop (length t) (word ++ behind)) Hw Hstart)
    as (m & Hm & Hcap); [now rewrite Hu'|].
  rewrite Hu' in Hcap.
  rewrite consumed_drop in Hcap
    by now apply startsWithIgnoringCase_length.
  unfold parseResults, statusOfWord. cbn [Parsed.status].
  unfold String_match. rewrite HC, exec_behind, Hm, Hcap.
  - now rewrite (toUpperCase_word _ _ Hut Hfit).
  - intros i Hi. rewrite (matchHere_status _ _ _ _ _ Hw).
    now rewrite (Hbefore i Hi).
Qed.

Lemma parseResults_status_absent C field t1 t2 t3 completion :
  ModuleClass.statusRegExp C = statusPattern field t1 t2 t3 ->
  forallb wordStart [t1; t2; t3] = true ->
  field <> [] ->
  ModuleClass.caseSuccess C <> js "UNKNOWN" ->
  ModuleClass.caseError C <> js "UNKNOWN" ->
  (forall i, i < length completion ->
     startsWithIgnoringCase (drop i completion) field = false) ->
  Parsed.status (parseResults C completion) = warning.
Proof.
  intros HC Hw Hf Hs He Hno.
  apply parseResults_status_missing; [|assumption..].
  unfold String_match. rewrite HC. apply exec_status_none; [exact Hw|].
  intros i Hi Hstart. exfalso.
  destruct (decide (i < length completion)) as [Hlt|Hge].
  - rewrite (Hno i Hlt) in Hstart. discriminate Hstart.
  - rewrite drop_ge in Hstart by lia. destruct field; [congruence|].
    discriminate Hstart.
Qed.

Lemma literalOf_lit p : literalOf (lit p) = p.
Proof.
  induction p as [|c p IH]; [reflexivity|].
  destruct p as [|c' p]; [reflexivity|].
  change (lit (c :: c' :: p)) with (RSeq (RChar c) (lit (c' :: p))).
  cbn [literalOf]. now rewrite IH.
Qed.

(** [statusField] reads the field name off a status pattern. *)
Lemma statusField_statusPattern C field t1 t2 t3 :
  ModuleClass.statusRegExp C = statusPattern field t1 t2 t3 ->
  statusField C = field.
Proof.
  intros HC. unfold statusField. rewrite HC. cbn [pattern statusPattern].
  apply literalOf_lit.
Qed.

(** The status pattern of each of the ten classes is made of its field
    name and of the three words of its [switch]. *)
Lemma statusRegExp_of_class C :
  C ∈ Modules.all ->
  ModuleClass.statusRegExp C
  = statusPattern (statusField C) (ModuleClass.caseSuccess C)
      (ModuleClass.caseWarning C) (ModuleClass.caseError C).
Proof.
  intros HC.
  repeat (apply elem_of_cons in HC as [->|HC]; [reflexivity|]).
  now apply elem_of_nil in HC.
Qed.

(** X24.  When the field name of the status line stands nowhere in the
    completion, in whatever case of letters, each of the ten modules reads
    the status [warning]. *)
Theorem missing_status_line_is_a_warning C completion :
  C ∈ Modules.all ->
  (forall i, i < length completion ->
     startsWithIgnoringCase (drop i completion) (statusField C) = false) ->
  Parsed.status (parseResults C completion) = warning.
Proof.
  intros HC Hno.
  apply (parseResults_status_absent C (statusField C)
           (ModuleClass.caseSuccess C) (ModuleClass.caseWarning C)
           (ModuleClass.caseError C));
    [now apply statusRegExp_of_class | | | | | exact Hno];
    clear Hno;
    repeat (apply elem_of_cons in HC as [->|HC];
            [reflexivity || discriminate|]);
    now apply elem_of_nil in HC.
Qed.

(** X25.  In each module but FactCheckLayer no word of the status pattern is
    the beginning of another, and the status line is read as the prompt of
    the module announces it: at the first place where the field name stands,
    in whatever case of letters and with white space or none behind it, the
    first word gives [success], the second [warning] and the third [error],
    in whatever case and whatever follows the word. *)
Theorem status_words_are_read_in_any_case C before field' blanks word
    behind :
  C ∈ Modules.all ->
  C <> Modules.FactCheckLayer ->
  (forall i, i < length before ->
     startsWithIgnoringCase
       (drop i (before ++ field' ++ blanks ++ word ++ behind))
       (statusField C)
     = false) ->
  equalIgnoringCase field' (statusField C) = true ->
  forallb isWhiteSpace blanks = true ->
  (equalIgnoringCase word (ModuleClass.caseSuccess C) = true ->
   Parsed.status
     (parseResults C (before ++ field' ++ blanks ++ word ++ behind))
   = success) /\
  (equalIgnoringCase word (ModuleClass.caseWarning C) = true ->
   Parsed.status
     (parseResults C (before ++ field' ++ blanks ++ word ++ behind))
   = warning) /\
  (equalIgnoringCase word (ModuleClass.caseError C) = true ->
   Parsed.status
     (parseResults C (before ++ field' ++ blanks ++ word ++ behind))
   = error).
Proof.
  intros HC Hne Hbefore Hfield Hblanks.
  pose proof (statusRegExp_of_class C HC) as Hpat.
  assert (Hwords :
    forallb wordStart
      [ModuleClass.caseSuccess C; ModuleClass.caseWarning C;
       ModuleClass.caseError C] = true /\
    forallb upperWord
      [ModuleClass.caseSuccess C; ModuleClass.caseWarning C;
       ModuleClass.caseError C] = true /\
    diverge (ModuleClass.caseSuccess C) (ModuleClass.caseWarning C)
    && diverge (ModuleClass.caseSuccess C) (ModuleClass.caseError C)
    && diverge (ModuleClass.caseWarning C) (ModuleClass.caseError C)
    = true /\
    statusOfWord C (ModuleClass.caseSuccess C) = success /\
    statusOfWord C (ModuleClass.caseWarning C) = warning /\
    statusOfWord C (ModuleClass.caseError C) = error).
  { clear -HC Hne.
    apply elem_of_cons in HC as [->|HC]; [congruence|].
    repeat (apply elem_of_cons in HC as [->|HC];
            [repeat split; vm_compute; reflexivity|]).
    now apply elem_of_nil in HC. }
  destruct Hwords as (Hw & Hu & Hd & Hs1 & Hs2 & Hs3).
  repeat split; intros Hword;
    [rewrite <- Hs1 | rewrite <- Hs2 | rewrite <- Hs3];
    apply (parseResults_status_word C (statusField C)
             (ModuleClass.caseSuccess C) (ModuleClass.caseWarning C)
             (ModuleClass.caseError C));
    try assumption; rewrite !elem_of_cons; auto.
Qed.

End ParserFacts.

(** ** Workflows over the modules of the repository *)

Section ClassControllers.
Context `{External}.

Import ContentGuardianController.

(** The result of [process] carries the id of its module class. *)
Lemma process_moduleId C input options w :
  exists r w',
    BaseModule.process C input options w = (Returned r, w') /\
    ModuleResult.moduleId r = ModuleClass.moduleId C.
Proof.
  destruct (blankContent input) eqn:Hb.
  - rewrite (process_blank C input options w Hb).
    eexists; eexists. split; reflexivity.
  - destruct (process_by_endpoint C input options w Hb)
      as (prompt & w2 & n & w' & _ & _ & Hrun).
    rewrite Hrun. eexists; eexists. split; [reflexivity|].
    now destruct (fst _).
Qed.

(** For a registered id of a controller of class instances, [runModule]
    returns what [process] of the class returns: a result under that
    id. *)
Lemma runModule_class this moduleId input options w :
  ofClasses this ->
  JsMap.has moduleId (modules this) = true ->
  exists r w',
    runModule this moduleId input options w = (Returned r, w') /\
    ModuleResult.moduleId r = moduleId.
Proof.
  intros Hclasses. rewrite JsMap_has_get.
  destruct (JsMap.get moduleId (modules this)) as [module|] eqn:Hget;
    [intros _ | discriminate].
  assert (Hclass : exists C,
            module = instantiate C /\ ModuleClass.moduleId C = moduleId).
  { unfold ofClasses in Hclasses. clear -Hclasses Hget.
    induction Hclasses as [|[k v] m (C & Hentry) _ IH];
      simpl in Hget; [discriminate|].
    destruct (bool_decide (k = moduleId)) eqn:Hk; [|now apply IH].
    apply bool_decide_eq_true in Hk. injection Hget as <-.
    injection Hentry as -> ->. eauto. }
  destruct Hclass as (C & -> & <-).
  rewrite (runModule_registered _ _ _ _ _ _ Hget).
  cbn [ContentGuardianModule.process instantiate].
  destruct (process_moduleId C input options
              (logged INFO tag
                 (js "Running module " ++ ModuleClass.moduleId C) None w))
    as (r & w1 & -> & Hid).
  eexists; eexists. split; [reflexivity | exact Hid].
Qed.

Lemma sequentialLoop_each this input wo ids rs w :
  ofClasses this ->
  truthy (WorkflowOptions.stopOnError wo) = false ->
  forallb (fun moduleId => JsMap.has moduleId (modules this)) ids = true ->
  exists rs' w',
    sequentialLoop this input wo ids rs (worstOf rs) w
    = (Returned (rs ++ rs', worstOf (rs ++ rs')), w') /\
    map ModuleResult.moduleId rs' = ids.
Proof.
  intros Hclasses Hstop. revert rs w.
  induction ids as [|moduleId ids IH]; intros rs w Hreg.
  - exists [], w. rewrite app_nil_r. split; reflexivity.
  - cbn [forallb] in Hreg. apply andb_true_iff in Hreg as [Hid Hreg].
    rewrite sequentialLoop_cons, Hstop.
    destruct (runModule_class this moduleId input
                (optionsFor wo moduleId) w Hclasses Hid)
      as (r & w1 & -> & Hr).
    destruct (IH (rs ++ [r]) w1 Hreg) as (rs' & w' & E & Hids).
    rewrite (worstOf_snoc rs r) in E at 1.
    rewrite <- app_assoc in E. cbn [app] in E.
    exists (r :: rs'), w'. split; [|simpl; now rewrite Hr, Hids].
    destruct (hasStatus error r) eqn:He.
    + apply hasStatus_true in He. now rewrite He in E.
    + apply hasStatus_false in He.
      destruct (hasStatus warning r) eqn:Hwarn.
      * apply hasStatus_true in Hwarn. rewrite Hwarn in E.
        destruct (bool_decide (worstOf rs = error)) eqn:Hrs;
          cbn [andb negb]; [|exact E].
        apply bool_decide_eq_true in Hrs. now rewrite Hrs.
      * apply hasStatus_false in Hwarn. cbn [andb].
        destruct (ModuleResult.status r); try congruence; exact E.
Qed.


Lemma runWorkflow_sequential_each this input wo w :
  ofClasses this ->
  forallb (fun moduleId => JsMap.has moduleId (modules this))
    (WorkflowOptions.modules wo) = true ->
  truthy (WorkflowOptions.sequential wo) = true ->
  truthy (WorkflowOptions.stopOnError wo) = false ->
  runsEach (runWorkflow this input wo) w (WorkflowOptions.modules wo).
Proof.
  intros Hclasses Hreg Hseq Hstop. unfold runsEach.
  rewrite runWorkflow_run, Hseq.
  destruct (sequentialLoop_each this input wo _ [] (started wo w)
              Hclasses Hstop Hreg) as (rs & w1 & Hloop & Hids).
  change (worstOf []) with success in Hloop. cbn [app] in Hloop.
  rewrite Hloop. eexists; eexists. split; [reflexivity|].
  split; [exact Hids | reflexivity].
Qed.


Lemma Index_controller_ofClasses :
  ofClasses {| modules := map entryOf Modules.all |}.
Proof.
  unfold ofClasses. cbn [modules]. apply List.Forall_forall.
  intros entry (C & <- & _)%in_map_iff. eauto.
Qed.

(** A run of a method of the manager, behind its own log entry. *)
Lemma manager_run message this input wo w :
  runsEach
    (Logger.info (js "WorkflowManager") message ;;;
     runWorkflow this input wo) w
  = runsEach (runWorkflow this input wo)
      (logged INFO (js "WorkflowManager") message None w).
Proof. unfold runsEach. now rewrite (bind_run _ _ _ _ _ (info_run _ _ _)). Qed.

(** X27.  On the controller of the application, each of the five workflows
    of the manager runs every module it lists: it returns one result per
    listed module, in the order of the list that [workflows] exports under
    the same name, and its status is the worst status of these results,
    whatever the content and whatever the endpoint answers. *)
Theorem preset_workflows_run_every_listed_module w0 input :
  exists controller w,
    Index.controller w0 = (Returned controller, w) /\
    let manager := {| WorkflowManager.controller := controller |} in
    forall w1,
      runsEach (WorkflowManager.runComprehensiveAnalysis manager input) w1
        (WorkflowOptions.modules Workflows.comprehensiveWorkflow) /\
      runsEach (WorkflowManager.runFactualIntegrityWorkflow manager input)
        w1 (WorkflowOptions.modules Workflows.factualIntegrityWorkflow) /\
      runsEach (WorkflowManager.runEthicalReviewWorkflow manager input) w1
        (WorkflowOptions.modules Workflows.ethicalReviewWorkflow) /\
      runsEach (WorkflowManager.runReaderExperienceWorkflow manager input)
        w1 (WorkflowOptions.modules Workflows.readerExperienceWorkflow) /\
      runsEach (WorkflowManager.runPublicationPrepWorkflow manager input)
        w1 (WorkflowOptions.modules Workflows.publicationPrepWorkflow).
Proof.
  destruct (Index_controller_run w0) as (w & Hrun & _).
  eexists; eexists. split; [exact Hrun|]. intros manager w1.
  unfold WorkflowManager.runComprehensiveAnalysis,
    WorkflowManager.runFactualIntegrityWorkflow,
    WorkflowManager.runEthicalReviewWorkflow,
    WorkflowManager.runReaderExperienceWorkflow,
    WorkflowManager.runPublicationPrepWorkflow.
  cbv zeta. rewrite !manager_run. cbn [WorkflowManager.controller manager].
  repeat split;
    (apply runWorkflow_sequential_each;
     [apply Index_controller_ofClasses | vm_compute; reflexivity
     | reflexivity | reflexivity]).
Qed.

(** X28.  A custom workflow of the manager whose flags are left out runs in
    the sequential mode without stopOnError: every listed id is visited, an
    id that is not registered is passed over, and the workflow returns one
    result per registered id of the list, its status the worst status of
    these results. *)
Theorem custom_workflow_defaults_to_sequential this input ids w :
  exists wr w',
    WorkflowManager.runCustomWorkflow this input ids None None None w
    = (Returned wr, w') /\
    length (WorkflowResult.results wr)
    = length (registeredIds (WorkflowManager.controller this) ids) /\
    WorkflowResult.status wr = worstOf (WorkflowResult.results wr).
Proof.
  unfold WorkflowManager.runCustomWorkflow.
  rewrite (bind_run _ _ _ _ _ (info_run _ _ _)), runWorkflow_run.
  cbn [Workflows.createCustomWorkflow WorkflowOptions.sequential truthy
       WorkflowOptions.modules].
  match goal with
  | |- context [sequentialLoop ?c input ?wo ids [] success ?w1] =>
      destruct (sequentialLoop_no_stop c input wo ids [] w1 eq_refl)
        as (rs & w2 & Hloop & Hlen)
  end.
  change (worstOf []) with success in Hloop. cbn [app] in Hloop.
  rewrite Hloop. eexists; eexists. split; [reflexivity|].
  split; [exact Hlen | reflexivity].
Qed.

End ClassControllers.

Section RecordedWorkflows.
Variable answer : ChatRequest.t -> Outcome (option jsstring).
Variable classes : list ModuleClass.t.

Import ContentGuardianController.

Local Abbreviation recorder := (Mock.recording answer).

(** [process] with an endpoint that records its requests: one more
    request, that of the class under the options. *)
Lemma process_recorded C input options (w : World (H := recorder)) :
  blankContent input = false ->
  exists r w' request,
    BaseModule.process (H := recorder) C input options w
    = (Returned r, w') /\
    api w' = api w ++ [request] /\
    requestOf C options request.
Proof.
  intros Hb.
  destruct (process_by_endpoint (H := recorder) C input options w Hb)
    as (prompt & w2 & n & w' & Hp & Ha & Hrun).
  destruct (preparePrompt_run (H := recorder) C input options
              (logged INFO (ModuleClass.moduleId C)
                 (ModuleClass.startMessage C) None w))
    as (block & k & _ & Hp').
  rewrite Hp in Hp'. injection Hp' as Hprompt _.
  eexists; eexists; eexists. split; [exact Hrun|].
  split; [exact Ha|]. split.
  - exists block. exact Hprompt.
  - unfold AIService.chatRequest,
      AIService.convertModuleOptionsToAIOptions.
    cbn [ChatRequest.model AIServiceOptions.model].
    now destruct (modelOf options) as [[|c s]|].
Qed.

(** What is found under an id in a registry of classes. *)
Lemma get_classOf moduleId :
  JsMap.get moduleId (map (entryOf (H := recorder)) classes)
  = option_map (instantiate (H := recorder)) (classOf classes moduleId).
Proof.
  unfold classOf. induction classes as [|C Cs IH]; [reflexivity|].
  cbn [map JsMap.get entryOf List.find].
  destruct (bool_decide (ModuleClass.moduleId C = moduleId));
    [reflexivity | exact IH].
Qed.

Lemma runModule_recorded this moduleId input options
    (w : World (H := recorder)) :
  modules this = map entryOf classes ->
  JsMap.has moduleId (modules this) = true ->
  blankContent input = false ->
  exists r w' request C,
    runModule this moduleId input options w = (Returned r, w') /\
    api w' = api w ++ [request] /\
    classOf classes moduleId = Some C /\
    requestOf C options request.
Proof.
  intros Hclasses Hhas Hb. rewrite JsMap_has_get in Hhas.
  destruct (JsMap.get moduleId (modules this)) as [module|] eqn:Hget;
    [|discriminate].
  pose proof Hget as Hclass. rewrite Hclasses, get_classOf in Hclass.
  destruct (classOf classes moduleId) as [C|]; [|discriminate].
  injection Hclass as <-.
  rewrite (runModule_registered _ _ _ _ _ _ Hget).
  cbn [ContentGuardianModule.process instantiate].
  destruct (process_recorded C input options
              (logged INFO tag (js "Running module " ++ moduleId) None w)
              Hb) as (r & w1 & request & -> & Ha & Hreq).
  exists r. eexists. exists request, C.
  split; [reflexivity|]. split; [exact Ha|]. split; [reflexivity|].
  exact Hreq.
Qed.

Lemma sequentialLoop_recorded this input wo ids rs st
    (w : World (H := recorder)) :
  modules this = map entryOf classes ->
  truthy (WorkflowOptions.stopOnError wo) = false ->
  forallb (fun moduleId => JsMap.has moduleId (modules this)) ids = true ->
  blankContent input = false ->
  exists out w' requests,
    sequentialLoop this input wo ids rs st w = (Returned out, w') /\
    api w' = api w ++ requests /\
    Forall2 (requestFor classes wo) ids requests.
Proof.
  intros Hclasses Hstop Hreg Hb. revert rs st w Hreg.
  induction ids as [|moduleId ids IH]; intros rs st w Hreg.
  - exists (rs, st), w, []. rewrite app_nil_r.
    split; [reflexivity|]. split; [reflexivity | constructor].
  - cbn [forallb] in Hreg. apply andb_true_iff in Hreg as [Hid Hreg].
    rewrite sequentialLoop_cons, Hstop.
    destruct (runModule_recorded this moduleId input
                (optionsFor wo moduleId) w Hclasses Hid Hb)
      as (r & w1 & request & C & -> & Ha & Hget & Hreq).
    assert (Hgo : forall rs1 st1,
              exists out w' requests,
                sequentialLoop this input wo ids rs1 st1 w1
                = (Returned out, w') /\
                api w' = api w ++ requests /\
                Forall2 (requestFor classes wo) (moduleId :: ids)
                  requests).
    { intros rs1 st1.
      destruct (IH rs1 st1 w1 Hreg)
        as (out & w' & requests & E & Hapi & Hall).
      exists out, w', (request :: requests). split; [exact E|].
      split; [rewrite Hapi, Ha, <- app_assoc; reflexivity|].
      constructor; [|exact Hall]. exists C. auto. }
    destruct (hasStatus error r);
      [|destruct (hasStatus warning r && negb (bool_decide (st = error)))];
      apply Hgo.
Qed.

Lemma dispatchAll_recorded this input wo ids (w : World (H := recorder)) :
  modules this = map entryOf classes ->
  forallb (fun moduleId => JsMap.has moduleId (modules this)) ids = true ->
  blankContent input = false ->
  exists rs w' requests,
    dispatchAll this input wo ids w = (Returned (map Returned rs), w') /\
    api w' = api w ++ requests /\
    Forall2 (requestFor classes wo) ids requests.
Proof.
  intros Hclasses Hreg Hb. revert w Hreg.
  induction ids as [|moduleId ids IH]; intros w Hreg.
  - exists [], w, []. rewrite app_nil_r.
    split; [reflexivity|]. split; [reflexivity | constructor].
  - cbn [forallb] in Hreg. apply andb_true_iff in Hreg as [Hid Hreg].
    cbn [dispatchAll]. unfold bind at 1. rewrite dispatch_run.
    destruct (runModule_recorded this moduleId input
                (optionsFor wo moduleId) w Hclasses Hid Hb)
      as (r & w1 & request & C & -> & Ha & Hget & Hreq).
    destruct (IH w1 Hreg) as (rs & w' & requests & E & Hapi & Hall).
    exists (r :: rs), w', (request :: requests). unfold bind. rewrite E.
    split; [reflexivity|].
    split; [rewrite Hapi, Ha, <- app_assoc; reflexivity|].
    constructor; [|exact Hall]. exists C. auto.
Qed.

(** X30.  With an endpoint that records its requests and a controller
    on which module classes have been registered, a workflow on content
    that is not blank, whose ids are all registered and which does not
    combine the sequential mode with stopOnError, sends one request per
    listed id, in the order of the list.  The request for an id is that
    of the class registered under it: its prompt starts with the custom
    prompt that the options of the workflow hold under this id, or else
    with the default prompt of the class, and it asks for the model that
    these options name, or else for "gpt-4". *)
Theorem workflow_sends_one_request_per_module this input wo
    (w : World (H := recorder)) :
  modules this = map entryOf classes ->
  forallb (fun moduleId => JsMap.has moduleId (modules this))
    (WorkflowOptions.modules wo) = true ->
  truthy (WorkflowOptions.sequential wo)
  && truthy (WorkflowOptions.stopOnError wo) = false ->
  blankContent input = false ->
  exists wr w' requests,
    runWorkflow this input wo w = (Returned wr, w') /\
    api w' = api w ++ requests /\
    Forall2 (requestFor classes wo) (WorkflowOptions.modules wo) requests.
Proof.
  intros Hclasses Hreg Hmode Hb. rewrite runWorkflow_run.
  destruct (truthy (WorkflowOptions.sequential wo)).
  - cbn [andb] in Hmode.
    destruct (sequentialLoop_recorded this input wo _ [] success
                (started wo w) Hclasses Hmode Hreg Hb)
      as ([rs st] & w1 & requests & -> & Hapi & Hall).
    eexists; eexists; exists requests.
    split; [reflexivity|]. split; [exact Hapi | exact Hall].
  - destruct (dispatchAll_recorded this input wo _ (started wo w)
                Hclasses Hreg Hb)
      as (rs & w1 & requests & Hall & Hapi & Hreq).
    rewrite (bind_run _ _ _ _ _ Hall), joinAll_returned.
    eexists; eexists; exists requests.
    split; [reflexivity|]. split; [exact Hapi | exact Hreq].
Qed.

End RecordedWorkflows.

(** ** The log of a run *)

Section AppendOnly.
Context `{External}.
















Import ContentGuardianController.







End AppendOnly.

(** ** The further properties on concrete runs *)

Module Checks.

Import Fixture.

Ltac evaluate := vm_compute; reflexivity.

(** A parallel workflow over a registered module and an id that is not
    registered: no result, the status [error]. *)
Lemma parallel_results_all_or_nothing_witness :
  let this := Mock.controllerOf [Mock.resolving A success] in
  let wo := Mock.workflow [A; js "DoesNotExist"] (Some false) None in
  exists wr w',
    ContentGuardianController.runWorkflow this article wo w0
    = (Returned wr, w') /\
    WorkflowResult.results wr = [] /\
    WorkflowResult.status wr = error /\
    WorkflowResult.summary wr
    = ContentGuardianController.generateWorkflowSummary [].
Proof.
  intros this wo.
  destruct (parallel_results_all_or_nothing this article wo w0 eq_refl)
    as (wr & w' & Hrun & Hres).
  change (forallb _ _) with false in Hres.
  exists wr, w'. split; [exact Hrun | exact Hres].
Defined.

(** A sequential workflow without stopOnError over two registered
    modules and an id that is not registered: two results, the status
    [warning]. *)
Lemma sequential_without_stop_passes_over_unregistered_witness :
  let this := Mock.controllerOf
                [Mock.resolving A success; Mock.resolving B warning] in
  let wo := Mock.workflow [A; js "DoesNotExist"; B] (Some true)
              (Some false) in
  exists wr w',
    ContentGuardianController.runWorkflow this article wo w0
    = (Returned wr, w') /\
    length (WorkflowResult.results wr) = 2 /\
    WorkflowResult.status wr = worstOf (WorkflowResult.results wr).
Proof.
  intros this wo.
  exact (sequential_without_stop_passes_over_unregistered this article wo
           w0 eq_refl eq_refl).
Defined.

(** A sequential workflow with stopOnError whose second id is not
    registered: the result of the first module, the status [error], and
    the third module is not called. *)
Lemma sequential_stop_on_unregistered_witness :
  let this := Mock.controllerOf
                [Mock.resolving A success; Mock.resolving B success] in
  let wo := Mock.workflow [A; js "DoesNotExist"; B] (Some true)
              (Some true) in
  exists wr w',
    ContentGuardianController.runWorkflow this article wo w0
    = (Returned wr, w') /\
    map ModuleResult.moduleId (WorkflowResult.results wr) = [A] /\
    WorkflowResult.status wr = error /\
    Mock.called (logs w') = [A].
Proof.
  intros this wo.
  edestruct (sequential_stop_on_unregistered this article wo [A]
               (js "DoesNotExist") [B] w0)
    as (wr & Hrun & Hresults & Hstatus).
  - reflexivity.
  - reflexivity.
  - reflexivity.
  - eapply Ran_cons; [evaluate | | apply Ran_nil].
    discriminate.
  - reflexivity.
  - eexists; eexists. split; [exact Hrun|].
    rewrite Hresults. split; [evaluate|].
    split; [exact Hstatus|]. evaluate.
Defined.

(** A workflow without flags and without options runs as one whose
    flags are false and whose options hold an entry under an id that is
    not listed. *)
Lemma workflow_reads_listed_options_only_witness :
  let this := Mock.controllerOf
                [Mock.resolving A success; Mock.resolving B warning] in
  ContentGuardianController.runWorkflow this article
    (Mock.workflow [A] None None) w0
  = ContentGuardianController.runWorkflow this article
      {| WorkflowOptions.modules := [A];
         WorkflowOptions.sequential := Some false;
         WorkflowOptions.stopOnError := Some false;
         WorkflowOptions.options := Some {[ B := Sample.tuned ]} |} w0.
Proof.
  intros this.
  apply workflow_reads_listed_options_only.
  - reflexivity.
  - reflexivity.
  - reflexivity.
  - constructor; [|constructor]. vm_compute. reflexivity.
Defined.

(** FactCheckLayer when the endpoint is out of service. *)
Lemma endpoint_failure_becomes_error_result_witness :
  exists r w',
    BaseModule.process (H := Sample.down) Modules.FactCheckLayer article
      None (Mock.start (H := Sample.down) [])
    = (Returned r, w') /\
    ModuleResult.status r = error /\
    ModuleResult.report r
    = js "Error during fact checking: Failed to generate completion: quota exceeded" /\
    ModuleResult.recommendedFixes r
    = Some [js "Retry the fact checking process";
            js "Check API connectivity"].
Proof.
  apply (endpoint_failure_becomes_error_result (H := Sample.down)
           Modules.FactCheckLayer article None
           (Mock.start (H := Sample.down) [])
           (JsError (js "quota exceeded"))).
  - reflexivity.
  - intros request. reflexivity.
Defined.

(** HallucinationFilter on an answer without content. *)
Lemma empty_completion_is_a_warning_witness :
  exists r w',
    BaseModule.process (H := Sample.silent) Modules.HallucinationFilter
      article None (Mock.start (H := Sample.silent) [])
    = (Returned r, w') /\
    ModuleResult.status r = warning /\
    ModuleResult.report r = [] /\
    ModuleResult.recommendedFixes r = None.
Proof.
  apply (empty_completion_is_a_warning (H := Sample.silent)
           Modules.HallucinationFilter article None
           (Mock.start (H := Sample.silent) []) None).
  - unfold Modules.all. rewrite !elem_of_cons. auto 15.
  - reflexivity.
  - intros request. reflexivity.
  - reflexivity.
Defined.

(** EthicalGuardian with an endpoint that fails: one request all the
    same, and it ends with the content. *)
Lemma process_sends_exactly_one_request_witness :
  let answer := fun _ : ChatRequest.t =>
                  @Thrown (option jsstring) (JsError (js "down")) in
  exists r w' request front,
    BaseModule.process (H := Mock.recording answer)
      Modules.EthicalGuardian article None
      (Mock.start (H := Mock.recording answer) [])
    = (Returned r, w') /\
    api w' = [request] /\
    ChatRequest.content request
    = front ++ nl
      ++ js "Artificial intelligence is transforming our world." ++ nl
      ++ js "    ".
Proof.
  intros answer.
  exact (process_sends_exactly_one_request answer Modules.EthicalGuardian
           article None (Mock.start (H := Mock.recording answer) [])
           eq_refl).
Defined.

(** FactCheckLayer without options asks for "gpt-4" and records
    "default-model"; with options that name a model it asks for that
    model and records it. *)
Lemma modelVersion_differs_from_requested_default_witness :
  (exists r w' request,
     BaseModule.process Modules.FactCheckLayer article None w0
     = (Returned r, w') /\
     api w' = [request] /\
     ChatRequest.model request = js "gpt-4" /\
     ModuleMetadata.modelVersion (ModuleResult.metadata r)
     = js "default-model") /\
  (exists r w' request,
     BaseModule.process Modules.FactCheckLayer article
       (Some Sample.tuned) w0
     = (Returned r, w') /\
     api w' = [request] /\
     ChatRequest.model request = js "gpt-4-turbo" /\
     ModuleMetadata.modelVersion (ModuleResult.metadata r)
     = js "gpt-4-turbo").
Proof.
  split.
  - destruct (modelVersion_differs_from_requested_default
                (fun _ => Returned (Some completion))
                Modules.FactCheckLayer article None w0 eq_refl)
      as (r & w' & request & Hrun & Hapi & _ & _ & Hdefault & _).
    destruct (Hdefault eq_refl) as [Hmodel Hversion].
    exists r, w', request. auto.
  - destruct (modelVersion_differs_from_requested_default
                (fun _ => Returned (Some completion))
                Modules.FactCheckLayer article (Some Sample.tuned) w0
                eq_refl)
      as (r & w' & request & Hrun & Hapi & Hmodel & Hversion & _).
    exists r, w', request. auto.
Defined.

(** FactCheckLayer on the default answer of the mocked provider, which
    has no section of recommendations. *)
Lemma missing_section_gives_no_fixes_witness :
  Parsed.recommendedFixes
    (parseResults Modules.FactCheckLayer (js "Default mock response"))
  = [].
Proof.
  apply missing_section_gives_no_fixes.
  - unfold Modules.all. rewrite !elem_of_cons. auto.
  - apply no_occurrence_before. evaluate.
Defined.

(** PromptTraceability, whose section ends at the first of two stops;
    the header is in lower case and the section holds a line that
    starts with the header. *)
Lemma fixes_are_the_lines_of_the_section_witness :
  sectionStops Modules.PromptTraceability
  = [js "IMPLEMENTATION_APPROACH:"; js "OVERALL_ASSESSMENT:"] /\
  Parsed.recommendedFixes
    (parseResults Modules.PromptTraceability
       ((js "TRACEABILITY: partial" ++ nl) ++ js "recommended_metadata:"
        ++ (nl ++ js "  - model name " ++ nl ++ nl
            ++ js "RECOMMENDED_METADATA: none" ++ nl ++ js "- run id"
            ++ nl)
        ++ (js "Implementation_Approach: log it" ++ nl
            ++ js "OVERALL_ASSESSMENT: NOT_TRACEABLE")))
  = [js "- model name"; js "- run id"].
Proof.
  split; [reflexivity|].
  rewrite (fixes_are_the_lines_of_the_section Modules.PromptTraceability
             (js "TRACEABILITY: partial" ++ nl)
             (js "recommended_metadata:")).
  - evaluate.
  - unfold Modules.all. rewrite !elem_of_cons. auto 15.
  - reflexivity.
  - apply no_occurrence_before. evaluate.
  - apply no_stop_before. evaluate.
  - reflexivity.
Defined.

(** EthicalGuardian on a completion that does not rate the content. *)
Lemma missing_status_line_is_a_warning_witness :
  statusField Modules.EthicalGuardian = js "OVERALL_RATING:" /\
  Parsed.status
    (parseResults Modules.EthicalGuardian
       (js "SUMMARY: The content is generally balanced."))
  = warning.
Proof.
  split; [reflexivity|].
  apply missing_status_line_is_a_warning.
  - unfold Modules.all. rewrite !elem_of_cons. auto.
  - apply no_occurrence_before. evaluate.
Defined.

(** EthicalGuardian on a status line in lower case, with a line break
    behind the field name and text behind the word. *)
Lemma status_words_are_read_in_any_case_witness :
  Parsed.status
    (parseResults Modules.EthicalGuardian
       ((js "SUMMARY: balanced." ++ nl) ++ js "overall_rating:"
        ++ (js " " ++ nl) ++ js "Needs_Revision"
        ++ js " (see the issues above)"))
  = warning.
Proof.
  apply (status_words_are_read_in_any_case Modules.EthicalGuardian
           (js "SUMMARY: balanced." ++ nl) (js "overall_rating:")
           (js " " ++ nl) (js "Needs_Revision")
           (js " (see the issues above)")).
  - unfold Modules.all. rewrite !elem_of_cons. auto.
  - intros Heq. apply (f_equal ModuleClass.moduleId) in Heq.
    vm_compute in Heq. discriminate Heq.
  - apply no_occurrence_before. evaluate.
  - reflexivity.
  - reflexivity.
  - reflexivity.
Defined.


(** A sequential workflow over FactCheckLayer, without options of its
    own, and EthicalGuardian, with a custom prompt and a model: two
    requests, the first with the default prompt of FactCheckLayer for
    "gpt-4", the second with the custom prompt for the model named. *)
Lemma workflow_sends_one_request_per_module_witness :
  let wo :=
    {| WorkflowOptions.modules := [A; B];
       WorkflowOptions.sequential := Some true;
       WorkflowOptions.stopOnError := None;
       WorkflowOptions.options := Some {[ B := Sample.tuned ]} |} in
  exists wr w' request1 request2 block1 block2,
    ContentGuardianController.runWorkflow Sample.registry article wo w0
    = (Returned wr, w') /\
    api w' = [request1; request2] /\
    ChatRequest.content request1
    = nl ++ ModuleClass.getDefaultPrompt Modules.FactCheckLayer ++ block1 /\
    ChatRequest.model request1 = js "gpt-4" /\
    ChatRequest.content request2
    = nl ++ js "Analyze the following content carefully." ++ block2 /\
    ChatRequest.model request2 = js "gpt-4-turbo".
Proof.
  intros wo.
  destruct (workflow_sends_one_request_per_module
              (fun _ => Returned (Some completion)) Modules.all
              Sample.registry article wo w0 eq_refl eq_refl eq_refl
              eq_refl)
    as (wr & w' & requests & Hrun & Hapi & Hall).
  apply Forall2_cons_inv_l in Hall
    as (request1 & rest & (C1 & HC1 & (block1 & Hp1) & Hm1) & Hall & ->).
  apply Forall2_cons_inv_l in Hall
    as (request2 & rest' & (C2 & HC2 & (block2 & Hp2) & Hm2) & Hall & ->).
  apply Forall2_nil_inv_l in Hall as ->.
  vm_compute in HC1. injection HC1 as <-.
  vm_compute in HC2. injection HC2 as <-.
  exists wr, w', request1, request2, block1, block2.
  split; [exact Hrun|]. split; [exact Hapi|].
  split; [exact Hp1|]. split; [exact Hm1|].
  split; [exact Hp2 | exact Hm2].
Defined.


(** The results that the test suite builds: the summary of its
    workflow result has no line about the two fixes of the warning, the
    summary of the controller has one. *)
Lemma mock_summary_of_a_warning :
  exists r w1 wr w2,
    TestUtils.createMockWarningResult A w0 = (Returned r, w1) /\
    TestUtils.createMockWorkflowResult [r] w1 = (Returned wr, w2) /\
    WorkflowResult.status wr = warning /\
    WorkflowResult.summary wr
    = summaryHead [r] ++ js "Issues found:" ++ nl
      ++ js "- [WARNING] FactCheckLayer: The content has been analyzed with some minor issues found."
      ++ nl /\
    ContentGuardianController.generateWorkflowSummary [r]
    = WorkflowResult.summary wr ++ js "  Recommended fixes: 2" ++ nl.
Proof.
  eexists; eexists; eexists; eexists.
  split; [reflexivity|]. split; [reflexivity|].
  split; [reflexivity|]. split; evaluate.
Qed.

End Checks.
